(** * stack-aws: the EKS cluster reconciler and the IAM role-policy
      attachment adapter, as a shallow embedding.

    Sources embedded here:
    - [pkg/controller/compute/eks.go]  ([fail], [_create], [_sync],
      [_delete], [Reconcile], the wait constants, the CloudFormation state
      tables);
    - [apis/compute/v1alpha2/types.go]  (the [EKSCluster] document and the
      [Assign] methods of its attribute referencers);
    - [apis/network/v1alpha2/securitygroup_referencers.go]  ([GetStatus],
      [Build]);
    - [pkg/controller/identity/iamrolepolicyattachment/controller_test.go]
      (the table of [Test_Update]).

    The reconciler mutates one [*EKSCluster] in place and talks to the
    provider, to the API server and to the reference reader.  A pass is
    modelled in a state monad over the instance, the API server's copy and
    the log of calls issued; a nil-pointer dereference ends the pass with
    [Panicked]. *)

From Stdlib Require Import String Ascii List ZArith Bool Lia.
Import ListNotations.
Open Scope string_scope.
Open Scope Z_scope.

Set Implicit Arguments.

(* ===================================================================== *)
(** ** Go values: errors, durations, results *)
(* ===================================================================== *)

(** The status a referencer reports for its target
    ([resource.ReferenceStatusType]). *)
Inductive ReferenceStatusType := ReferenceNotFound | ReferenceNotReady | ReferenceReady.

Record ReferenceStatus := mkReferenceStatus {
  RefName : string;
  RefStatus : ReferenceStatusType
}.

(** Go's [error] values that reach the controller.  [nil] is [None] of
    [option error]. *)
Inductive error :=
| errorsNew (msg : string)                         (* errors.New, fmt.Errorf *)
| awsErr (code msg : string)                       (* awserr.Error of the SDK *)
| statusErr (reason msg : string)                  (* kerrors.StatusError *)
| referencesAccessErr (statuses : list ReferenceStatus)
| wrapped (cause : error) (msg : string).          (* errors.Wrap(cause, msg) *)

Definition ReferenceStatusType_String (t : ReferenceStatusType) : string :=
  match t with
  | ReferenceNotFound => "NotFound"
  | ReferenceNotReady => "NotReady"
  | ReferenceReady => "Ready"
  end.

Definition ReferenceStatus_String (s : ReferenceStatus) : string :=
  "{reference:" ++ RefName s ++ " status:" ++ ReferenceStatusType_String (RefStatus s) ++ "}".

(** [strings.Join]. *)
Fixpoint Join (elems : list string) (sep : string) : string :=
  match elems with
  | [] => ""
  | [e] => e
  | e :: rest => e ++ sep ++ Join rest sep
  end.

(** [err.Error()]. *)
Fixpoint Error (e : error) : string :=
  match e with
  | errorsNew m => m
  | awsErr code m => code ++ ": " ++ m
  | statusErr _ m => m
  | referencesAccessErr sts => "[" ++ Join (map ReferenceStatus_String sts) " " ++ "]"
  | wrapped cause m => m ++ ": " ++ Error cause
  end.

(** [errors.Wrap]: wrapping [nil] is [nil]. *)
Definition Wrap (err : option error) (msg : string) : option error :=
  match err with
  | None => None
  | Some e => Some (wrapped e msg)
  end.

(** [kerrors.IsNotFound]: a status error whose reason is
    [metav1.StatusReasonNotFound]. *)
Definition StatusReasonNotFound : string := "NotFound".

Definition kerrors_IsNotFound (e : error) : bool :=
  match e with
  | statusErr reason _ => String.eqb reason StatusReasonNotFound
  | _ => false
  end.

(** [resource.IgnoreNotFound]. *)
Definition IgnoreNotFound (e : error) : option error :=
  if kerrors_IsNotFound e then None else Some e.

(** [resource.IsReferencesAccessError]. *)
Definition IsReferencesAccessError (e : error) : bool :=
  match e with
  | referencesAccessErr _ => true
  | _ => false
  end.

(** [time.Duration] counts nanoseconds. *)
Definition Duration := Z.
Definition time_Second : Duration := 1000000000.

(** Amounts of time we wait before requeuing a reconcile. *)
Definition aShortWait : Duration := 30 * time_Second.
Definition aLongWait : Duration := 60 * time_Second.

(** [reconcile.Result]. *)
Record Result := mkResult {
  Requeue : bool;
  RequeueAfter : Duration
}.

(** [reconcile.Result{}]. *)
Definition Result_zero : Result := mkResult false 0.

(* ===================================================================== *)
(** ** Conditions ([runtimev1alpha1.ConditionedStatus]) *)
(* ===================================================================== *)

(** [ConditionType], [corev1.ConditionStatus] and [ConditionReason] are
    string types. *)
Definition ConditionType := string.
Definition TypeReady : ConditionType := "Ready".
Definition TypeSynced : ConditionType := "Synced".
Definition TypeReferencesResolved : ConditionType := "ReferencesResolved".

Definition ConditionStatus := string.
Definition ConditionTrue : ConditionStatus := "True".
Definition ConditionFalse : ConditionStatus := "False".
Definition ConditionUnknown : ConditionStatus := "Unknown".

Definition ConditionReason := string.
Definition ReasonAvailable : ConditionReason := "Managed resource is available for use".
Definition ReasonCreating : ConditionReason := "Managed resource is being created".
Definition ReasonDeleting : ConditionReason := "Managed resource is being deleted".
Definition ReasonReconcileSuccess : ConditionReason :=
  "Successfully reconciled managed resource".
Definition ReasonReconcileError : ConditionReason :=
  "Encountered an error during managed resource reconciliation".
Definition ReasonReferenceResolveSuccess : ConditionReason :=
  "Successfully resolved managed resource references to other resources".
Definition ReasonResolveReferencesBlocked : ConditionReason :=
  "One or more referenced resources do not exist, or are not yet Ready".

(** A condition without its [LastTransitionTime]: the wall clock is not
    part of the model, and [Condition.Equal] ignores it as well. *)
Record Condition := mkCondition {
  CType : ConditionType;
  CStatus : ConditionStatus;
  CReason : ConditionReason;
  CMessage : string
}.

Definition Creating : Condition := mkCondition TypeReady ConditionFalse ReasonCreating "".
Definition Deleting : Condition := mkCondition TypeReady ConditionFalse ReasonDeleting "".
Definition Available : Condition := mkCondition TypeReady ConditionTrue ReasonAvailable "".
Definition ReconcileSuccess : Condition :=
  mkCondition TypeSynced ConditionTrue ReasonReconcileSuccess "".
Definition ReconcileError (err : error) : Condition :=
  mkCondition TypeSynced ConditionFalse ReasonReconcileError (Error err).
Definition ReferenceResolutionSuccess : Condition :=
  mkCondition TypeReferencesResolved ConditionTrue ReasonReferenceResolveSuccess "".
Definition ReferenceResolutionBlocked (err : error) : Condition :=
  mkCondition TypeReferencesResolved ConditionFalse ReasonResolveReferencesBlocked (Error err).

(** Modelled from the spec: [ConditionedStatus.GetCondition] of
    crossplane-runtime (4.4, Condition Tracker): the condition of the given
    type, an Unknown one when there is none. *)
Fixpoint GetCondition (cs : list Condition) (ct : ConditionType) : Condition :=
  match cs with
  | [] => mkCondition ct ConditionUnknown "" ""
  | c :: rest => if String.eqb (CType c) ct then c else GetCondition rest ct
  end.

(** [resource.IsConditionTrue]. *)
Definition IsConditionTrue (c : Condition) : bool :=
  String.eqb (CStatus c) ConditionTrue.

(** Modelled from the spec: one step of [ConditionedStatus.SetConditions]
    (4.4): a condition replaces every existing condition of its type and is
    appended when the type is new. *)
Fixpoint replaceCondition (cs : list Condition) (new : Condition) : list Condition * bool :=
  match cs with
  | [] => ([], false)
  | c :: rest =>
      let (rest', found) := replaceCondition rest new in
      if String.eqb (CType c) (CType new) then (new :: rest', true)
      else (c :: rest', found)
  end.

Definition SetCondition (cs : list Condition) (new : Condition) : list Condition :=
  let (cs', found) := replaceCondition cs new in
  if found then cs' else cs' ++ [new].

(** [SetConditions(c ...Condition)]: the conditions are set left to right. *)
Definition SetConditions (cs : list Condition) (new : list Condition) : list Condition :=
  fold_left SetCondition new cs.

(* ===================================================================== *)
(** ** The EKSCluster document ([apis/compute/v1alpha2/types.go]) *)
(* ===================================================================== *)

(** Cluster statuses. *)
Definition ClusterStatusCreating : string := "CREATING".
Definition ClusterStatusActive : string := "ACTIVE".

(** [runtimev1alpha1.ReclaimDelete]. *)
Definition ReclaimDelete : string := "Delete".

Record MapRole := mkMapRole {
  MapRole_RoleARN : string;
  MapRole_Username : string;
  MapRole_Groups : list string
}.

Record MapUser := mkMapUser {
  MapUser_UserARN : string;
  MapUser_Username : string;
  MapUser_Groups : list string
}.

(** A [...Ref] field is a pointer to a referencer that embeds a
    [corev1.LocalObjectReference]: [None] is the nil pointer, [Some n] names
    the referenced object. *)
Record WorkerNodesSpec := mkWorkerNodesSpec {
  KeyName : string;
  NodeImageID : string;
  NodeInstanceType : string;
  NodeAutoScalingGroupMinSize : option Z;
  NodeAutoScalingGroupMaxSize : option Z;
  NodeVolumeSize : option Z;
  BootstrapArguments : string;
  NodeGroupName : string;
  ClusterControlPlaneSecurityGroup : string;
  ClusterControlPlaneSecurityGroupRef : option string
}.

Record EKSClusterParameters := mkEKSClusterParameters {
  Region : string;
  RoleARN : string;
  RoleARNRef : option string;
  VPCID : string;
  VPCIDRef : option string;
  SubnetIDs : list string;
  SubnetIDRefs : list string;
  SecurityGroupIDs : list string;
  SecurityGroupIDRefs : list string;
  ClusterVersion : string;
  WorkerNodes : WorkerNodesSpec;
  MapRoles : list MapRole;
  MapUsers : list MapUser
}.

(** [EKSClusterSpec]: the inlined [runtimev1alpha1.ResourceSpec] (its two
    fields the controller reads) and the inlined parameters. *)
Record EKSClusterSpec := mkEKSClusterSpec {
  ProviderReference : string;
  ReclaimPolicy : string;
  Parameters : EKSClusterParameters
}.

(** [EKSClusterStatus]: the inlined [runtimev1alpha1.ResourceStatus]
    (conditions and binding phase) and the cluster's own fields. *)
Record EKSClusterStatus := mkEKSClusterStatus {
  Conditions : list Condition;
  BindingPhase : string;
  State : string;
  ClusterName : string;
  Status_ClusterVersion : string;
  Endpoint : string;
  CloudFormationStackID : string
}.

(** [EKSCluster]: the fields of [metav1.ObjectMeta] the controller uses,
    [Spec] and [Status].  [DeletionTimestamp] is a pointer. *)
Record EKSCluster := mkEKSCluster {
  Namespace : string;
  Name : string;
  UID : string;
  DeletionTimestamp : option Z;
  Finalizers : list string;
  Spec : EKSClusterSpec;
  Status : EKSClusterStatus
}.

(** Field assignments [instance.F = v]. *)
Definition set_Status (f : EKSClusterStatus -> EKSClusterStatus) (i : EKSCluster) : EKSCluster :=
  mkEKSCluster (Namespace i) (Name i) (UID i) (DeletionTimestamp i) (Finalizers i)
               (Spec i) (f (Status i)).

Definition set_Finalizers (fs : list string) (i : EKSCluster) : EKSCluster :=
  mkEKSCluster (Namespace i) (Name i) (UID i) (DeletionTimestamp i) fs (Spec i) (Status i).

Definition set_Parameters (f : EKSClusterParameters -> EKSClusterParameters)
    (i : EKSCluster) : EKSCluster :=
  mkEKSCluster (Namespace i) (Name i) (UID i) (DeletionTimestamp i) (Finalizers i)
               (mkEKSClusterSpec (ProviderReference (Spec i)) (ReclaimPolicy (Spec i))
                                 (f (Parameters (Spec i))))
               (Status i).

Definition with_Conditions (cs : list Condition) (s : EKSClusterStatus) :=
  mkEKSClusterStatus cs (BindingPhase s) (State s) (ClusterName s)
                     (Status_ClusterVersion s) (Endpoint s) (CloudFormationStackID s).
Definition with_BindingPhase (v : string) (s : EKSClusterStatus) :=
  mkEKSClusterStatus (Conditions s) v (State s) (ClusterName s)
                     (Status_ClusterVersion s) (Endpoint s) (CloudFormationStackID s).
Definition with_State (v : string) (s : EKSClusterStatus) :=
  mkEKSClusterStatus (Conditions s) (BindingPhase s) v (ClusterName s)
                     (Status_ClusterVersion s) (Endpoint s) (CloudFormationStackID s).
Definition with_ClusterName (v : string) (s : EKSClusterStatus) :=
  mkEKSClusterStatus (Conditions s) (BindingPhase s) (State s) v
                     (Status_ClusterVersion s) (Endpoint s) (CloudFormationStackID s).
Definition with_ClusterVersion (v : string) (s : EKSClusterStatus) :=
  mkEKSClusterStatus (Conditions s) (BindingPhase s) (State s) (ClusterName s)
                     v (Endpoint s) (CloudFormationStackID s).
Definition with_Endpoint (v : string) (s : EKSClusterStatus) :=
  mkEKSClusterStatus (Conditions s) (BindingPhase s) (State s) (ClusterName s)
                     (Status_ClusterVersion s) v (CloudFormationStackID s).
Definition with_CloudFormationStackID (v : string) (s : EKSClusterStatus) :=
  mkEKSClusterStatus (Conditions s) (BindingPhase s) (State s) (ClusterName s)
                     (Status_ClusterVersion s) (Endpoint s) v.

Definition with_RoleARN (v : string) (p : EKSClusterParameters) :=
  mkEKSClusterParameters (Region p) v (RoleARNRef p) (VPCID p) (VPCIDRef p)
    (SubnetIDs p) (SubnetIDRefs p) (SecurityGroupIDs p) (SecurityGroupIDRefs p)
    (ClusterVersion p) (WorkerNodes p) (MapRoles p) (MapUsers p).
Definition with_VPCID (v : string) (p : EKSClusterParameters) :=
  mkEKSClusterParameters (Region p) (RoleARN p) (RoleARNRef p) v (VPCIDRef p)
    (SubnetIDs p) (SubnetIDRefs p) (SecurityGroupIDs p) (SecurityGroupIDRefs p)
    (ClusterVersion p) (WorkerNodes p) (MapRoles p) (MapUsers p).
Definition with_SubnetIDs (v : list string) (p : EKSClusterParameters) :=
  mkEKSClusterParameters (Region p) (RoleARN p) (RoleARNRef p) (VPCID p) (VPCIDRef p)
    v (SubnetIDRefs p) (SecurityGroupIDs p) (SecurityGroupIDRefs p)
    (ClusterVersion p) (WorkerNodes p) (MapRoles p) (MapUsers p).
Definition with_SecurityGroupIDs (v : list string) (p : EKSClusterParameters) :=
  mkEKSClusterParameters (Region p) (RoleARN p) (RoleARNRef p) (VPCID p) (VPCIDRef p)
    (SubnetIDs p) (SubnetIDRefs p) v (SecurityGroupIDRefs p)
    (ClusterVersion p) (WorkerNodes p) (MapRoles p) (MapUsers p).
Definition with_ClusterControlPlaneSecurityGroup (v : string) (p : EKSClusterParameters) :=
  let w := WorkerNodes p in
  mkEKSClusterParameters (Region p) (RoleARN p) (RoleARNRef p) (VPCID p) (VPCIDRef p)
    (SubnetIDs p) (SubnetIDRefs p) (SecurityGroupIDs p) (SecurityGroupIDRefs p)
    (ClusterVersion p)
    (mkWorkerNodesSpec (KeyName w) (NodeImageID w) (NodeInstanceType w)
       (NodeAutoScalingGroupMinSize w) (NodeAutoScalingGroupMaxSize w) (NodeVolumeSize w)
       (BootstrapArguments w) (NodeGroupName w) v (ClusterControlPlaneSecurityGroupRef w))
    (MapRoles p) (MapUsers p).

(** [&EKSCluster{}]: the zero value [Reconcile] hands to [r.Get]. *)
Definition EKSCluster_zero : EKSCluster :=
  mkEKSCluster "" "" "" None []
    (mkEKSClusterSpec "" ""
       (mkEKSClusterParameters "" "" None "" None [] [] [] [] ""
          (mkWorkerNodesSpec "" "" "" None None None "" "" "" None) [] []))
    (mkEKSClusterStatus [] "" "" "" "" "" "").

(** Modelled from the spec: [meta.AddFinalizer] and [meta.RemoveFinalizer]
    of crossplane-runtime (3, "an optional set of Finalizers"): adding is a
    no-op when the finalizer is present, removing drops it. *)
Definition AddFinalizer (finalizer : string) (i : EKSCluster) : EKSCluster :=
  if existsb (String.eqb finalizer) (Finalizers i) then i
  else set_Finalizers (Finalizers i ++ [finalizer]) i.

Definition RemoveFinalizer (finalizer : string) (i : EKSCluster) : EKSCluster :=
  set_Finalizers (filter (fun e => negb (String.eqb e finalizer)) (Finalizers i)) i.

(** Modelled from the spec: [resource.SetBindable] of crossplane-runtime: an
    instance that is not bound becomes available for binding. *)
Definition BindingPhaseUnbound : string := "Unbound".
Definition BindingPhaseBound : string := "Bound".

Definition SetBindable (i : EKSCluster) : EKSCluster :=
  if String.eqb (BindingPhase (Status i)) BindingPhaseBound then i
  else set_Status (with_BindingPhase BindingPhaseUnbound) i.

(** [instance.Status.SetConditions(c...)]. *)
Definition Status_SetConditions (new : list Condition) (i : EKSCluster) : EKSCluster :=
  set_Status (fun s => with_Conditions (SetConditions (Conditions s) new) s) i.

(** [instance.GetCondition(ct)]. *)
Definition Instance_GetCondition (i : EKSCluster) (ct : ConditionType) : Condition :=
  GetCondition (Conditions (Status i)) ct.

(** Constants of [eks.go]. *)
Definition controllerName : string := "eks.compute.aws.crossplane.io".
Definition finalizer : string := "finalizer." ++ controllerName.
Definition clusterNamePrefix : string := "eks-".
Definition errUpdateManagedStatus : string := "cannot update managed resource status".

(* ===================================================================== *)
(** ** Collaborators: provider client, API server, reference reader *)
(* ===================================================================== *)

(** [eks.Cluster] and [eks.ClusterWorkers], as the provider client returns
    them (behind pointers). *)
Record Cluster := mkCluster {
  Cluster_Status : string;
  Cluster_Endpoint : string;
  Cluster_CA : string;
  Cluster_Version : string
}.

Record ClusterWorkers := mkClusterWorkers {
  WorkerStackID : string;
  WorkersStatus : string;          (* cf.StackStatus *)
  WorkerReason : string;
  WorkerARN : string
}.

(** The [eks.Client] interface.  A [*T, error] result is a pair: either
    component may be nil. *)
Record Client := mkClient {
  Create : string -> EKSClusterSpec -> option Cluster * option error;
  Get : string -> option Cluster * option error;
  Delete : string -> option error;
  CreateWorkerNodes : string -> string -> EKSClusterSpec -> option ClusterWorkers * option error;
  GetWorkerNodes : string -> option ClusterWorkers * option error;
  DeleteWorkerNodes : string -> option error
}.

(** Package-level functions of [pkg/clients/eks] and
    [pkg/clients/cloudformation] that classify provider errors, and Go's
    [%q] verb.  Their code is outside the files embedded here, so the
    controller is parametrised by them. *)
Record Externals := mkExternals {
  eks_IsErrorAlreadyExists : error -> bool;
  eks_IsErrorBadRequest : error -> bool;
  eks_IsErrorNotFound : error -> bool;
  cloudformation_IsErrorNotFound : error -> bool;
  fmt_q : string -> string
}.

(** The kinds of managed resources an EKSCluster refers to, and what a
    referencer reads of one: its conditions and the attribute it borrows. *)
Inductive Kind := IAMRole | VPC | Subnet | SecurityGroup.

Record Target := mkTarget {
  Target_Conditions : list Condition;
  Target_Attribute : string
}.

(** The attribute referencers of [types.go]; each embeds a
    [LocalObjectReference] with the target's name. *)
Inductive Referencer :=
| IAMRoleARNReferencerForEKSCluster (name : string)
| VPCIDReferencerForEKSCluster (name : string)
| SubnetIDReferencerForEKSCluster (name : string)
| SecurityGroupIDReferencerForEKSCluster (name : string)
| SecurityGroupIDReferencerForEKSWorkerNodes (name : string).

Definition Referencer_Name (v : Referencer) : string :=
  match v with
  | IAMRoleARNReferencerForEKSCluster n | VPCIDReferencerForEKSCluster n
  | SubnetIDReferencerForEKSCluster n | SecurityGroupIDReferencerForEKSCluster n
  | SecurityGroupIDReferencerForEKSWorkerNodes n => n
  end.

Definition Referencer_Kind (v : Referencer) : Kind :=
  match v with
  | IAMRoleARNReferencerForEKSCluster _ => IAMRole
  | VPCIDReferencerForEKSCluster _ => VPC
  | SubnetIDReferencerForEKSCluster _ => Subnet
  | SecurityGroupIDReferencerForEKSCluster _
  | SecurityGroupIDReferencerForEKSWorkerNodes _ => SecurityGroup
  end.

(** The calls a pass issues, in the order it issues them. *)
Inductive Event :=
| EvKubeGet
| EvKubeUpdate (obj : EKSCluster)
| EvConnect
| EvGetStatus (v : Referencer)
| EvBuild (v : Referencer)
| EvAssign (v : Referencer) (value : string)
| EvCreate (name : string) (spec : EKSClusterSpec)
| EvGet (name : string)
| EvDelete (name : string)
| EvCreateWorkerNodes (name version : string) (spec : EKSClusterSpec)
| EvGetWorkerNodes (stackID : string)
| EvDeleteWorkerNodes (stackID : string)
| EvAwsAuth (workerARN : string)
| EvSecret.

(** The [Reconciler]: the API client it embeds (as the answers the server
    gives), the reader its reference resolver uses, and its function-valued
    fields [connect], [secret] and [awsauth].  [create], [sync] and [delete]
    are wired to [_create], [_sync] and [_delete] by [SetupWithManager] and
    are called directly below. *)
Record Reconciler := mkReconciler {
  Client_GetErr : option error;
  Client_UpdateErr : EKSCluster -> option error;
  Reader_Get : Kind -> string -> string -> Target + error;
  connect : EKSCluster -> Client + error;
  secret : Cluster -> EKSCluster -> option error;
  awsauth : Cluster -> EKSCluster -> string -> option error
}.

(* ===================================================================== *)
(** ** The monad of a reconciliation pass *)
(* ===================================================================== *)

(** What a pass works on: the [*EKSCluster] it mutates, the copy the API
    server holds for the request ([None]: no such object), and the calls
    issued so far. *)
Record St := mkSt {
  instance : EKSCluster;
  server : option EKSCluster;
  calls : list Event
}.

Inductive Outcome (A : Type) :=
| Returned (a : A)
| Panicked.
Arguments Panicked {A}.

Definition M (A : Type) : Type := St -> Outcome A * St.

Definition ret {A} (a : A) : M A := fun s => (Returned a, s).

Definition bind {A B} (m : M A) (k : A -> M B) : M B :=
  fun s => match m s with
           | (Returned a, s') => k a s'
           | (Panicked, s') => (Panicked, s')
           end.

Declare Scope pass_scope.
Delimit Scope pass_scope with pass.
Notation "x <- c1 ;; c2" := (bind c1 (fun x => c2))
  (at level 100, c1 at next level, right associativity) : pass_scope.
Notation "' pat <- c1 ;; c2" := (bind c1 (fun x => let 'pat := x in c2))
  (at level 100, pat pattern, c1 at next level, right associativity) : pass_scope.
Notation "c1 ;; c2" := (bind c1 (fun _ => c2))
  (at level 100, right associativity) : pass_scope.
Open Scope pass_scope.

Definition panic {A} : M A := fun s => (Panicked, s).

(** Dereferencing a pointer. *)
Definition deref {A} (p : option A) : M A :=
  match p with Some a => ret a | None => panic end.

Definition getInstance : M EKSCluster := fun s => (Returned (instance s), s).

Definition modify (f : EKSCluster -> EKSCluster) : M unit :=
  fun s => (Returned tt, mkSt (f (instance s)) (server s) (calls s)).

Definition emit (e : Event) : M unit :=
  fun s => (Returned tt, mkSt (instance s) (server s) (calls s ++ [e])).

(** [r.Get(ctx, request.NamespacedName, instance)]: the server's copy is
    read into the instance; an absent object is a NotFound status error. *)
Definition errNotFound : error := statusErr StatusReasonNotFound "not found".

Definition Client_Get (r : Reconciler) : M (option error) :=
  emit EvKubeGet ;;
  match Client_GetErr r with
  | Some e => ret (Some e)
  | None =>
      fun s => match server s with
               | None => (Returned (Some errNotFound), s)
               | Some o => (Returned None, mkSt o (server s) (calls s))
               end
  end.

(** [r.Update(ctx, instance)]: when the server accepts the write its copy
    becomes the instance; an object marked for deletion whose last finalizer
    is gone is removed. *)
Definition stored (i : EKSCluster) : option EKSCluster :=
  match DeletionTimestamp i, Finalizers i with
  | Some _, [] => None
  | _, _ => Some i
  end.

Definition Client_Update (r : Reconciler) : M (option error) :=
  i <- getInstance ;;
  emit (EvKubeUpdate i) ;;
  match Client_UpdateErr r i with
  | Some e => ret (Some e)
  | None => fun s => (Returned None, mkSt (instance s) (stored i) (calls s))
  end.

(* ===================================================================== *)
(** ** Reference resolution *)
(* ===================================================================== *)

(** [GetStatus] of a referencer ([securitygroup_referencers.go]; the
    referencers of the other kinds read their own kind the same way). *)
Definition GetStatus (r : Reconciler) (v : Referencer) : M (list ReferenceStatus * option error) :=
  res <- getInstance ;;
  emit (EvGetStatus v) ;;
  match Reader_Get r (Referencer_Kind v) (Namespace res) (Referencer_Name v) with
  | inr err =>
      if kerrors_IsNotFound err
      then ret ([mkReferenceStatus (Referencer_Name v) ReferenceNotFound], None)
      else ret ([], Some err)
  | inl sg =>
      if negb (IsConditionTrue (GetCondition (Target_Conditions sg) TypeReady))
      then ret ([mkReferenceStatus (Referencer_Name v) ReferenceNotReady], None)
      else ret ([mkReferenceStatus (Referencer_Name v) ReferenceReady], None)
  end.

(** [Build] of a referencer. *)
Definition Build (r : Reconciler) (v : Referencer) : M (string * option error) :=
  res <- getInstance ;;
  emit (EvBuild v) ;;
  match Reader_Get r (Referencer_Kind v) (Namespace res) (Referencer_Name v) with
  | inr err => ret ("", Some err)
  | inl sg => ret (Target_Attribute sg, None)
  end.

(** The [Assign] methods of [types.go].  The resource is an [*EKSCluster]
    here, so the type assertion succeeds and the result is nil. *)
Definition assignTo (v : Referencer) (value : string) (eks : EKSCluster) : EKSCluster :=
  match v with
  | VPCIDReferencerForEKSCluster _ => set_Parameters (with_VPCID value) eks
  | IAMRoleARNReferencerForEKSCluster _ => set_Parameters (with_RoleARN value) eks
  | SubnetIDReferencerForEKSCluster _ =>
      set_Parameters (fun p => with_SubnetIDs (SubnetIDs p ++ [value]) p) eks
  | SecurityGroupIDReferencerForEKSCluster _ =>
      set_Parameters (fun p => with_SecurityGroupIDs (SecurityGroupIDs p ++ [value]) p) eks
  | SecurityGroupIDReferencerForEKSWorkerNodes _ =>
      set_Parameters (with_ClusterControlPlaneSecurityGroup value) eks
  end.

Definition Assign (v : Referencer) (value : string) : M (option error) :=
  emit (EvAssign v value) ;;
  modify (assignTo v value) ;;
  ret None.

Definition optRef (mk : string -> Referencer) (p : option string) : list Referencer :=
  match p with Some n => [mk n] | None => [] end.

(** Modelled from the spec: the referencers of an EKSCluster, which
    crossplane-runtime finds through the [resource:"attributereferencer"]
    tags of [types.go], in field order; nil pointers are skipped. *)
Definition FindReferencers (res : EKSCluster) : list Referencer :=
  let p := Parameters (Spec res) in
  optRef IAMRoleARNReferencerForEKSCluster (RoleARNRef p)
  ++ optRef VPCIDReferencerForEKSCluster (VPCIDRef p)
  ++ map SubnetIDReferencerForEKSCluster (SubnetIDRefs p)
  ++ map SecurityGroupIDReferencerForEKSCluster (SecurityGroupIDRefs p)
  ++ optRef SecurityGroupIDReferencerForEKSWorkerNodes
       (ClusterControlPlaneSecurityGroupRef (WorkerNodes p)).

Definition errGetReferencerStatus : string := "could not get referenced resource status".
Definition errBuildAttribute : string := "could not build the attribute".
Definition errAssignAttribute : string := "could not assign the attribute".
Definition errUpdateReferencer : string := "could not update resource referencer".

(** Modelled from the spec: the blocked outcome of 4.1: the statuses that
    are NotFound or NotReady, as an error of its own type; nil when every
    reference is Ready. *)
Definition newReferenceAccessErr (statuses : list ReferenceStatus) : option error :=
  match filter (fun st => match RefStatus st with ReferenceReady => false | _ => true end)
               statuses with
  | [] => None
  | failures => Some (referencesAccessErr failures)
  end.

(** The loop that asks every referencer for its status. *)
Fixpoint getAllStatuses (r : Reconciler) (referencers : list Referencer)
    (allStatuses : list ReferenceStatus) : M (list ReferenceStatus * option error) :=
  match referencers with
  | [] => ret (allStatuses, None)
  | referencer :: rest =>
      '(statuses, err) <- GetStatus r referencer ;;
      match err with
      | Some e => ret (allStatuses, Some (wrapped e errGetReferencerStatus))
      | None => getAllStatuses r rest (allStatuses ++ statuses)
      end
  end.

(** The loop that builds and assigns every attribute. *)
Fixpoint buildAndAssign (r : Reconciler) (referencers : list Referencer) : M (option error) :=
  match referencers with
  | [] => ret None
  | referencer :: rest =>
      '(val, err) <- Build r referencer ;;
      match err with
      | Some e => ret (Some (wrapped e errBuildAttribute))
      | None =>
          err <- Assign referencer val ;;
          match err with
          | Some e => ret (Some (wrapped e errAssignAttribute))
          | None => buildAndAssign r rest
          end
      end
  end.

(** Modelled from the spec: [ResolveReferences] of the resolver that
    [SetupWithManager] installs (4.1, Reference Resolver): every reference
    is asked for its status; any NotFound or NotReady blocks resolution;
    otherwise each value is built and assigned, and the resource is
    persisted. *)
Definition ResolveReferences (r : Reconciler) : M (option error) :=
  res <- getInstance ;;
  let referencers := FindReferencers res in
  match referencers with
  | [] => ret None
  | _ =>
      '(allStatuses, err) <- getAllStatuses r referencers [] ;;
      match err with
      | Some e => ret (Some e)
      | None =>
          match newReferenceAccessErr allStatuses with
          | Some e => ret (Some e)
          | None =>
              err <- buildAndAssign r referencers ;;
              match err with
              | Some e => ret (Some e)
              | None =>
                  err <- Client_Update r ;;
                  ret (Wrap err errUpdateReferencer)
              end
          end
      end
  end.

(* ===================================================================== *)
(** ** The controller ([pkg/controller/compute/eks.go]) *)
(* ===================================================================== *)

(** CloudFormation states that are non-transitory. *)
Definition completedCFState (s : string) : bool :=
  existsb (String.eqb s) ["CREATE_COMPLETE"; "UPDATE_COMPLETE"].

Definition failedCFState (s : string) : bool :=
  existsb (String.eqb s)
    ["CREATE_FAILED"; "ROLLBACK_COMPLETE"; "ROLLBACK_FAILED"; "DELETE_COMPLETE"; "DELETE_FAILED"].

Section Controller.

Variable X : Externals.

(** [fail]: set the fail condition, write the status, requeue after a short
    wait. *)
Definition fail (r : Reconciler) (err : error) : M (Result * option error) :=
  modify (Status_SetConditions [ReconcileError err]) ;;
  e <- Client_Update r ;;
  ret (mkResult false aShortWait, e).

Definition _create (r : Reconciler) (client : Client) : M (Result * option error) :=
  modify (Status_SetConditions [Creating]) ;;
  i <- getInstance ;;
  let clusterName := clusterNamePrefix ++ UID i in
  (* Create Master *)
  emit (EvCreate clusterName (Spec i)) ;;
  let '(createdCluster, err) := Create client clusterName (Spec i) in
  let proceed : M (Result * option error) :=
    c <- deref createdCluster ;;
    modify (set_Status (with_ClusterVersion (Cluster_Version c))) ;;
    modify (set_Status (with_State ClusterStatusCreating)) ;;
    modify (set_Status (with_ClusterName clusterName)) ;;
    modify (Status_SetConditions [ReconcileSuccess]) ;;
    e <- Client_Update r ;;
    ret (mkResult false aShortWait, e) in
  match err with
  | Some e =>
      if negb (eks_IsErrorAlreadyExists X e) then
        if eks_IsErrorBadRequest X e then
          modify (Status_SetConditions [ReconcileError e]) ;;
          e' <- Client_Update r ;;
          ret (Result_zero, e')
        else fail r e
      else proceed
  | None => proceed
  end.

Definition _sync (r : Reconciler) (client : Client) : M (Result * option error) :=
  i <- getInstance ;;
  emit (EvGet (ClusterName (Status i))) ;;
  let '(cluster, err) := Get client (ClusterName (Status i)) in
  match err with
  | Some e => fail r e
  | None =>
      c <- deref cluster ;;
      if negb (String.eqb (Cluster_Status c) ClusterStatusActive) then
        modify (Status_SetConditions [ReconcileSuccess]) ;;
        ret (mkResult false aShortWait, None)
      else if String.eqb (CloudFormationStackID (Status i)) "" then
        (* Create workers *)
        emit (EvCreateWorkerNodes (ClusterName (Status i)) (Status_ClusterVersion (Status i))
                                  (Spec i)) ;;
        let '(clusterWorkers, err) :=
          CreateWorkerNodes client (ClusterName (Status i))
                            (Status_ClusterVersion (Status i)) (Spec i) in
        match err with
        | Some e => fail r e
        | None =>
            w <- deref clusterWorkers ;;
            modify (set_Status (with_CloudFormationStackID (WorkerStackID w))) ;;
            modify (Status_SetConditions [ReconcileSuccess]) ;;
            e <- Client_Update r ;;
            ret (mkResult false aShortWait, e)
        end
      else
        emit (EvGetWorkerNodes (CloudFormationStackID (Status i))) ;;
        let '(clusterWorker, err) :=
          GetWorkerNodes client (CloudFormationStackID (Status i)) in
        match err with
        | Some e => fail r e
        | None =>
            w <- deref clusterWorker ;;
            if failedCFState (WorkersStatus w) then
              fail r (errorsNew ("clusterworker stack failed with status "
                                   ++ fmt_q X (WorkersStatus w) ++ " and reason "
                                   ++ fmt_q X (WorkerReason w)))
            else if negb (completedCFState (WorkersStatus w)) then
              modify (Status_SetConditions [ReconcileSuccess]) ;;
              e <- Client_Update r ;;
              ret (mkResult false aShortWait, e)
            else
              emit (EvAwsAuth (WorkerARN w)) ;;
              match awsauth r c i (WorkerARN w) with
              | Some e => fail r (wrapped e "failed to set auth map on eks")
              | None =>
                  emit EvSecret ;;
                  match secret r c i with
                  | Some e => fail r e
                  | None =>
                      (* update resource status *)
                      modify (set_Status (with_Endpoint (Cluster_Endpoint c))) ;;
                      modify (set_Status (with_State ClusterStatusActive)) ;;
                      modify (Status_SetConditions [Available; ReconcileSuccess]) ;;
                      modify SetBindable ;;
                      e <- Client_Update r ;;
                      ret (mkResult false aLongWait, e)
                  end
              end
        end
  end.

(** The deletion calls of [_delete] append their failures to
    [deleteErrors]. *)
Definition _delete (r : Reconciler) (client : Client) : M (Result * option error) :=
  modify (Status_SetConditions [Deleting]) ;;
  i <- getInstance ;;
  let finish : M (Result * option error) :=
    modify (RemoveFinalizer finalizer) ;;
    modify (Status_SetConditions [ReconcileSuccess]) ;;
    e <- Client_Update r ;;
    ret (mkResult false 0, e) in
  if String.eqb (ReclaimPolicy (Spec i)) ReclaimDelete then
    let deleteErrors : list string := [] in
    emit (EvDelete (ClusterName (Status i))) ;;
    let deleteErrors :=
      match Delete client (ClusterName (Status i)) with
      | Some err =>
          if negb (eks_IsErrorNotFound X err)
          then (deleteErrors ++ [("Master Delete Error: " ++ Error err)%string])%list
          else deleteErrors
      | None => deleteErrors
      end in
    deleteErrors <-
      (if negb (String.eqb (CloudFormationStackID (Status i)) "") then
         emit (EvDeleteWorkerNodes (CloudFormationStackID (Status i))) ;;
         match DeleteWorkerNodes client (CloudFormationStackID (Status i)) with
         | Some err =>
             if negb (cloudformation_IsErrorNotFound X err)
             then ret (deleteErrors ++ [("Worker Delete Error: " ++ Error err)%string])%list
             else ret deleteErrors
         | None => ret deleteErrors
         end
       else ret deleteErrors) ;;
    if (0 <? Z.of_nat (length deleteErrors)) then
      fail r (errorsNew (Join deleteErrors ", "))
    else finish
  else finish.

(** What [Reconcile] does once references are settled: add the finalizer,
    then delete, create or sync. *)
Definition provision (r : Reconciler) (eksClient : Client) : M (Result * option error) :=
  (* Add finalizer *)
  modify (AddFinalizer finalizer) ;;
  i <- getInstance ;;
  (* Is deletion requested? *)
  match DeletionTimestamp i with
  | Some _ => _delete r eksClient
  | None =>
      (* Create cluster instance *)
      if String.eqb (ClusterName (Status i)) "" then _create r eksClient
      else
        (* Sync cluster instance status with cluster status *)
        _sync r eksClient
  end.

Definition Reconcile (r : Reconciler) : M (Result * option error) :=
  (* Fetch the Provider instance *)
  modify (fun _ => EKSCluster_zero) ;;
  err <- Client_Get r ;;
  match err with
  | Some e => ret (Result_zero, IgnoreNotFound e)
  | None =>
      (* Create EKS Client *)
      i <- getInstance ;;
      emit EvConnect ;;
      match connect r i with
      | inr e => fail r e
      | inl eksClient =>
          i <- getInstance ;;
          if negb (IsConditionTrue (Instance_GetCondition i TypeReferencesResolved)) then
            err <- ResolveReferences r ;;
            match err with
            | Some e =>
                let condition :=
                  if IsReferencesAccessError e then ReferenceResolutionBlocked e
                  else ReconcileError e in
                modify (Status_SetConditions [condition]) ;;
                e' <- Client_Update r ;;
                ret (mkResult false aLongWait, Wrap e' errUpdateManagedStatus)
            | None =>
                (* Add ReferenceResolutionSuccess to the conditions *)
                modify (Status_SetConditions [ReferenceResolutionSuccess]) ;;
                provision r eksClient
            end
          else provision r eksClient
      end
  end.

End Controller.

(** A run of passes over one resource: between passes the API server keeps
    its copy; a user may ask for deletion, which stamps the copy. *)
Inductive Step :=
| Pass (r : Reconciler)
| RequestDeletion (t : Z).

Definition requestDeletion (t : Z) (o : EKSCluster) : EKSCluster :=
  match DeletionTimestamp o with
  | Some _ => o
  | None => mkEKSCluster (Namespace o) (Name o) (UID o) (Some t) (Finalizers o)
                         (Spec o) (Status o)
  end.

Definition step (X : Externals) (st : Step) (s : St) : St :=
  match st with
  | Pass r => snd (Reconcile X r s)
  | RequestDeletion t =>
      mkSt (instance s)
           (match server s with
            | Some o => stored (requestDeletion t o)
            | None => None
            end)
           (calls s)
  end.

Definition steps (X : Externals) (sts : list Step) (s : St) : St :=
  fold_left (fun acc st => step X st acc) sts s.

(* ===================================================================== *)
(** ** The IAM role-policy attachment adapter *)
(* ===================================================================== *)

Module Attachment.

(** [v1alpha2.IAMRolePolicyAttachment]: the spec's parameters and the
    status, as [controller_test.go] builds them. *)
Record IAMRolePolicyAttachment := mkIAMRolePolicyAttachment {
  RoleName : string;
  PolicyARN : string;
  Conditions : list Condition;
  AttachedPolicyARN : string
}.

(** A [resource.Managed] handed to the adapter: an attachment, or a managed
    resource of another type. *)
Inductive Managed :=
| IsAttachment (cr : IAMRolePolicyAttachment)
| Unexpected.

(** [iam.RolePolicyAttachmentClient]: the answers to attach and detach
    requests, by role name and policy ARN. *)
Record RolePolicyAttachmentClient := mkRolePolicyAttachmentClient {
  AttachRolePolicyRequest : string -> string -> option error;
  DetachRolePolicyRequest : string -> string -> option error
}.

Inductive Call :=
| Attach (roleName policyArn : string)
| Detach (roleName policyArn : string).

Definition errUnexpectedObject : string :=
  "The managed resource is not an IAMRolePolicyAttachment resource".
Definition errAttach : string := "failed to attach the policy to role".
Definition errDetach : string := "failed to detach the policy to role".

(** Modelled from the spec: [external.Update] of
    [pkg/controller/identity/iamrolepolicyattachment], whose code is not
    among the embedded files (only its test is).  4.2: Update reconciles the
    difference between the desired and the observed attachment, attaching
    what is missing and detaching what is extra; 8: with
    [status.attachedPolicyARN = arn:A] and [spec.policyARN = arn:B] it
    attaches B and detaches A.  The table of [Test_Update] settles the rest:
    nothing is called when the status records no policy or the recorded
    policy is the desired one, attach comes first and a failed attach skips
    the detach, and the conditions are left alone.  The result is the
    managed resource, the calls issued and the error. *)
Definition Update (client : RolePolicyAttachmentClient) (mgd : Managed)
    : Managed * list Call * option error :=
  match mgd with
  | Unexpected => (mgd, [], Some (errorsNew errUnexpectedObject))
  | IsAttachment cr =>
      if String.eqb (AttachedPolicyARN cr) "" then (mgd, [], None)
      else if String.eqb (AttachedPolicyARN cr) (PolicyARN cr) then (mgd, [], None)
      else
        match AttachRolePolicyRequest client (RoleName cr) (PolicyARN cr) with
        | Some err => (mgd, [Attach (RoleName cr) (PolicyARN cr)], Some (wrapped err errAttach))
        | None =>
            (mgd,
             [Attach (RoleName cr) (PolicyARN cr); Detach (RoleName cr) (AttachedPolicyARN cr)],
             Wrap (DetachRolePolicyRequest client (RoleName cr) (AttachedPolicyARN cr)) errDetach)
        end
  end.

(** The rows of [Test_Update]: the managed object, the errors the mock
    client answers with, and the expectations on the calls and the error. *)
Record UpdateCase := mkUpdateCase {
  managedObj : Managed;
  clientAttachErr : option error;
  clientDetachErr : option error;
  expectedAttachCall : bool;
  expectedDetachCall : bool;
  expectedErrNil : bool
}.

Definition mockManaged : IAMRolePolicyAttachment :=
  mkIAMRolePolicyAttachment "" "some arbitrary arn" [] "another arbitrary arn".

Definition mockClient (c : UpdateCase) : RolePolicyAttachmentClient :=
  mkRolePolicyAttachmentClient (fun _ _ => clientAttachErr c) (fun _ _ => clientDetachErr c).

Definition Test_Update_cases : list UpdateCase :=
  [ mkUpdateCase (IsAttachment mockManaged) None None true true true;
    mkUpdateCase Unexpected None None false false false;
    mkUpdateCase (IsAttachment (mkIAMRolePolicyAttachment "" "some arbitrary arn" [] ""))
                 None None false false true;
    mkUpdateCase (IsAttachment (mkIAMRolePolicyAttachment "" "some arbitrary arn" []
                                                           "some arbitrary arn"))
                 None None false false true;
    mkUpdateCase (IsAttachment mockManaged) (Some (errorsNew "some error")) None
                 true false false;
    mkUpdateCase (IsAttachment mockManaged) None (Some (errorsNew "some error"))
                 true true false ].

Definition isAttach (c : Call) : bool := match c with Attach _ _ => true | _ => false end.
Definition isDetach (c : Call) : bool := match c with Detach _ _ => true | _ => false end.

(** The parameters the mock client insists on. *)
Definition validCall (c : Call) : bool :=
  match c with
  | Attach role arn => String.eqb role (RoleName mockManaged) && String.eqb arn (PolicyARN mockManaged)
  | Detach role arn =>
      String.eqb role (RoleName mockManaged) && String.eqb arn (AttachedPolicyARN mockManaged)
  end.

Definition isNil (e : option error) : bool := match e with None => true | Some _ => false end.

Definition passes (c : UpdateCase) : bool :=
  let '(_, issued, err) := Update (mockClient c) (managedObj c) in
  Bool.eqb (isNil err) (expectedErrNil c)
  && Bool.eqb (existsb isAttach issued) (expectedAttachCall c)
  && Bool.eqb (existsb isDetach issued) (expectedDetachCall c)
  && forallb validCall issued.

End Attachment.

(* ===================================================================== *)
(** ** Observations on a pass *)
(* ===================================================================== *)

(** The calls a referencer makes or receives during resolution. *)
Definition isResolutionCall (e : Event) : bool :=
  match e with
  | EvGetStatus _ | EvBuild _ | EvAssign _ _ => true
  | _ => false
  end.

(** The calls to the provider. *)
Definition isProviderCall (e : Event) : bool :=
  match e with
  | EvCreate _ _ | EvGet _ | EvDelete _ | EvCreateWorkerNodes _ _ _
  | EvGetWorkerNodes _ | EvDeleteWorkerNodes _ | EvAwsAuth _ | EvSecret => true
  | _ => false
  end.

(** The provider's deletion calls. *)
Definition isDeletionCall (e : Event) : bool :=
  match e with
  | EvDelete _ | EvDeleteWorkerNodes _ => true
  | _ => false
  end.

(** [a] is issued before [b] in a log. *)
Definition issuedBefore (a b : Event) (log : list Event) : Prop :=
  exists l1 l2 l3, log = (l1 ++ a :: l2 ++ b :: l3)%list.

(** The failure a deletion call contributes to [deleteErrors]. *)
Definition deletionFailure (isNotFound : error -> bool) (label : string)
    (answer : option error) : list string :=
  match answer with
  | Some err => if isNotFound err then [] else [(label ++ Error err)%string]
  | None => []
  end.

(** The server's copy after [r.Update] of [i]. *)
Definition written (r : Reconciler) (i : EKSCluster) (srv : option EKSCluster)
    : option EKSCluster :=
  match Client_UpdateErr r i with
  | Some _ => srv
  | None => stored i
  end.

(** What the deletion calls of [_delete] on instance [i] leave in
    [deleteErrors], and the deletion calls themselves. *)
Definition masterFailure (X : Externals) (client : Client) (i : EKSCluster) : list string :=
  deletionFailure (eks_IsErrorNotFound X) "Master Delete Error: "
                  (Delete client (ClusterName (Status i))).

Definition workerFailure (X : Externals) (client : Client) (i : EKSCluster) : list string :=
  if String.eqb (CloudFormationStackID (Status i)) "" then []
  else deletionFailure (cloudformation_IsErrorNotFound X) "Worker Delete Error: "
                       (DeleteWorkerNodes client (CloudFormationStackID (Status i))).

Definition deletionCalls (i : EKSCluster) : list Event :=
  EvDelete (ClusterName (Status i))
  :: (if String.eqb (CloudFormationStackID (Status i)) "" then []
      else [EvDeleteWorkerNodes (CloudFormationStackID (Status i))]).

(** An invariant of the state that an action keeps, whatever it returns. *)
Definition preserves {A} (I : St -> Prop) (m : M A) : Prop :=
  forall s, I s -> I (snd (m s)).

(** The log grew from [log0] by calls that all satisfy [P]. *)
Definition grewBy (P : Event -> Prop) (log0 log : list Event) : Prop :=
  exists evs, log = (log0 ++ evs)%list /\ Forall P evs.

(** Everything of an instance that reference resolution has no business
    with: all but the spec's parameters. *)
Definition sameButParameters (a b : EKSCluster) : Prop :=
  Namespace a = Namespace b /\ Name a = Name b /\ UID a = UID b /\
  DeletionTimestamp a = DeletionTimestamp b /\ Finalizers a = Finalizers b /\
  ProviderReference (Spec a) = ProviderReference (Spec b) /\
  ReclaimPolicy (Spec a) = ReclaimPolicy (Spec b) /\
  Status a = Status b.

(** While references are resolved the instance changes in its parameters
    only, and no provider call is issued. *)
Definition resolving (i0 : EKSCluster) (log0 : list Event) (s : St) : Prop :=
  sameButParameters (instance s) i0 /\
  grewBy (fun e => isProviderCall e = false) log0 (calls s).

(** A status request of a referencer. *)
Definition isGetStatus (e : Event) : Prop := exists v, e = EvGetStatus v.

(** The status of a reference as its referencer reads it in namespace
    [ns]; [None] when the reader fails otherwise than by "not found". *)
Definition referenceStatus (r : Reconciler) (ns : string) (v : Referencer)
    : option ReferenceStatus :=
  match Reader_Get r (Referencer_Kind v) ns (Referencer_Name v) with
  | inr err =>
      if kerrors_IsNotFound err
      then Some (mkReferenceStatus (Referencer_Name v) ReferenceNotFound) else None
  | inl t =>
      if IsConditionTrue (GetCondition (Target_Conditions t) TypeReady)
      then Some (mkReferenceStatus (Referencer_Name v) ReferenceReady)
      else Some (mkReferenceStatus (Referencer_Name v) ReferenceNotReady)
  end.

(** A reference that is NotFound or NotReady. *)
Definition unready (r : Reconciler) (ns : string) (v : Referencer) : Prop :=
  exists st, referenceStatus r ns v = Some st /\ RefStatus st <> ReferenceReady.

(** The state in which [Reconcile] finds itself once the object is fetched
    and the provider connected. *)
Definition fetched (s : St) (obj : EKSCluster) : St :=
  mkSt obj (Some obj) (calls s ++ [EvKubeGet; EvConnect]).

(** An object whose references are settled: its spec is [S] and its
    ReferencesResolved condition is True. *)
Definition settledObj (S : EKSClusterSpec) (o : EKSCluster) : Prop :=
  Spec o = S /\ IsConditionTrue (Instance_GetCondition o TypeReferencesResolved) = true.

(** A call that is no part of reference resolution and, if it writes the
    object, writes it settled. *)
Definition quiet (S : EKSClusterSpec) (e : Event) : Prop :=
  isResolutionCall e = false /\ forall o, e = EvKubeUpdate o -> settledObj S o.

(** Between passes: the server's copy, if any, is settled, and the log grew
    by quiet calls only. *)
Definition settledServer (S : EKSClusterSpec) (log0 : list Event) (s : St) : Prop :=
  (forall o, server s = Some o -> settledObj S o) /\ grewBy (quiet S) log0 (calls s).

(** Within a pass that has fetched a settled object. *)
Definition settled (S : EKSClusterSpec) (log0 : list Event) (s : St) : Prop :=
  settledObj S (instance s) /\ settledServer S log0 s.

(** A change to the instance that touches neither the spec nor the
    ReferencesResolved condition. *)
Definition benign (f : EKSCluster -> EKSCluster) : Prop :=
  forall i, Spec (f i) = Spec i /\
            Instance_GetCondition (f i) TypeReferencesResolved
            = Instance_GetCondition i TypeReferencesResolved.

(* ===================================================================== *)
(** ** The aws-auth config map and the connection secret ([eks.go]) *)
(* ===================================================================== *)

Definition eksAuthConfigMapName : string := "aws-auth".
Definition eksAuthMapRolesKey : string := "mapRoles".
Definition eksAuthMapUsersKey : string := "mapUsers".

(** A Go [map[string]string] (or [map[string][]byte]): an association list
    that [mapSet] keeps to one binding per key. *)
Definition GoMap := list (string * string).

Fixpoint mapGet (m : GoMap) (k : string) : option string :=
  match m with
  | [] => None
  | (k', v) :: rest => if String.eqb k' k then Some v else mapGet rest k
  end.

(** [m[k] = v]. *)
Definition mapSet (m : GoMap) (k v : string) : GoMap :=
  (k, v) :: filter (fun kv => negb (String.eqb (fst kv) k)) m.

(** [v1.ConfigMap]: name, namespace and data. *)
Record ConfigMap := mkConfigMap {
  CM_Name : string;
  CM_Namespace : string;
  CM_Data : GoMap
}.

(** [rest.Config], as [_awsauth] fills it. *)
Record RestConfig := mkRestConfig {
  Host : string;
  CAData : string;
  BearerToken : string
}.

(** What [_awsauth] and [_secret] reach outside the controller: the YAML
    encoder, the provider's connection token, the base64 decoder, the
    client set of the remote cluster and the connection publisher.  A
    [(value, error)] result is a pair. *)
Record Remote := mkRemote {
  yaml_Marshal_roles : list MapRole -> string * option error;
  yaml_Marshal_users : list MapUser -> string * option error;
  ConnectionToken : string -> string * option error;
  base64_DecodeString : string -> string * option error;
  kubernetes_NewForConfig : RestConfig -> option error;
  ConfigMaps_Create : RestConfig -> ConfigMap -> option error;
  ConfigMaps_Update : RestConfig -> ConfigMap -> option error;
  PublishConnection : EKSCluster -> GoMap -> option error
}.

(** The calls that leave the process. *)
Inductive RemoteCall :=
| RcConnectionToken (name : string)
| RcCreateConfigMap (c : RestConfig) (cm : ConfigMap)
| RcUpdateConfigMap (c : RestConfig) (cm : ConfigMap)
| RcPublishConnection (details : GoMap).

(** The role every worker node gets. *)
Definition defaultRole (workerARN : string) : MapRole :=
  mkMapRole workerARN "system:node:{{EC2PrivateDNSName}}"
            ["system:bootstrappers"; "system:nodes"].

(** [generateAWSAuthConfigMap] generates the configmap for configure auth.
    [roles] is a fresh copy of the spec's roles with the default role
    appended. *)
Definition generateAWSAuthConfigMap (R : Remote) (instance : EKSCluster) (workerARN : string)
    : ConfigMap + error :=
  let data : GoMap := [] in
  (* Serialize mapRoles *)
  let roles := (MapRoles (Parameters (Spec instance)) ++ [defaultRole workerARN])%list in
  let '(rolesMarshalled, err) := yaml_Marshal_roles R roles in
  match err with
  | Some e => inr e
  | None =>
      let data := mapSet data eksAuthMapRolesKey rolesMarshalled in
      let finish (data : GoMap) : ConfigMap + error :=
        inl (mkConfigMap eksAuthConfigMapName "kube-system" data) in
      (* Serialize mapUsers *)
      if (0 <? Z.of_nat (length (MapUsers (Parameters (Spec instance))))) then
        let '(usersMarshalled, err) :=
          yaml_Marshal_users R (MapUsers (Parameters (Spec instance))) in
        match err with
        | Some e => inr e
        | None => finish (mapSet data eksAuthMapUsersKey usersMarshalled)
        end
      else finish data
  end.

(** [apierrors.IsAlreadyExists]. *)
Definition StatusReasonAlreadyExists : string := "AlreadyExists".

Definition apierrors_IsAlreadyExists (e : error) : bool :=
  match e with
  | statusErr reason _ => String.eqb reason StatusReasonAlreadyExists
  | _ => false
  end.

(** [_awsauth] generates an aws-auth configmap and pushes it to the remote
    eks cluster.  The result is the calls issued and the error. *)
Definition _awsauth (R : Remote) (cluster : Cluster) (instance : EKSCluster)
    (workerARN : string) : list RemoteCall * option error :=
  match generateAWSAuthConfigMap R instance workerARN with
  | inr e => ([], Some e)
  | inl cm =>
      let name := ClusterName (Status instance) in
      let '(token, err) := ConnectionToken R name in
      match err with
      | Some e => ([RcConnectionToken name], Some e)
      | None =>
          let '(caData, err) := base64_DecodeString R (Cluster_CA cluster) in
          match err with
          | Some e => ([RcConnectionToken name], Some e)
          | None =>
              let c := mkRestConfig (Cluster_Endpoint cluster) caData token in
              match kubernetes_NewForConfig R c with
              | Some e => ([RcConnectionToken name], Some e)
              | None =>
                  (* Create or update aws-auth configmap on eks cluster *)
                  match ConfigMaps_Create R c cm with
                  | Some e =>
                      if apierrors_IsAlreadyExists e then
                        ([RcConnectionToken name; RcCreateConfigMap c cm;
                          RcUpdateConfigMap c cm],
                         ConfigMaps_Update R c cm)
                      else ([RcConnectionToken name; RcCreateConfigMap c cm], Some e)
                  | None => ([RcConnectionToken name; RcCreateConfigMap c cm], None)
                  end
              end
          end
      end
  end.

(** The keys of the connection secret
    ([runtimev1alpha1.ResourceCredentialsSecret...Key]). *)
Definition ResourceCredentialsSecretEndpointKey : string := "endpoint".
Definition ResourceCredentialsSecretCAKey : string := "clusterCA".
Definition ResourceCredentialsTokenKey : string := "token".

(** [_secret] publishes the endpoint, the decoded CA and the token. *)
Definition _secret (R : Remote) (cluster : Cluster) (instance : EKSCluster)
    : list RemoteCall * option error :=
  let name := ClusterName (Status instance) in
  let '(token, err) := ConnectionToken R name in
  match err with
  | Some e => ([RcConnectionToken name], Some e)
  | None =>
      (* Avoid double base64 encoding on secret *)
      let '(caData, err) := base64_DecodeString R (Cluster_CA cluster) in
      match err with
      | Some e => ([RcConnectionToken name], Some e)
      | None =>
          let details : GoMap :=
            [(ResourceCredentialsSecretEndpointKey, Cluster_Endpoint cluster);
             (ResourceCredentialsSecretCAKey, caData);
             (ResourceCredentialsTokenKey, token)] in
          ([RcConnectionToken name; RcPublishConnection details],
           PublishConnection R instance details)
      end
  end.

(** The reconciler of [SetupWithManager]: [secret] and [awsauth] are
    [_secret] and [_awsauth] over the remote collaborators. *)
Definition production (R : Remote) (getErr : option error)
    (updateErr : EKSCluster -> option error)
    (reader : Kind -> string -> string -> Target + error)
    (connect : EKSCluster -> Client + error) : Reconciler :=
  mkReconciler getErr updateErr reader connect
               (fun cluster instance => snd (_secret R cluster instance))
               (fun cluster instance workerARN => snd (_awsauth R cluster instance workerARN)).

(* ===================================================================== *)
(** ** Further observations on a pass *)
(* ===================================================================== *)

(** The calls each branch may issue to the provider. *)
Definition isCreateCall (e : Event) : bool :=
  match e with EvCreate _ _ => true | _ => false end.

Definition isSyncCall (e : Event) : bool :=
  match e with
  | EvGet _ | EvCreateWorkerNodes _ _ _ | EvGetWorkerNodes _ | EvAwsAuth _ | EvSecret => true
  | _ => false
  end.

Definition isWrite (e : Event) : bool :=
  match e with EvKubeUpdate _ => true | _ => false end.

(** Everything of an instance but its status; and but its status and
    finalizers. *)
Definition sameButStatus (a b : EKSCluster) : Prop :=
  Namespace a = Namespace b /\ Name a = Name b /\ UID a = UID b /\
  DeletionTimestamp a = DeletionTimestamp b /\ Finalizers a = Finalizers b /\
  Spec a = Spec b.

Definition sameButStatusAndFinalizers (a b : EKSCluster) : Prop :=
  Namespace a = Namespace b /\ Name a = Name b /\ UID a = UID b /\
  DeletionTimestamp a = DeletionTimestamp b /\ Spec a = Spec b.

(** During a stretch of a pass the instance satisfies [P] and the log grows
    by calls that satisfy [Q]. *)
Definition tracking (P : EKSCluster -> Prop) (Q : Event -> Prop) (log0 : list Event)
    (s : St) : Prop :=
  P (instance s) /\ grewBy Q log0 (calls s).

(** A condition of type Ready or Synced. *)
Definition readyOrSynced (c : Condition) : Prop :=
  CType c = TypeReady \/ CType c = TypeSynced.

(** [P] survives the writes the branches make to the status: Ready and
    Synced conditions, the status fields other than the conditions, the
    binding phase. *)
Definition closedUnderStatusWrites (P : EKSCluster -> Prop) : Prop :=
  (forall cs i, Forall readyOrSynced cs -> P i -> P (Status_SetConditions cs i)) /\
  (forall g i, (forall st, Conditions (g st) = Conditions st) -> P i -> P (set_Status g i)) /\
  (forall i, P i -> P (SetBindable i)).

(** Assigning resolved values one after the other, as resolution does. *)
Definition assignAll (vs : list (Referencer * string)) (i : EKSCluster) : EKSCluster :=
  fold_left (fun acc p => assignTo (fst p) (snd p) acc) vs i.

(** Whether two referencers assign to the same field of the spec. *)
Definition sameField (a b : Referencer) : bool :=
  match a, b with
  | IAMRoleARNReferencerForEKSCluster _, IAMRoleARNReferencerForEKSCluster _
  | VPCIDReferencerForEKSCluster _, VPCIDReferencerForEKSCluster _
  | SubnetIDReferencerForEKSCluster _, SubnetIDReferencerForEKSCluster _
  | SecurityGroupIDReferencerForEKSCluster _, SecurityGroupIDReferencerForEKSCluster _
  | SecurityGroupIDReferencerForEKSWorkerNodes _,
    SecurityGroupIDReferencerForEKSWorkerNodes _ => true
  | _, _ => false
  end.

(* ===================================================================== *)
(** ** Sample resources and collaborators *)
(* ===================================================================== *)

Module Sample.

(** Provider errors are told apart by their AWS error code. *)
Definition hasCode (code : string) (e : error) : bool :=
  match e with
  | awsErr c _ => String.eqb c code
  | _ => false
  end.

Definition quoteMark : string := String (ascii_of_nat 34) EmptyString.

Definition X : Externals :=
  mkExternals (hasCode "ResourceInUseException")
              (hasCode "InvalidParameterException")
              (hasCode "ResourceNotFoundException")
              (hasCode "ValidationError")
              (fun s => quoteMark ++ s ++ quoteMark).

Definition errInUse : error := awsErr "ResourceInUseException" "cluster already exists".
Definition errInvalid : error := awsErr "InvalidParameterException" "bad subnet".
Definition errGone : error := awsErr "ResourceNotFoundException" "no such cluster".
Definition errThrottled : error := awsErr "ThrottlingException" "rate exceeded".
Definition errStackBusy : error := awsErr "OperationInProgress" "stack is busy".

Definition workerNodes : WorkerNodesSpec :=
  mkWorkerNodesSpec "" "" "m5.large" None None None "" "" "" None.

(** A spec that borrows its VPC id from the VPC named [vpc]. *)
Definition parameters : EKSClusterParameters :=
  mkEKSClusterParameters "us-west-2" "arn:role" None "" (Some "vpc")
                         ["subnet-1"] [] ["sg-1"] [] "1.14" workerNodes [] [].

Definition spec : EKSClusterSpec := mkEKSClusterSpec "aws-provider" ReclaimDelete parameters.

(** A provisioned cluster with its worker stack. *)
Definition provisionedStatus (cs : list Condition) : EKSClusterStatus :=
  mkEKSClusterStatus cs "" ClusterStatusActive "eks-uid" "1.14" "https://eks" "stack-1".

Definition cluster (deletion : option Z) (cs : list Condition) : EKSCluster :=
  mkEKSCluster "default" "cluster" "uid" deletion [finalizer] spec (provisionedStatus cs).

(** A cluster that was never created. *)
Definition fresh (cs : list Condition) : EKSCluster :=
  mkEKSCluster "default" "cluster" "uid" None [] spec
               (mkEKSClusterStatus cs "" "" "" "" "" "").

Definition activeCluster : Cluster := mkCluster ClusterStatusActive "https://eks" "Q0E=" "1.14".
Definition workers : ClusterWorkers :=
  mkClusterWorkers "stack-1" "CREATE_COMPLETE" "" "arn:worker".

(** A provider that answers the creation and the two deletions as given and
    succeeds otherwise. *)
Definition client (created : option Cluster * option error)
    (master worker : option error) : Client :=
  mkClient (fun _ _ => created)
           (fun _ => (Some activeCluster, None))
           (fun _ => master)
           (fun _ _ _ => (Some workers, None))
           (fun _ => (Some workers, None))
           (fun _ => worker).

(** A reconciler whose API server accepts every write, whose referenced
    resources are as [reader] says, and whose provider is [c]. *)
Definition reconciler (reader : Kind -> string -> string -> Target + error) (c : Client)
    : Reconciler :=
  mkReconciler None (fun _ => None) reader (fun _ => inl c)
               (fun _ _ => None) (fun _ _ _ => None).

Definition nothingFound : Kind -> string -> string -> Target + error :=
  fun _ _ _ => inr errNotFound.

Definition allReady : Kind -> string -> string -> Target + error :=
  fun _ _ _ => inl (mkTarget [Available] "vpc-123").

Definition start (o : EKSCluster) : St := mkSt EKSCluster_zero (Some o) [].

(** The first pass over a fresh cluster whose VPC is ready, and the copy
    the server holds after it. *)
Definition afterFirstPass : St :=
  step X (Pass (reconciler allReady (client (Some activeCluster, None) None None)))
       (start (fresh [])).

Definition resolvedCopy : EKSCluster :=
  match server afterFirstPass with
  | Some o => o
  | None => EKSCluster_zero
  end.

(** A cluster that borrows a subnet id, a reader that knows every target
    by name, and a server that refuses the writes carrying the
    ReferencesResolved condition. *)
Definition borrowing : EKSCluster :=
  mkEKSCluster "default" "cluster" "uid" None []
    (mkEKSClusterSpec "aws-provider" ReclaimDelete
       (mkEKSClusterParameters "us-west-2" "arn:role" None "vpc-1" None
          ["subnet-1"] ["subnet-a"] ["sg-1"] [] "1.14" workerNodes [] []))
    (mkEKSClusterStatus [] "" "" "" "" "" "").

Definition byName : Kind -> string -> string -> Target + error :=
  fun _ _ n => inl (mkTarget [Available] ("id-of-" ++ n)).

Definition refusing : Reconciler :=
  mkReconciler None
    (fun i => if IsConditionTrue (Instance_GetCondition i TypeReferencesResolved)
              then Some (errorsNew "the object has been modified") else None)
    byName (fun _ => inl (client (Some activeCluster, None) None None))
    (fun _ _ => None) (fun _ _ _ => None).

(** An attachment whose status records policy A while the spec asks for
    B, right after its creation; a client that grants every request. *)
Definition attachment : Attachment.IAMRolePolicyAttachment :=
  Attachment.mkIAMRolePolicyAttachment "role" "arn:B" [Creating] "arn:A".

Definition granting : Attachment.RolePolicyAttachmentClient :=
  Attachment.mkRolePolicyAttachmentClient (fun _ _ => None) (fun _ _ => None).

(** A cluster marked for deletion, its references resolved. *)
Definition doomed : EKSCluster := cluster (Some 5) [ReferenceResolutionSuccess].

Definition inDelete : St := mkSt doomed (Some doomed) [].

(** Both deletions succeed; both fail; the master is already gone. *)
Definition obliging : Client := client (Some activeCluster, None) None None.
Definition failing : Client :=
  client (Some activeCluster, None) (Some errThrottled) (Some errStackBusy).
Definition absent : Client := client (Some activeCluster, None) (Some errGone) None.


(** A reconciler whose provider cannot be reached. *)
Definition unreachable : Reconciler :=
  mkReconciler None (fun _ => None) allReady (fun _ => inr (errorsNew "no credentials"))
               (fun _ _ => None) (fun _ _ _ => None).

(** A provider that answers the reads and the worker creation as given. *)
Definition provider (got : option Cluster * option error)
    (createdWorkers gotWorkers : option ClusterWorkers * option error) : Client :=
  mkClient (fun _ _ => (Some activeCluster, None))
           (fun _ => got)
           (fun _ => None)
           (fun _ _ _ => createdWorkers)
           (fun _ => gotWorkers)
           (fun _ => None).

Definition creatingCluster : Cluster := mkCluster ClusterStatusCreating "" "" "1.14".

Definition pendingWorkers : ClusterWorkers :=
  mkClusterWorkers "stack-1" "CREATE_IN_PROGRESS" "" "".

(** A created cluster without a worker stack; a cluster to be retained. *)
Definition unstacked : EKSCluster :=
  mkEKSCluster "default" "cluster" "uid" None [finalizer] spec
    (mkEKSClusterStatus [ReferenceResolutionSuccess] "" ClusterStatusCreating "eks-uid" "1.14"
                        "" "").

Definition retained : EKSCluster :=
  mkEKSCluster "default" "cluster" "uid" (Some 5) [finalizer]
    (mkEKSClusterSpec "aws-provider" "Retain" parameters)
    (provisionedStatus [ReferenceResolutionSuccess]).

Definition within (o : EKSCluster) : St := mkSt o (Some o) [].

(** Remote collaborators that grant everything. *)
Definition remote : Remote :=
  mkRemote (fun _ => ("roles", None)) (fun _ => ("users", None))
           (fun _ => ("token", None)) (fun _ => ("CA", None))
           (fun _ => None) (fun _ _ => None) (fun _ _ => None) (fun _ _ => None).

Definition wired : Reconciler :=
  production remote None (fun _ => None) allReady (fun _ => inl obliging).

End Sample.

(* ===================================================================== *)
(** ** Theorems *)
(* ===================================================================== *)

#[local] Arguments String.eqb : simpl never.
#[local] Arguments String.append : simpl never.
#[local] Arguments Z.mul : simpl never.

(** *** The condition tracker *)

Lemma replaceCondition_found cs new :
  snd (replaceCondition cs new) = existsb (fun c => String.eqb (CType c) (CType new)) cs.
Proof.
  induction cs as [|c rest IH]; simpl; [reflexivity|].
  destruct (replaceCondition rest new) as [rest' found]; simpl in *.
  destruct (String.eqb (CType c) (CType new)); simpl; [reflexivity|exact IH].
Qed.

Lemma GetCondition_replaced cs new ct :
  GetCondition (fst (replaceCondition cs new)) ct =
  if String.eqb (CType new) ct
  then (if snd (replaceCondition cs new) then new else mkCondition ct ConditionUnknown "" "")
  else GetCondition cs ct.
Proof.
  induction cs as [|c rest IH]; simpl.
  - destruct (String.eqb (CType new) ct); reflexivity.
  - destruct (replaceCondition rest new) as [rest' found]; simpl in *.
    destruct (String.eqb (CType c) (CType new)) eqn:Ec; simpl.
    + apply String.eqb_eq in Ec. rewrite Ec.
      destruct (String.eqb (CType new) ct); [reflexivity|exact IH].
    + destruct (String.eqb (CType c) ct) eqn:Et.
      * apply String.eqb_eq in Et. subst ct.
        rewrite String.eqb_sym, Ec. reflexivity.
      * exact IH.
Qed.

Lemma GetCondition_last cs new ct :
  GetCondition (cs ++ [new]) ct =
  if existsb (fun c => String.eqb (CType c) ct) cs then GetCondition cs ct
  else if String.eqb (CType new) ct then new else mkCondition ct ConditionUnknown "" "".
Proof.
  induction cs as [|c rest IH]; simpl; [reflexivity|].
  destruct (String.eqb (CType c) ct); simpl; [reflexivity|exact IH].
Qed.

(** Setting a condition makes it the condition of its type. *)
Lemma GetCondition_SetCondition_same cs new :
  GetCondition (SetCondition cs new) (CType new) = new.
Proof.
  unfold SetCondition.
  pose proof (GetCondition_replaced cs new (CType new)) as R.
  pose proof (replaceCondition_found cs new) as F.
  destruct (replaceCondition cs new) as [cs' found] eqn:E; simpl in *.
  rewrite String.eqb_refl in R.
  destruct found; [exact R|].
  rewrite GetCondition_last, String.eqb_refl.
  assert (cs' = cs) as ->.
  { clear R. revert cs' E F. induction cs as [|c rest IH]; simpl; intros cs' E F.
    - now inversion E.
    - destruct (replaceCondition rest new) as [rest' found'].
      destruct (String.eqb (CType c) (CType new)); simpl in F; [discriminate|].
      inversion E; subst. f_equal. now apply IH. }
  rewrite <- F. reflexivity.
Qed.

(** Setting a condition leaves the conditions of the other types alone. *)
Lemma GetCondition_SetCondition_other cs new ct :
  CType new <> ct -> GetCondition (SetCondition cs new) ct = GetCondition cs ct.
Proof.
  intros Hne. unfold SetCondition.
  pose proof (GetCondition_replaced cs new ct) as R.
  destruct (replaceCondition cs new) as [cs' found] eqn:E; simpl in *.
  apply String.eqb_neq in Hne. rewrite Hne in R.
  destruct found; [exact R|].
  rewrite GetCondition_last, Hne, R.
  destruct (existsb (fun c => String.eqb (CType c) ct) cs') eqn:Ex; [reflexivity|].
  symmetry. rewrite <- R. clear -Ex.
  induction cs' as [|c rest IH]; simpl in *; [reflexivity|].
  destruct (String.eqb (CType c) ct); simpl in Ex; [discriminate|now apply IH].
Qed.

Lemma Instance_GetCondition_set1 i new :
  Instance_GetCondition (Status_SetConditions [new] i) (CType new) = new.
Proof. destruct i as [? ? ? ? ? ? []]. apply GetCondition_SetCondition_same. Qed.

Lemma Instance_GetCondition_set1_other i new ct :
  CType new <> ct ->
  Instance_GetCondition (Status_SetConditions [new] i) ct = Instance_GetCondition i ct.
Proof. destruct i as [? ? ? ? ? ? []]. apply GetCondition_SetCondition_other. Qed.

Lemma Instance_GetCondition_set2_other i c1 c2 ct :
  CType c1 <> ct -> CType c2 <> ct ->
  Instance_GetCondition (Status_SetConditions [c1; c2] i) ct = Instance_GetCondition i ct.
Proof.
  intros H1 H2. destruct i as [? ? ? ? ? ? []].
  unfold Instance_GetCondition, Status_SetConditions; simpl.
  now rewrite !GetCondition_SetCondition_other.
Qed.

(** *** Running a pass step by step *)

Lemma Client_Update_run r s :
  Client_Update r s =
  (Returned (Client_UpdateErr r (instance s)),
   mkSt (instance s) (written r (instance s) (server s))
        (calls s ++ [EvKubeUpdate (instance s)])).
Proof.
  unfold Client_Update, written, bind, getInstance, emit, ret; simpl.
  destruct (Client_UpdateErr r (instance s)); reflexivity.
Qed.

Lemma fail_run r err s :
  fail r err s =
  let i := Status_SetConditions [ReconcileError err] (instance s) in
  (Returned (mkResult false aShortWait, Client_UpdateErr r i),
   mkSt i (written r i (server s)) (calls s ++ [EvKubeUpdate i])).
Proof.
  unfold fail, bind, modify, ret. rewrite Client_Update_run. reflexivity.
Qed.

#[local] Arguments fail : simpl never.
#[local] Arguments Client_Update : simpl never.

Ltac types_differ := apply String.eqb_neq; reflexivity.

Ltac step_pass :=
  unfold bind, ret, modify, emit, getInstance, deref, panic; simpl;
  rewrite ?fail_run, ?Client_Update_run; simpl.

Section CreateBranch.

Variable X : Externals.

(** C9.  When the provider rejects the creation with an error that is not
    "already exists", [_create] records the reconcile-error condition and
    writes the status.  For a bad request the result is the zero
    [reconcile.Result]: no requeue and no requeue-after delay, so only the
    status write (or its failure, which is returned) brings the resource
    back.  For any other such error the result requeues after
    [aShortWait]. *)
Theorem create_bad_request_no_requeue
    (r : Reconciler) (client : Client) (s : St) (c : option Cluster) (e : error) :
  Create client (clusterNamePrefix ++ UID (instance s)) (Spec (instance s)) = (c, Some e) ->
  eks_IsErrorAlreadyExists X e = false ->
  let o := fst (_create X r client s) in
  let s' := snd (_create X r client s) in
  Instance_GetCondition (instance s') TypeSynced = ReconcileError e /\
  Instance_GetCondition (instance s') TypeReady = Creating /\
  calls s' = (calls s ++ [EvCreate (clusterNamePrefix ++ UID (instance s)) (Spec (instance s));
                          EvKubeUpdate (instance s')])%list /\
  (eks_IsErrorBadRequest X e = true ->
     o = Returned (Result_zero, Client_UpdateErr r (instance s')) /\
     Requeue Result_zero = false /\ RequeueAfter Result_zero = 0) /\
  (eks_IsErrorBadRequest X e = false ->
     o = Returned (mkResult false aShortWait, Client_UpdateErr r (instance s')) /\
     0 < aShortWait).
Proof.
  intros HC HA. unfold _create. step_pass. rewrite HC, HA. simpl.
  destruct (eks_IsErrorBadRequest X e) eqn:HB; step_pass.
  all: split; [apply (Instance_GetCondition_set1 _ (ReconcileError e))|].
  all: split; [rewrite Instance_GetCondition_set1_other by types_differ;
               apply (Instance_GetCondition_set1 _ Creating)|].
  all: split; [now rewrite <- app_assoc|].
  all: split; intros H; try discriminate H; repeat split; reflexivity.
Qed.

(** When the provider answers "already exists" and hands back the cluster,
    [_create] carries on as after a successful creation: one creation
    request, the name and version recorded, ReconcileSuccess, a requeue
    after the short wait. *)
Lemma create_already_exists_with_cluster
    (r : Reconciler) (client : Client) (s : St) (c : Cluster) (e : error) :
  Create client (clusterNamePrefix ++ UID (instance s)) (Spec (instance s)) = (Some c, Some e) ->
  eks_IsErrorAlreadyExists X e = true ->
  let o := fst (_create X r client s) in
  let s' := snd (_create X r client s) in
  o = Returned (mkResult false aShortWait, Client_UpdateErr r (instance s')) /\
  Instance_GetCondition (instance s') TypeSynced = ReconcileSuccess /\
  ClusterName (Status (instance s')) = clusterNamePrefix ++ UID (instance s) /\
  State (Status (instance s')) = ClusterStatusCreating /\
  calls s' = (calls s ++ [EvCreate (clusterNamePrefix ++ UID (instance s)) (Spec (instance s));
                          EvKubeUpdate (instance s')])%list.
Proof.
  intros HC HA. unfold _create. step_pass. rewrite HC, HA. step_pass.
  repeat split.
  - apply (Instance_GetCondition_set1 _ ReconcileSuccess).
  - now rewrite <- app_assoc.
Qed.

(** When the "already exists" answer comes with a nil cluster, the
    dereference [createdCluster.Version] ends the pass: nothing is written
    and no result is returned. *)
Lemma create_already_exists_nil_cluster
    (r : Reconciler) (client : Client) (s : St) (e : error) :
  Create client (clusterNamePrefix ++ UID (instance s)) (Spec (instance s)) = (None, Some e) ->
  eks_IsErrorAlreadyExists X e = true ->
  fst (_create X r client s) = Panicked /\
  server (snd (_create X r client s)) = server s.
Proof.
  intros HC HA. unfold _create. step_pass. rewrite HC, HA. step_pass. split; reflexivity.
Qed.

End CreateBranch.

Lemma create_bad_request_no_requeue_witness :
  fst (_create Sample.X (Sample.reconciler Sample.allReady
                           (Sample.client (None, Some Sample.errInvalid) None None))
               (Sample.client (None, Some Sample.errInvalid) None None)
               (mkSt (Sample.fresh []) (Some (Sample.fresh [])) []))
  = Returned (Result_zero, None).
Proof.
  pose proof (@create_bad_request_no_requeue Sample.X
                (Sample.reconciler Sample.allReady
                   (Sample.client (None, Some Sample.errInvalid) None None))
                (Sample.client (None, Some Sample.errInvalid) None None)
                (mkSt (Sample.fresh []) (Some (Sample.fresh [])) [])
                None Sample.errInvalid eq_refl eq_refl) as H.
  destruct H as (_ & _ & _ & Hbad & _).
  exact (proj1 (Hbad eq_refl)).
Defined.

(** C6.  A creation that the provider answers with "already exists" and,
    as Go functions do on an error, a nil cluster: [_create] takes the
    success path and panics on [createdCluster.Version]. *)
Theorem create_already_exists_panics :
  eks_IsErrorAlreadyExists Sample.X Sample.errInUse = true /\
  fst (_create Sample.X
         (Sample.reconciler Sample.allReady (Sample.client (None, Some Sample.errInUse) None None))
         (Sample.client (None, Some Sample.errInUse) None None)
         (mkSt (Sample.fresh []) (Some (Sample.fresh [])) []))
  = Panicked.
Proof. split; reflexivity. Qed.

Section DeleteBranch.

Variable X : Externals.

(** [_delete] when the reclaim policy is not Delete: no deletion call, the
    finalizer goes. *)
Lemma _delete_retain_run r client s :
  String.eqb (ReclaimPolicy (Spec (instance s))) ReclaimDelete = false ->
  _delete X r client s =
  let i' := Status_SetConditions [ReconcileSuccess]
              (RemoveFinalizer finalizer (Status_SetConditions [Deleting] (instance s))) in
  (Returned (mkResult false 0, Client_UpdateErr r i'),
   mkSt i' (written r i' (server s)) (calls s ++ [EvKubeUpdate i'])).
Proof.
  intros HP. unfold _delete. step_pass. rewrite HP. step_pass. reflexivity.
Qed.

(** [_delete] when the reclaim policy is Delete: both deletion calls are
    issued, master first, and their failures decide between [fail] and the
    removal of the finalizer. *)
Lemma _delete_run r client s :
  String.eqb (ReclaimPolicy (Spec (instance s))) ReclaimDelete = true ->
  _delete X r client s =
  let i := Status_SetConditions [Deleting] (instance s) in
  match (masterFailure X client (instance s) ++ workerFailure X client (instance s))%list with
  | [] =>
      let i' := Status_SetConditions [ReconcileSuccess] (RemoveFinalizer finalizer i) in
      (Returned (mkResult false 0, Client_UpdateErr r i'),
       mkSt i' (written r i' (server s))
            (calls s ++ deletionCalls (instance s) ++ [EvKubeUpdate i']))
  | errs =>
      let i' := Status_SetConditions [ReconcileError (errorsNew (Join errs ", "))] i in
      (Returned (mkResult false aShortWait, Client_UpdateErr r i'),
       mkSt i' (written r i' (server s))
            (calls s ++ deletionCalls (instance s) ++ [EvKubeUpdate i']))
  end%list.
Proof.
  intros HP. unfold _delete, masterFailure, workerFailure, deletionCalls, deletionFailure.
  step_pass. rewrite HP. step_pass.
  destruct (String.eqb (CloudFormationStackID (Status (instance s))) "") eqn:HS; step_pass.
  - destruct (Delete client (ClusterName (Status (instance s)))) as [e1|]; simpl;
      [destruct (eks_IsErrorNotFound X e1); simpl|]; step_pass;
      rewrite <- ?app_assoc; reflexivity.
  - destruct (Delete client (ClusterName (Status (instance s)))) as [e1|]; simpl;
      [destruct (eks_IsErrorNotFound X e1); simpl|];
      (destruct (DeleteWorkerNodes client (CloudFormationStackID (Status (instance s))))
         as [e2|]; simpl;
       [destruct (cloudformation_IsErrorNotFound X e2); simpl|]); step_pass;
      rewrite <- ?app_assoc; reflexivity.
Qed.

Lemma RemoveFinalizer_removes f i : ~ In f (Finalizers (RemoveFinalizer f i)).
Proof.
  unfold RemoveFinalizer; simpl. intros H. apply filter_In in H as [_ H].
  now rewrite String.eqb_refl in H.
Qed.

(** C4 (amended).  When the reclaim policy is Delete and a worker stack is
    recorded, [_delete] asks the provider to delete the cluster master
    first and the worker-node stack second; the status write follows. *)
Theorem delete_master_before_workers r client s :
  ReclaimPolicy (Spec (instance s)) = ReclaimDelete ->
  CloudFormationStackID (Status (instance s)) <> "" ->
  let s' := snd (_delete X r client s) in
  calls s' = (calls s ++ [EvDelete (ClusterName (Status (instance s)));
                          EvDeleteWorkerNodes (CloudFormationStackID (Status (instance s)));
                          EvKubeUpdate (instance s')])%list /\
  issuedBefore (EvDelete (ClusterName (Status (instance s))))
               (EvDeleteWorkerNodes (CloudFormationStackID (Status (instance s))))
               (calls s').
Proof.
  intros HP HS. simpl.
  assert (calls (snd (_delete X r client s)) =
          (calls s ++ [EvDelete (ClusterName (Status (instance s)));
                       EvDeleteWorkerNodes (CloudFormationStackID (Status (instance s)));
                       EvKubeUpdate (instance (snd (_delete X r client s)))])%list) as E.
  { rewrite _delete_run by (rewrite HP; reflexivity).
    unfold deletionCalls. apply String.eqb_neq in HS. rewrite HS.
    destruct (masterFailure X client (instance s) ++ workerFailure X client (instance s))%list;
      reflexivity. }
  split; [exact E|].
  rewrite E. exists (calls s), [], [EvKubeUpdate (instance (snd (_delete X r client s)))].
  reflexivity.
Qed.

(** C5.  With the reclaim policy Delete, the failures of the two deletion
    calls (an answer that is an error and not "not found") are collected,
    neither hiding the other.  If there is any, both calls have still been
    issued, the pass ends in [fail] with one error whose text joins the
    failures with a comma, and the finalizers are as before.  So a finalizer
    that is gone after the pass means that no deletion failed. *)
Theorem delete_accumulates_errors r client s :
  let i := instance s in
  let errs := (masterFailure X client i ++ workerFailure X client i)%list in
  let o := fst (_delete X r client s) in
  let s' := snd (_delete X r client s) in
  ReclaimPolicy (Spec i) = ReclaimDelete ->
  (errs <> [] ->
     calls s' = (calls s ++ deletionCalls i ++ [EvKubeUpdate (instance s')])%list /\
     Instance_GetCondition (instance s') TypeSynced
       = ReconcileError (errorsNew (Join errs ", ")) /\
     Finalizers (instance s') = Finalizers i /\
     o = Returned (mkResult false aShortWait, Client_UpdateErr r (instance s'))) /\
  (In finalizer (Finalizers i) -> ~ In finalizer (Finalizers (instance s')) -> errs = []).
Proof.
  intros i errs o s' HP. subst o s'. unfold i in HP.
  rewrite _delete_run by (rewrite HP; reflexivity).
  fold i. fold errs. destruct errs as [|e es] eqn:E; simpl.
  - split; [intros H; now elim H|reflexivity].
  - split.
    + intros _. repeat split.
      apply (Instance_GetCondition_set1 _ (ReconcileError (errorsNew (Join (e :: es) ", ")))).
    + intros Hin Hout. now elim Hout.
Qed.

(** C7.  When every deletion call [_delete] issues is answered by nil or by
    a "not found" error, the pass succeeds: the finalizer is removed, the
    conditions are Deleting and ReconcileSuccess, and the result asks for no
    requeue; only the status write can still fail. *)
Theorem delete_not_found_is_success r client s :
  let i := instance s in
  let o := fst (_delete X r client s) in
  let s' := snd (_delete X r client s) in
  (forall e, Delete client (ClusterName (Status i)) = Some e ->
             eks_IsErrorNotFound X e = true) ->
  (forall e, DeleteWorkerNodes client (CloudFormationStackID (Status i)) = Some e ->
             cloudformation_IsErrorNotFound X e = true) ->
  ~ In finalizer (Finalizers (instance s')) /\
  Instance_GetCondition (instance s') TypeSynced = ReconcileSuccess /\
  Instance_GetCondition (instance s') TypeReady = Deleting /\
  o = Returned (mkResult false 0, Client_UpdateErr r (instance s')).
Proof.
  intros i o s' HM HW. subst o s'.
  assert (masterFailure X client i = []) as EM.
  { unfold masterFailure, deletionFailure.
    destruct (Delete client (ClusterName (Status i))) as [e|]; [|reflexivity].
    now rewrite (HM e eq_refl). }
  assert (workerFailure X client i = []) as EW.
  { unfold workerFailure, deletionFailure.
    destruct (String.eqb (CloudFormationStackID (Status i)) ""); [reflexivity|].
    destruct (DeleteWorkerNodes client (CloudFormationStackID (Status i))) as [e|];
      [|reflexivity].
    now rewrite (HW e eq_refl). }
  destruct (String.eqb (ReclaimPolicy (Spec (instance s))) ReclaimDelete) eqn:HP.
  - rewrite _delete_run by exact HP. fold i. rewrite EM, EW. simpl.
    split; [apply RemoveFinalizer_removes|].
    split; [apply (Instance_GetCondition_set1 _ ReconcileSuccess)|].
    split; [|reflexivity].
    rewrite Instance_GetCondition_set1_other by types_differ.
    apply (Instance_GetCondition_set1 (instance s) Deleting).
  - rewrite _delete_retain_run by exact HP. simpl.
    split; [apply RemoveFinalizer_removes|].
    split; [apply (Instance_GetCondition_set1 _ ReconcileSuccess)|].
    split; [|reflexivity].
    rewrite Instance_GetCondition_set1_other by types_differ.
    apply (Instance_GetCondition_set1 (instance s) Deleting).
Qed.

End DeleteBranch.

Lemma delete_master_before_workers_witness :
  issuedBefore (EvDelete "eks-uid") (EvDeleteWorkerNodes "stack-1")
    (calls (snd (_delete Sample.X (Sample.reconciler Sample.allReady Sample.obliging)
                         Sample.obliging Sample.inDelete))).
Proof.
  refine (proj2 (@delete_master_before_workers Sample.X
                   (Sample.reconciler Sample.allReady Sample.obliging)
                   Sample.obliging Sample.inDelete eq_refl _)).
  simpl. discriminate.
Defined.

(** C4 (as stated, refuted).  On a cluster with a worker stack the calls of
    [_delete] are the master's deletion, then the stack's: the stack's
    deletion is not requested before the master's. *)
Lemma delete_workers_first_counterexample :
  let s' := snd (_delete Sample.X (Sample.reconciler Sample.allReady Sample.obliging)
                         Sample.obliging Sample.inDelete) in
  calls s' = [EvDelete "eks-uid"; EvDeleteWorkerNodes "stack-1"; EvKubeUpdate (instance s')] /\
  ~ issuedBefore (EvDeleteWorkerNodes "stack-1") (EvDelete "eks-uid") (calls s').
Proof.
  cbv zeta. split; [reflexivity|].
  intros (l1 & l2 & l3 & H). vm_compute in H.
  destruct l1 as [|x1 [|x2 [|x3 [|x4 l1]]]]; simpl in H; try discriminate H.
  injection H as _ H. destruct l2 as [|y1 [|y2 l2]]; simpl in H; discriminate H.
Qed.

Lemma delete_accumulates_errors_witness :
  let s' := snd (_delete Sample.X (Sample.reconciler Sample.allReady Sample.failing)
                         Sample.failing Sample.inDelete) in
  CMessage (Instance_GetCondition (instance s') TypeSynced)
    = "Master Delete Error: ThrottlingException: rate exceeded, Worker Delete Error: OperationInProgress: stack is busy" /\
  Finalizers (instance s') = [finalizer].
Proof.
  cbv zeta.
  pose proof (@delete_accumulates_errors Sample.X
                (Sample.reconciler Sample.allReady Sample.failing)
                Sample.failing Sample.inDelete eq_refl) as [H _].
  destruct H as (_ & Hc & Hf & _).
  - discriminate.
  - split; [rewrite Hc; reflexivity|exact Hf].
Defined.

Lemma delete_not_found_is_success_witness :
  let s' := snd (_delete Sample.X (Sample.reconciler Sample.allReady Sample.absent)
                         Sample.absent Sample.inDelete) in
  Delete Sample.absent "eks-uid" = Some Sample.errGone /\
  ~ In finalizer (Finalizers (instance s')) /\
  fst (_delete Sample.X (Sample.reconciler Sample.allReady Sample.absent)
               Sample.absent Sample.inDelete)
    = Returned (mkResult false 0, None).
Proof.
  cbv zeta.
  pose proof (@delete_not_found_is_success Sample.X
                (Sample.reconciler Sample.allReady Sample.absent)
                Sample.absent Sample.inDelete) as H.
  destruct H as (Hf & _ & _ & Ho).
  - intros e He. injection He as <-. reflexivity.
  - intros e He. discriminate He.
  - split; [reflexivity|]. split; [exact Hf|exact Ho].
Defined.

(** *** Invariants of actions *)

Lemma preserves_ret {A} (I : St -> Prop) (a : A) : preserves I (ret a).
Proof. intros s H. exact H. Qed.

Lemma preserves_panic {A} (I : St -> Prop) : preserves I (@panic A).
Proof. intros s H. exact H. Qed.

Lemma preserves_deref {A} (I : St -> Prop) (p : option A) : preserves I (deref p).
Proof. destruct p; intros s H; exact H. Qed.

Lemma preserves_getInstance (I : St -> Prop) : preserves I getInstance.
Proof. intros s H. exact H. Qed.

Lemma preserves_bind {A B} (I : St -> Prop) (m : M A) (k : A -> M B) :
  preserves I m -> (forall a, preserves I (k a)) -> preserves I (bind m k).
Proof.
  intros Hm Hk s H. unfold bind. specialize (Hm s H).
  destruct (m s) as [[a|] s1]; simpl in *; [now apply Hk|exact Hm].
Qed.

Lemma preserves_modify (I : St -> Prop) f :
  (forall s, I s -> I (mkSt (f (instance s)) (server s) (calls s))) ->
  preserves I (modify f).
Proof. intros H s Hs. now apply H. Qed.

Lemma preserves_emit (I : St -> Prop) e :
  (forall s, I s -> I (mkSt (instance s) (server s) (calls s ++ [e]))) ->
  preserves I (emit e).
Proof. intros H s Hs. now apply H. Qed.

Lemma preserves_Client_Update (I : St -> Prop) r :
  (forall s, I s -> I (mkSt (instance s) (written r (instance s) (server s))
                            (calls s ++ [EvKubeUpdate (instance s)]))) ->
  preserves I (Client_Update r).
Proof. intros H s Hs. rewrite Client_Update_run. now apply H. Qed.

Lemma grewBy_refl P log : grewBy P log log.
Proof. exists []. split; [now rewrite app_nil_r|constructor]. Qed.

Lemma grewBy_snoc (P : Event -> Prop) log0 log e :
  grewBy P log0 log -> P e -> grewBy P log0 (log ++ [e]).
Proof.
  intros (evs & -> & H) He. exists (evs ++ [e])%list. split; [now rewrite app_assoc|].
  apply Forall_app. split; [exact H|now constructor].
Qed.

Lemma grewBy_trans (P : Event -> Prop) log0 log1 log2 :
  grewBy P log0 log1 -> grewBy P log1 log2 -> grewBy P log0 log2.
Proof.
  intros (e1 & -> & H1) (e2 & -> & H2). exists (e1 ++ e2)%list.
  split; [now rewrite app_assoc|]. apply Forall_app. now split.
Qed.

Lemma grewBy_weaken (P Q : Event -> Prop) log0 log :
  (forall e, P e -> Q e) -> grewBy P log0 log -> grewBy Q log0 log.
Proof.
  intros HPQ (evs & -> & H). exists evs. split; [reflexivity|].
  eapply Forall_impl; [exact HPQ|exact H].
Qed.

(** One step of an invariant proof over the monad's structure. *)
Ltac pres_step :=
  match goal with
  | |- preserves _ (bind _ _) => apply preserves_bind; [|intros]
  | |- preserves _ (ret _) => apply preserves_ret
  | |- preserves _ panic => apply preserves_panic
  | |- preserves _ (deref _) => apply preserves_deref
  | |- preserves _ getInstance => apply preserves_getInstance
  | |- preserves _ (match ?x with _ => _ end) => destruct x
  end.

(** *** Reference resolution: what it touches and what it reports *)

Section Resolution.

Variable r : Reconciler.

Lemma sameButParameters_assignTo v value i i0 :
  sameButParameters i i0 -> sameButParameters (assignTo v value i) i0.
Proof. destruct v; intros H; exact H. Qed.

Lemma resolving_GetStatus i0 log0 v : preserves (resolving i0 log0) (GetStatus r v).
Proof.
  unfold GetStatus. pres_step; [apply preserves_getInstance|].
  pres_step.
  - apply preserves_emit. intros s [Hi Hl]. split; [exact Hi|].
    now apply grewBy_snoc.
  - repeat pres_step.
Qed.

Lemma resolving_Build i0 log0 v : preserves (resolving i0 log0) (Build r v).
Proof.
  unfold Build. pres_step; [apply preserves_getInstance|].
  pres_step.
  - apply preserves_emit. intros s [Hi Hl]. split; [exact Hi|].
    now apply grewBy_snoc.
  - repeat pres_step.
Qed.

Lemma resolving_Assign i0 log0 v value : preserves (resolving i0 log0) (Assign v value).
Proof.
  unfold Assign. pres_step; [|pres_step; [|pres_step]].
  - apply preserves_emit. intros s [Hi Hl]. split; [exact Hi|].
    now apply grewBy_snoc.
  - apply preserves_modify. intros s [Hi Hl]. split; [|exact Hl].
    now apply sameButParameters_assignTo.
Qed.

Lemma resolving_Client_Update i0 log0 : preserves (resolving i0 log0) (Client_Update r).
Proof.
  apply preserves_Client_Update. intros s [Hi Hl]. split; [exact Hi|].
  now apply grewBy_snoc.
Qed.

Lemma resolving_getAllStatuses i0 log0 referencers acc :
  preserves (resolving i0 log0) (getAllStatuses r referencers acc).
Proof.
  revert acc. induction referencers as [|v rest IH]; intros acc; simpl.
  - apply preserves_ret.
  - pres_step; [apply resolving_GetStatus|].
    destruct a as [statuses [e|]]; [apply preserves_ret|apply IH].
Qed.

Lemma resolving_buildAndAssign i0 log0 referencers :
  preserves (resolving i0 log0) (buildAndAssign r referencers).
Proof.
  induction referencers as [|v rest IH]; simpl.
  - apply preserves_ret.
  - pres_step; [apply resolving_Build|].
    destruct a as [val [e|]]; [apply preserves_ret|].
    pres_step; [apply resolving_Assign|].
    destruct a; [apply preserves_ret|apply IH].
Qed.

Lemma resolving_ResolveReferences i0 log0 :
  preserves (resolving i0 log0) (ResolveReferences r).
Proof.
  unfold ResolveReferences. pres_step; [apply preserves_getInstance|].
  destruct (FindReferencers a) as [|v rest]; [apply preserves_ret|].
  pres_step; [apply resolving_getAllStatuses|].
  destruct a0 as [allStatuses [e|]]; [apply preserves_ret|].
  destruct (newReferenceAccessErr allStatuses); [apply preserves_ret|].
  pres_step; [apply resolving_buildAndAssign|].
  destruct a0; [apply preserves_ret|].
  pres_step; [apply resolving_Client_Update|apply preserves_ret].
Qed.

Lemma GetStatus_run v s :
  exists res, GetStatus r v s =
              (Returned res, mkSt (instance s) (server s) (calls s ++ [EvGetStatus v])).
Proof.
  unfold GetStatus, bind, getInstance, emit, ret; simpl.
  destruct (Reader_Get r (Referencer_Kind v) (Namespace (instance s)) (Referencer_Name v))
    as [sg|err].
  - destruct (negb (IsConditionTrue (GetCondition (Target_Conditions sg) TypeReady)));
      eexists; reflexivity.
  - destruct (kerrors_IsNotFound err); eexists; reflexivity.
Qed.

(** Asking for the statuses reads only; an error of this loop is a wrapped
    reader error, never the blocked outcome. *)
Lemma getAllStatuses_reads referencers : forall acc s o s',
  getAllStatuses r referencers acc s = (o, s') ->
  instance s' = instance s /\ server s' = server s /\
  grewBy isGetStatus (calls s) (calls s') /\
  (forall sts e, o = Returned (sts, Some e) -> IsReferencesAccessError e = false).
Proof.
  induction referencers as [|v rest IH]; intros acc s o s' H; simpl in H.
  - unfold ret in H. injection H as <- <-.
    repeat split; [apply grewBy_refl|]. intros sts e He. discriminate He.
  - unfold bind in H. destruct (GetStatus_run v s) as [[statuses err] E].
    rewrite E in H. destruct err as [e|].
    + unfold ret in H. injection H as <- <-. simpl.
      repeat split.
      * apply grewBy_snoc; [apply grewBy_refl|now exists v].
      * intros sts e' He. injection He as _ <-. reflexivity.
    + apply IH in H. simpl in H. destruct H as (Hi & Hs & Hl & He).
      repeat split; try assumption.
      eapply grewBy_trans; [|exact Hl].
      apply grewBy_snoc; [apply grewBy_refl|now exists v].
Qed.

Lemma buildAndAssign_error_wrapped referencers : forall s e s',
  buildAndAssign r referencers s = (Returned (Some e), s') ->
  IsReferencesAccessError e = false.
Proof.
  induction referencers as [|v rest IH]; intros s e s' H; simpl in H.
  - discriminate H.
  - unfold Build, Assign, bind, getInstance, emit, modify, ret in H; simpl in H.
    destruct (Reader_Get r (Referencer_Kind v) (Namespace (instance s)) (Referencer_Name v))
      as [sg|err]; simpl in H.
    + now apply IH in H.
    + injection H as <- _. reflexivity.
Qed.

(** The blocked outcome comes straight from the statuses: nothing has been
    built or assigned, nothing written. *)
Lemma ResolveReferences_blocked s e s' :
  ResolveReferences r s = (Returned (Some e), s') ->
  IsReferencesAccessError e = true ->
  instance s' = instance s /\ server s' = server s /\
  grewBy isGetStatus (calls s) (calls s').
Proof.
  unfold ResolveReferences. unfold bind at 1. unfold getInstance at 1.
  destruct (FindReferencers (instance s)) as [|v rest]; [discriminate|].
  unfold bind at 1.
  destruct (getAllStatuses r (v :: rest) [] s) as [[[allStatuses err]|] s1] eqn:G;
    [|discriminate].
  apply getAllStatuses_reads in G. destruct G as (Hi & Hs & Hl & He).
  destruct err as [e1|].
  - unfold ret. intros H Ha. injection H as <- <-.
    rewrite (He _ _ eq_refl) in Ha. discriminate Ha.
  - destruct (newReferenceAccessErr allStatuses) as [e1|].
    + unfold ret. intros H _. injection H as <- <-. now repeat split.
    + unfold bind at 1.
      destruct (buildAndAssign r (v :: rest) s1) as [[[e1|]|] s2] eqn:B.
      * unfold ret. intros H Ha. injection H as <- <-.
        apply buildAndAssign_error_wrapped in B. rewrite B in Ha. discriminate Ha.
      * unfold bind. rewrite Client_Update_run. unfold ret.
        destruct (Client_UpdateErr r (instance s2)); simpl; intros H Ha;
          [injection H as <- <-; discriminate Ha|discriminate H].
      * discriminate.
Qed.

Lemma GetStatus_known v s st :
  referenceStatus r (Namespace (instance s)) v = Some st ->
  GetStatus r v s =
  (Returned ([st], None), mkSt (instance s) (server s) (calls s ++ [EvGetStatus v])).
Proof.
  unfold referenceStatus, GetStatus, bind, getInstance, emit, ret; simpl.
  destruct (Reader_Get r (Referencer_Kind v) (Namespace (instance s)) (Referencer_Name v))
    as [t|err].
  - destruct (IsConditionTrue (GetCondition (Target_Conditions t) TypeReady));
      intros H; injection H as <-; reflexivity.
  - destruct (kerrors_IsNotFound err); intros H; [injection H as <-; reflexivity|discriminate].
Qed.

(** When every status can be read, the loop collects them all. *)
Lemma getAllStatuses_known referencers : forall acc s,
  (forall v, In v referencers -> referenceStatus r (Namespace (instance s)) v <> None) ->
  exists sts,
    getAllStatuses r referencers acc s =
    (Returned ((acc ++ sts)%list, None),
     mkSt (instance s) (server s) (calls s ++ map EvGetStatus referencers)) /\
    (forall v st, In v referencers ->
       referenceStatus r (Namespace (instance s)) v = Some st -> In st sts).
Proof.
  induction referencers as [|v rest IH]; intros acc s Hk; simpl.
  - exists []. rewrite !app_nil_r. split; [now destruct s|]. intros v st [].
  - destruct (referenceStatus r (Namespace (instance s)) v) as [st|] eqn:E;
      [|now elim (Hk v (or_introl eq_refl))].
    unfold bind. rewrite (GetStatus_known v s E).
    destruct (IH (acc ++ [st])%list
                 (mkSt (instance s) (server s) (calls s ++ [EvGetStatus v]))) as (sts & Hrun & Hin).
    { intros w Hw. apply Hk. now right. }
    exists (st :: sts). rewrite Hrun. simpl. rewrite <- !app_assoc. simpl.
    split; [reflexivity|].
    intros w st' [<-|Hw] Hst.
    + left. congruence.
    + right. now apply (Hin w).
Qed.

(** Resolution is blocked as soon as one reference is NotFound or NotReady
    (the statuses being readable): it reports the blocked outcome and has
    only asked for statuses. *)
Lemma ResolveReferences_blocks_on_unready s v :
  (forall w, In w (FindReferencers (instance s)) ->
             referenceStatus r (Namespace (instance s)) w <> None) ->
  In v (FindReferencers (instance s)) ->
  unready r (Namespace (instance s)) v ->
  exists failures,
    ResolveReferences r s =
    (Returned (Some (referencesAccessErr failures)),
     mkSt (instance s) (server s)
          (calls s ++ map EvGetStatus (FindReferencers (instance s)))).
Proof.
  intros Hk Hv (st & Hst & Hnr).
  unfold ResolveReferences. unfold bind at 1. unfold getInstance at 1.
  destruct (FindReferencers (instance s)) as [|v0 rest] eqn:EF; [now elim Hv|].
  destruct (getAllStatuses_known (v0 :: rest) [] s Hk) as (sts & Hrun & Hin).
  unfold bind at 1. rewrite Hrun. simpl.
  specialize (Hin v st Hv Hst).
  unfold newReferenceAccessErr.
  destruct (filter _ sts) as [|f fs] eqn:Efil.
  - exfalso.
    assert (In st (filter (fun st0 => match RefStatus st0 with
                                      | ReferenceReady => false
                                      | _ => true
                                      end) sts)) as Hf.
    { apply filter_In. split; [exact Hin|]. destruct (RefStatus st); congruence. }
    rewrite Efil in Hf. exact Hf.
  - exists (f :: fs). reflexivity.
Qed.

End Resolution.

(** *** The first steps of a pass *)

#[local] Arguments ResolveReferences : simpl never.
#[local] Arguments provision : simpl never.

Section PassPrefix.

Variable X : Externals.

(** The object cannot be read: the pass ends, with the error unless it is
    "not found". *)
Lemma Reconcile_get_error r s e :
  Client_GetErr r = Some e ->
  Reconcile X r s =
  (Returned (Result_zero, IgnoreNotFound e),
   mkSt EKSCluster_zero (server s) (calls s ++ [EvKubeGet])).
Proof. intros H. unfold Reconcile, Client_Get. rewrite H. reflexivity. Qed.

(** The object no longer exists: the pass ends successfully. *)
Lemma Reconcile_absent r s :
  Client_GetErr r = None -> server s = None ->
  Reconcile X r s =
  (Returned (Result_zero, None), mkSt EKSCluster_zero None (calls s ++ [EvKubeGet])).
Proof.
  intros H Hs. unfold Reconcile, Client_Get. rewrite H.
  unfold bind, modify, emit, ret; simpl. rewrite Hs. reflexivity.
Qed.

(** Connecting fails: [fail]. *)
Lemma Reconcile_connect_error r s obj e :
  Client_GetErr r = None -> server s = Some obj -> connect r obj = inr e ->
  Reconcile X r s = fail r e (fetched s obj).
Proof.
  intros H Hs Hc. unfold Reconcile, Client_Get. rewrite H.
  unfold bind, modify, emit, ret, getInstance; simpl. rewrite Hs. simpl. rewrite Hc.
  unfold fetched. now rewrite <- app_assoc.
Qed.

(** Fetched and connected: the gate on the ReferencesResolved condition. *)
Lemma Reconcile_fetched r s obj client :
  Client_GetErr r = None -> server s = Some obj -> connect r obj = inl client ->
  Reconcile X r s =
  if IsConditionTrue (Instance_GetCondition obj TypeReferencesResolved)
  then provision X r client (fetched s obj)
  else
    match ResolveReferences r (fetched s obj) with
    | (Returned (Some e), s2) =>
        let i' := Status_SetConditions
                    [if IsReferencesAccessError e then ReferenceResolutionBlocked e
                     else ReconcileError e] (instance s2) in
        (Returned (mkResult false aLongWait,
                   Wrap (Client_UpdateErr r i') errUpdateManagedStatus),
         mkSt i' (written r i' (server s2)) (calls s2 ++ [EvKubeUpdate i']))
    | (Returned None, s2) =>
        provision X r client
          (mkSt (Status_SetConditions [ReferenceResolutionSuccess] (instance s2))
                (server s2) (calls s2))
    | (Panicked, s2) => (Panicked, s2)
    end.
Proof.
  intros H Hs Hc. unfold Reconcile, Client_Get. rewrite H.
  unfold bind, modify, emit, ret, getInstance; simpl. rewrite Hs. simpl. rewrite Hc. simpl.
  unfold fetched. rewrite <- app_assoc. simpl.
  destruct (IsConditionTrue (Instance_GetCondition obj TypeReferencesResolved)); simpl;
    [reflexivity|].
  destruct (ResolveReferences r _) as [[[e|]|] s2]; [|reflexivity|reflexivity].
  rewrite Client_Update_run. reflexivity.
Qed.

End PassPrefix.

(** *** The gate on reference resolution *)

Section Gate.

Variable X : Externals.

Lemma DeletionTimestamp_AddFinalizer f i :
  DeletionTimestamp (AddFinalizer f i) = DeletionTimestamp i.
Proof. unfold AddFinalizer. destruct (existsb _ _); reflexivity. Qed.

(** With the deletion timestamp set, provisioning is the Delete branch. *)
Lemma provision_deleting r client s :
  DeletionTimestamp (instance s) <> None ->
  provision X r client s =
  _delete X r client (mkSt (AddFinalizer finalizer (instance s)) (server s) (calls s)).
Proof.
  intros H. unfold provision, bind, modify, getInstance; simpl.
  rewrite DeletionTimestamp_AddFinalizer.
  destruct (DeletionTimestamp (instance s)); [reflexivity|now elim H].
Qed.

Lemma not_provider_not_deletion e : isProviderCall e = false -> isDeletionCall e = false.
Proof. destruct e; simpl; intros H; congruence. Qed.

(** C1 (amended).  A pass over a resource whose deletion is requested runs
    the Delete branch once its references are settled: when the
    ReferencesResolved condition is already True, or when resolution
    succeeds in this pass.  When resolution returns an error the pass ends
    before the deletion check: no deletion call is issued, the finalizers
    and the Ready condition stay as fetched, and the result requeues after
    [aLongWait]. *)
Theorem deletion_waits_for_references r s obj client :
  Client_GetErr r = None -> server s = Some obj -> connect r obj = inl client ->
  DeletionTimestamp obj <> None ->
  (IsConditionTrue (Instance_GetCondition obj TypeReferencesResolved) = true ->
     Reconcile X r s =
     _delete X r client
       (mkSt (AddFinalizer finalizer obj) (Some obj) (calls s ++ [EvKubeGet; EvConnect]))) /\
  (IsConditionTrue (Instance_GetCondition obj TypeReferencesResolved) = false ->
     forall s2, ResolveReferences r (fetched s obj) = (Returned None, s2) ->
     Reconcile X r s =
     _delete X r client
       (mkSt (AddFinalizer finalizer
                (Status_SetConditions [ReferenceResolutionSuccess] (instance s2)))
             (server s2) (calls s2))) /\
  (IsConditionTrue (Instance_GetCondition obj TypeReferencesResolved) = false ->
     forall e s2, ResolveReferences r (fetched s obj) = (Returned (Some e), s2) ->
     let o := fst (Reconcile X r s) in
     let s3 := snd (Reconcile X r s) in
     grewBy (fun ev => isDeletionCall ev = false) (calls s) (calls s3) /\
     Finalizers (instance s3) = Finalizers obj /\
     Instance_GetCondition (instance s3) TypeReady = Instance_GetCondition obj TypeReady /\
     o = Returned (mkResult false aLongWait,
                   Wrap (Client_UpdateErr r (instance s3)) errUpdateManagedStatus)).
Proof.
  intros HG Hs Hc Hd.
  pose proof (@resolving_ResolveReferences r obj (calls s ++ [EvKubeGet; EvConnect])
                (fetched s obj)) as Hres.
  assert (resolving obj (calls s ++ [EvKubeGet; EvConnect]) (fetched s obj)) as H0.
  { split; [now repeat split|apply grewBy_refl]. }
  specialize (Hres H0). clear H0.
  rewrite (Reconcile_fetched X r s HG Hs Hc).
  split; [|split].
  - intros HT. rewrite HT. now apply provision_deleting.
  - intros HT s2 HR. rewrite HT, HR. rewrite HR in Hres. simpl in Hres.
    destruct Hres as [(_ & _ & _ & Hdel & _) _].
    rewrite provision_deleting; [reflexivity|]. simpl. now rewrite Hdel.
  - intros HT e s2 HR. rewrite HT, HR. rewrite HR in Hres. simpl in *.
    destruct Hres as [(_ & _ & _ & _ & Hfin & _ & _ & Hst) Hlog].
    repeat split.
    + apply grewBy_snoc; [|reflexivity].
      apply (grewBy_trans (log1 := (calls s ++ [EvKubeGet; EvConnect])%list)).
      * exists [EvKubeGet; EvConnect]. split; [reflexivity|repeat constructor].
      * eapply grewBy_weaken; [apply not_provider_not_deletion|exact Hlog].
    + exact Hfin.
    + unfold Instance_GetCondition at 2. rewrite <- Hst.
      destruct (IsReferencesAccessError e);
        apply Instance_GetCondition_set1_other; types_differ.
Qed.

(** C2 (amended).  When resolution is blocked, the pass records the
    ReferencesResolved condition "blocked" with the blocking statuses (and
    changes nothing else of the instance, not the Synced condition either),
    issues no provider call, writes the status and returns a requeue after
    [aLongWait], twice the wait [fail] asks for.  The write is the last
    call of the pass and its only write: after the read and the connection
    come the referencers' status requests, then the write of the instance
    with the blocked condition, which becomes the server's copy when the
    server accepts it. *)
Theorem blocked_resolution_waits_long r s obj client e s2 :
  Client_GetErr r = None -> server s = Some obj -> connect r obj = inl client ->
  IsConditionTrue (Instance_GetCondition obj TypeReferencesResolved) = false ->
  ResolveReferences r (fetched s obj) = (Returned (Some e), s2) ->
  IsReferencesAccessError e = true ->
  let o := fst (Reconcile X r s) in
  let s3 := snd (Reconcile X r s) in
  instance s3 = Status_SetConditions [ReferenceResolutionBlocked e] obj /\
  Instance_GetCondition (instance s3) TypeReferencesResolved = ReferenceResolutionBlocked e /\
  Instance_GetCondition (instance s3) TypeSynced = Instance_GetCondition obj TypeSynced /\
  grewBy (fun ev => isProviderCall ev = false) (calls s) (calls s3) /\
  o = Returned (mkResult false aLongWait,
                Wrap (Client_UpdateErr r (instance s3)) errUpdateManagedStatus) /\
  aLongWait = 2 * aShortWait /\
  calls s3 = (calls s2 ++ [EvKubeUpdate (instance s3)])%list /\
  (exists asked,
     Forall isGetStatus asked /\
     calls s3 = (calls s ++ [EvKubeGet; EvConnect] ++ asked
                         ++ [EvKubeUpdate (instance s3)])%list) /\
  server s3 = written r (instance s3) (Some obj).
Proof.
  intros HG Hs Hc HT HR Ha.
  destruct (ResolveReferences_blocked r _ HR Ha) as (Hi & Hsrv & Hl).
  rewrite (Reconcile_fetched X r s HG Hs Hc). rewrite HT, HR, Ha. simpl in *.
  rewrite Hi.
  split; [reflexivity|].
  split; [apply (Instance_GetCondition_set1 _ (ReferenceResolutionBlocked e))|].
  split; [apply Instance_GetCondition_set1_other; types_differ|].
  split.
  { apply grewBy_snoc; [|reflexivity].
    apply (grewBy_trans (log1 := (calls s ++ [EvKubeGet; EvConnect])%list)).
    - exists [EvKubeGet; EvConnect]. split; [reflexivity|repeat constructor].
    - eapply grewBy_weaken; [|exact Hl]. intros ev [v ->]. reflexivity. }
  split; [reflexivity|]. split; [reflexivity|]. split; [reflexivity|].
  split; [|now rewrite Hsrv].
  destruct Hl as (asked & E & Hasked). exists asked. split; [exact Hasked|].
  rewrite E, <- !app_assoc. reflexivity.
Qed.

End Gate.

(** C1 (as stated, refuted).  A cluster whose deletion is requested, whose
    references are not yet recorded as resolved and whose VPC does not
    exist: the pass ends blocked.  No deletion call is issued, the Ready
    condition is not Deleting, the finalizer stays. *)
Lemma deletion_blocked_counterexample :
  let obj := Sample.cluster (Some 5) [] in
  let p := Reconcile Sample.X (Sample.reconciler Sample.nothingFound Sample.obliging)
                     (Sample.start obj) in
  DeletionTimestamp obj = Some 5 /\
  Forall (fun e => isDeletionCall e = false) (calls (snd p)) /\
  Instance_GetCondition (instance (snd p)) TypeReady <> Deleting /\
  In finalizer (Finalizers (instance (snd p))) /\
  IsReferencesAccessError (referencesAccessErr [mkReferenceStatus "vpc" ReferenceNotFound])
    = true /\
  Instance_GetCondition (instance (snd p)) TypeReferencesResolved
    = ReferenceResolutionBlocked
        (referencesAccessErr [mkReferenceStatus "vpc" ReferenceNotFound]) /\
  fst p = Returned (mkResult false aLongWait, None).
Proof.
  cbv zeta. split; [reflexivity|].
  split; [vm_compute; repeat constructor|].
  split; [vm_compute; discriminate|].
  split; [left; reflexivity|].
  split; [reflexivity|]. split; reflexivity.
Qed.

Lemma deletion_waits_for_references_witness :
  Instance_GetCondition
    (instance (snd (Reconcile Sample.X (Sample.reconciler Sample.allReady Sample.obliging)
                              (Sample.start Sample.doomed))))
    TypeReady = Deleting.
Proof.
  pose proof (@deletion_waits_for_references Sample.X
                (Sample.reconciler Sample.allReady Sample.obliging)
                (Sample.start Sample.doomed) Sample.doomed Sample.obliging
                eq_refl eq_refl eq_refl) as H.
  destruct H as [HA _]; [discriminate|].
  rewrite (HA eq_refl). reflexivity.
Defined.

(** C2 (as stated, refuted).  A blocked pass returns a requeue after
    [aLongWait], which is not the short wait but longer. *)
Lemma blocked_requeue_counterexample :
  let p := Reconcile Sample.X (Sample.reconciler Sample.nothingFound Sample.obliging)
                     (Sample.start (Sample.fresh [])) in
  Instance_GetCondition (instance (snd p)) TypeReferencesResolved
    = ReferenceResolutionBlocked
        (referencesAccessErr [mkReferenceStatus "vpc" ReferenceNotFound]) /\
  exists res err, fst p = Returned (res, err) /\
                  RequeueAfter res <> aShortWait /\ aShortWait < RequeueAfter res.
Proof.
  cbv zeta. split; [reflexivity|].
  exists (mkResult false aLongWait), None.
  split; [reflexivity|]. split; [discriminate|reflexivity].
Qed.

Lemma blocked_resolution_waits_long_witness :
  let p := Reconcile Sample.X (Sample.reconciler Sample.nothingFound Sample.obliging)
                     (Sample.start (Sample.fresh [])) in
  fst p = Returned (mkResult false aLongWait, None) /\
  grewBy (fun ev => isProviderCall ev = false) [] (calls (snd p)) /\
  calls (snd p) = [EvKubeGet; EvConnect; EvGetStatus (VPCIDReferencerForEKSCluster "vpc");
                   EvKubeUpdate (instance (snd p))] /\
  server (snd p)
    = Some (Status_SetConditions
              [ReferenceResolutionBlocked
                 (referencesAccessErr [mkReferenceStatus "vpc" ReferenceNotFound])]
              (Sample.fresh [])).
Proof.
  cbv zeta.
  pose proof (@blocked_resolution_waits_long Sample.X
                (Sample.reconciler Sample.nothingFound Sample.obliging)
                (Sample.start (Sample.fresh [])) (Sample.fresh []) Sample.obliging
                (referencesAccessErr [mkReferenceStatus "vpc" ReferenceNotFound])
                (snd (ResolveReferences (Sample.reconciler Sample.nothingFound Sample.obliging)
                        (fetched (Sample.start (Sample.fresh [])) (Sample.fresh []))))
                eq_refl eq_refl eq_refl eq_refl eq_refl eq_refl) as H.
  destruct H as (Hi & _ & _ & Hl & Ho & _ & Hc & _ & Hsrv).
  split; [exact Ho|]. split; [exact Hl|]. split; [exact Hc|].
  rewrite Hsrv, Hi. reflexivity.
Defined.

(** *** Once references are resolved *)

Lemma benign_SetConditions1 c :
  CType c <> TypeReferencesResolved -> benign (Status_SetConditions [c]).
Proof.
  intros H i. split; [reflexivity|]. now apply Instance_GetCondition_set1_other.
Qed.

Lemma benign_SetConditions2 c1 c2 :
  CType c1 <> TypeReferencesResolved -> CType c2 <> TypeReferencesResolved ->
  benign (Status_SetConditions [c1; c2]).
Proof.
  intros H1 H2 i. split; [reflexivity|]. now apply Instance_GetCondition_set2_other.
Qed.

Lemma benign_AddFinalizer f : benign (AddFinalizer f).
Proof. intros i. unfold AddFinalizer. destruct (existsb _ _); split; reflexivity. Qed.

Lemma benign_RemoveFinalizer f : benign (RemoveFinalizer f).
Proof. intros i. split; reflexivity. Qed.

Lemma benign_SetBindable : benign SetBindable.
Proof. intros i. unfold SetBindable. destruct (String.eqb _ _); split; reflexivity. Qed.

Lemma benign_set_Status f :
  (forall st, Conditions (f st) = Conditions st) -> benign (set_Status f).
Proof.
  intros H i. split; [reflexivity|].
  unfold Instance_GetCondition; simpl. now rewrite H.
Qed.

Section Once.

Variable X : Externals.
Variable S : EKSClusterSpec.
Variable log0 : list Event.

Lemma settled_modify f : benign f -> preserves (settled S log0) (modify f).
Proof.
  intros Hf. apply preserves_modify. intros s [[HS HC] Hsrv].
  destruct (Hf (instance s)) as [E1 E2].
  split; [|exact Hsrv]. split; simpl; [now rewrite E1|now rewrite E2].
Qed.

Lemma settled_emit e :
  isResolutionCall e = false -> (forall o, e <> EvKubeUpdate o) ->
  preserves (settled S log0) (emit e).
Proof.
  intros He Hu. apply preserves_emit. intros s [Hi [Hsrv Hl]].
  split; [exact Hi|]. split; [exact Hsrv|].
  apply grewBy_snoc; [exact Hl|]. split; [exact He|]. intros o Ho. now elim (Hu o).
Qed.

Lemma settled_Client_Update r : preserves (settled S log0) (Client_Update r).
Proof.
  apply preserves_Client_Update. intros s [Hi [Hsrv Hl]].
  split; [exact Hi|]. split; simpl.
  - unfold written, stored. intros o.
    destruct (Client_UpdateErr r (instance s)); [apply Hsrv|].
    destruct (DeletionTimestamp (instance s)); [destruct (Finalizers (instance s))|];
      intros Ho; try discriminate Ho; injection Ho as <-; exact Hi.
  - apply grewBy_snoc; [exact Hl|]. split; [reflexivity|].
    intros o Ho. injection Ho as <-. exact Hi.
Qed.

Lemma settled_fail r e : preserves (settled S log0) (fail r e).
Proof.
  unfold fail. pres_step; [|pres_step; [apply settled_Client_Update|pres_step]].
  apply settled_modify, benign_SetConditions1. types_differ.
Qed.

(** Closes the side conditions of an invariant step over a branch. *)
Ltac settle :=
  repeat first
    [ pres_step
    | apply settled_fail
    | apply settled_Client_Update
    | apply settled_modify;
      first [ apply benign_SetConditions1; types_differ
            | apply benign_SetConditions2; types_differ
            | apply benign_AddFinalizer
            | apply benign_RemoveFinalizer
            | apply benign_SetBindable
            | apply benign_set_Status; reflexivity ]
    | apply settled_emit; [reflexivity|discriminate] ].

Lemma settled_create r client : preserves (settled S log0) (_create X r client).
Proof. unfold _create. cbv zeta. settle. Qed.

Lemma settled_sync r client : preserves (settled S log0) (_sync X r client).
Proof. unfold _sync. settle. Qed.

Lemma settled_delete r client : preserves (settled S log0) (_delete X r client).
Proof. unfold _delete. cbv zeta. settle. Qed.

Lemma settled_provision r client : preserves (settled S log0) (provision X r client).
Proof.
  unfold provision.
  pres_step; [apply settled_modify, benign_AddFinalizer|].
  pres_step; [apply preserves_getInstance|].
  destruct (DeletionTimestamp a0); [apply settled_delete|].
  destruct (String.eqb _ _); [apply settled_create|apply settled_sync].
Qed.

(** A pass over a settled object. *)
Lemma settledServer_Reconcile r s :
  settledServer S log0 s -> settledServer S log0 (snd (Reconcile X r s)).
Proof.
  intros [Hsrv Hl].
  assert (forall e, isResolutionCall e = false -> (forall o, e <> EvKubeUpdate o) ->
                    quiet S e) as Hq.
  { intros e He Hu. split; [exact He|]. intros o Ho. now elim (Hu o). }
  destruct (Client_GetErr r) as [e|] eqn:HG.
  { rewrite (Reconcile_get_error X r s HG). split; [exact Hsrv|].
    apply grewBy_snoc; [exact Hl|]. now apply Hq. }
  destruct (server s) as [obj|] eqn:Hs.
  2:{ rewrite (Reconcile_absent X r s HG Hs). split; [discriminate|].
      apply grewBy_snoc; [exact Hl|]. now apply Hq. }
  assert (settled S log0 (fetched s obj)) as H1.
  { split; [now apply Hsrv|]. split; simpl.
    - intros o Ho. injection Ho as <-. now apply Hsrv.
    - rewrite <- (app_nil_r (calls s)), <- !app_assoc. simpl.
      change (calls s ++ [EvKubeGet; EvConnect])%list
        with (calls s ++ [EvKubeGet] ++ [EvConnect])%list.
      rewrite app_assoc. apply grewBy_snoc; [apply grewBy_snoc; [exact Hl|]|]; now apply Hq. }
  destruct (connect r obj) as [client|e] eqn:Hc.
  - rewrite (Reconcile_fetched X r s HG Hs Hc).
    pose proof H1 as [[_ HT] _]. simpl in HT. rewrite HT.
    apply (settled_provision r client H1).
  - rewrite (Reconcile_connect_error X r s HG Hs Hc).
    apply (settled_fail r e H1).
Qed.

Lemma settledServer_step st s :
  settledServer S log0 s -> settledServer S log0 (step X st s).
Proof.
  destruct st as [r|t]; simpl; [apply settledServer_Reconcile|].
  intros [Hsrv Hl]. split; [|exact Hl]. simpl.
  destruct (server s) as [obj|]; [|discriminate].
  intros o Ho. specialize (Hsrv obj eq_refl).
  unfold stored, requestDeletion in Ho.
  destruct (DeletionTimestamp obj) eqn:Hd; simpl in Ho.
  - rewrite Hd in Ho. destruct (Finalizers obj); [discriminate|]. now injection Ho as <-.
  - destruct (Finalizers obj); [discriminate|]. now injection Ho as <-.
Qed.

Lemma settledServer_steps sts : forall s,
  settledServer S log0 s -> settledServer S log0 (steps X sts s).
Proof.
  induction sts as [|st rest IH]; intros s H; simpl; [exact H|].
  apply IH. now apply settledServer_step.
Qed.

End Once.

(** C3.  Once the server holds the object with the ReferencesResolved
    condition True, no later pass resolves again, whatever the collaborators
    answer and whether or not deletion is requested in between: no
    referencer is asked for its status, and none builds or assigns; every
    write carries the spec unchanged, and the server's copy, while it
    exists, keeps that spec and the condition. *)
Theorem resolution_runs_once (X : Externals) (sts : list Step) (s : St) (obj : EKSCluster) :
  server s = Some obj ->
  IsConditionTrue (Instance_GetCondition obj TypeReferencesResolved) = true ->
  let s' := steps X sts s in
  (exists evs, calls s' = (calls s ++ evs)%list /\
     Forall (fun e => isResolutionCall e = false) evs /\
     Forall (fun e => forall o, e = EvKubeUpdate o -> Spec o = Spec obj) evs) /\
  (forall o, server s' = Some o ->
     Spec o = Spec obj /\
     IsConditionTrue (Instance_GetCondition o TypeReferencesResolved) = true).
Proof.
  intros Hs HT. simpl.
  assert (settledServer (Spec obj) (calls s) s) as H0.
  { split; [|apply grewBy_refl]. intros o Ho. rewrite Hs in Ho. injection Ho as <-.
    now split. }
  destruct (settledServer_steps X sts H0) as [Hsrv (evs & E & Hq)].
  split; [|exact Hsrv].
  exists evs. split; [exact E|]. split.
  - eapply Forall_impl; [|exact Hq]. now intros e [He _].
  - eapply Forall_impl; [|exact Hq]. intros e [_ He] o Ho. now destruct (He o Ho).
Qed.

Lemma resolution_runs_once_witness :
  let r := Sample.reconciler Sample.allReady Sample.obliging in
  let s' := steps Sample.X [Pass r; Pass r; RequestDeletion 9; Pass r] Sample.afterFirstPass in
  In (EvAssign (VPCIDReferencerForEKSCluster "vpc") "vpc-123") (calls Sample.afterFirstPass) /\
  VPCID (Parameters (Spec Sample.resolvedCopy)) = "vpc-123" /\
  (exists evs, calls s' = (calls Sample.afterFirstPass ++ evs)%list /\
     Forall (fun e => isResolutionCall e = false) evs) /\
  (forall o, server s' = Some o -> Spec o = Spec Sample.resolvedCopy).
Proof.
  cbv zeta.
  pose proof (@resolution_runs_once Sample.X
                [Pass (Sample.reconciler Sample.allReady Sample.obliging);
                 Pass (Sample.reconciler Sample.allReady Sample.obliging);
                 RequestDeletion 9;
                 Pass (Sample.reconciler Sample.allReady Sample.obliging)]
                Sample.afterFirstPass Sample.resolvedCopy eq_refl eq_refl) as H.
  destruct H as [(evs & E & Hq & _) Hsrv].
  split; [vm_compute; tauto|]. split; [reflexivity|].
  split; [exists evs; now split|].
  intros o Ho. exact (proj1 (Hsrv o Ho)).
Defined.

(** Resolution itself is not idempotent on list-valued fields: assigning a
    subnet a second time appends it a second time.  Only the gate in
    [Reconcile] keeps it from running again. *)
Lemma subnet_Assign_appends (i : EKSCluster) (n v : string) :
  SubnetIDs (Parameters (Spec (assignTo (SubnetIDReferencerForEKSCluster n) v
                                 (assignTo (SubnetIDReferencerForEKSCluster n) v i))))
  = (SubnetIDs (Parameters (Spec i)) ++ [v; v])%list.
Proof. simpl. now rewrite <- app_assoc. Qed.

(** The gate counts on a recorded condition.  A pass whose status write is
    refused leaves the condition unrecorded, while the resolver's own write
    has stored the assigned values; the next pass resolves again and the
    borrowed subnet is listed twice. *)
Example resolution_repeats_until_recorded :
  let s2 := steps Sample.X [Pass Sample.refusing; Pass Sample.refusing]
                  (Sample.start Sample.borrowing) in
  option_map (fun o => SubnetIDs (Parameters (Spec o))) (server s2)
    = Some ["subnet-1"; "id-of-subnet-a"; "id-of-subnet-a"] /\
  option_map (fun o => IsConditionTrue (Instance_GetCondition o TypeReferencesResolved))
             (server s2) = Some false.
Proof. split; reflexivity. Qed.

(** *** The role-policy attachment adapter *)

(** The modelled [Update] passes every row of [Test_Update]. *)
Lemma Test_Update_passes :
  Forall (fun c => Attachment.passes c = true) Attachment.Test_Update_cases.
Proof. repeat constructor. Qed.

(** C8.  For an attachment whose status records a policy other than the
    desired one, [Update] asks to attach the desired policy and then, the
    attachment granted, to detach the recorded one; it returns the managed
    resource as it was, so a Ready condition that is False with reason
    Creating stays so. *)
Theorem update_attaches_desired_detaches_recorded
    (client : Attachment.RolePolicyAttachmentClient)
    (cr : Attachment.IAMRolePolicyAttachment) :
  Attachment.AttachedPolicyARN cr <> "" ->
  Attachment.AttachedPolicyARN cr <> Attachment.PolicyARN cr ->
  Attachment.AttachRolePolicyRequest client (Attachment.RoleName cr) (Attachment.PolicyARN cr)
    = None ->
  Attachment.Update client (Attachment.IsAttachment cr) =
  (Attachment.IsAttachment cr,
   [Attachment.Attach (Attachment.RoleName cr) (Attachment.PolicyARN cr);
    Attachment.Detach (Attachment.RoleName cr) (Attachment.AttachedPolicyARN cr)],
   Wrap (Attachment.DetachRolePolicyRequest client (Attachment.RoleName cr)
           (Attachment.AttachedPolicyARN cr)) Attachment.errDetach).
Proof.
  intros H1 H2 H3. unfold Attachment.Update.
  apply String.eqb_neq in H1. apply String.eqb_neq in H2.
  now rewrite H1, H2, H3.
Qed.

Lemma update_attaches_desired_detaches_recorded_witness :
  Attachment.AttachedPolicyARN Sample.attachment = "arn:A" /\
  Attachment.PolicyARN Sample.attachment = "arn:B" /\
  GetCondition (Attachment.Conditions Sample.attachment) TypeReady = Creating /\
  Attachment.Update Sample.granting (Attachment.IsAttachment Sample.attachment) =
  (Attachment.IsAttachment Sample.attachment,
   [Attachment.Attach "role" "arn:B"; Attachment.Detach "role" "arn:A"], None).
Proof.
  split; [reflexivity|]. split; [reflexivity|]. split; [reflexivity|].
  refine (@update_attaches_desired_detaches_recorded Sample.granting Sample.attachment
            _ _ eq_refl); simpl; discriminate.
Defined.

(** C10.  When the status records no attached policy, or records the
    desired one, [Update] succeeds without asking the provider for
    anything. *)
Theorem update_without_difference_calls_nothing
    (client : Attachment.RolePolicyAttachmentClient)
    (cr : Attachment.IAMRolePolicyAttachment) :
  Attachment.AttachedPolicyARN cr = "" \/
  Attachment.AttachedPolicyARN cr = Attachment.PolicyARN cr ->
  Attachment.Update client (Attachment.IsAttachment cr) =
  (Attachment.IsAttachment cr, [], None).
Proof.
  intros [H|H]; unfold Attachment.Update.
  - rewrite H. reflexivity.
  - destruct (String.eqb (Attachment.AttachedPolicyARN cr) ""); [reflexivity|].
    rewrite H, String.eqb_refl. reflexivity.
Qed.

Lemma update_without_difference_calls_nothing_witness :
  Attachment.Update Sample.granting
    (Attachment.IsAttachment
       (Attachment.mkIAMRolePolicyAttachment "" "some arbitrary arn" [] "")) =
  (Attachment.IsAttachment
     (Attachment.mkIAMRolePolicyAttachment "" "some arbitrary arn" [] ""), [], None).
Proof.
  apply update_without_difference_calls_nothing. left. reflexivity.
Defined.

(* ===================================================================== *)
(** ** Further properties of the controller *)
(* ===================================================================== *)

(** *** What a branch does to the instance and to the log *)

Section Tracking.

Variable X : Externals.
Variable P : EKSCluster -> Prop.
Variable Q : Event -> Prop.
Variable log0 : list Event.

Hypothesis writes_ok : forall i, P i -> Q (EvKubeUpdate i).

Lemma tracking_modify f :
  (forall i, P i -> P (f i)) -> preserves (tracking P Q log0) (modify f).
Proof.
  intros Hf. apply preserves_modify. intros s [Hp Hl]. split; [now apply Hf|exact Hl].
Qed.

Lemma tracking_emit e : Q e -> preserves (tracking P Q log0) (emit e).
Proof.
  intros He. apply preserves_emit. intros s [Hp Hl]. split; [exact Hp|].
  now apply grewBy_snoc.
Qed.

Lemma tracking_Client_Update r : preserves (tracking P Q log0) (Client_Update r).
Proof.
  apply preserves_Client_Update. intros s [Hp Hl]. split; [exact Hp|].
  apply grewBy_snoc; [exact Hl|now apply writes_ok].
Qed.

Hypothesis status_ok : closedUnderStatusWrites P.

Lemma tracking_SetConditions1 c :
  readyOrSynced c -> preserves (tracking P Q log0) (modify (Status_SetConditions [c])).
Proof.
  intros Hc. apply tracking_modify. intros i Hi.
  apply (proj1 status_ok); [now constructor|exact Hi].
Qed.

Lemma tracking_fail r e : preserves (tracking P Q log0) (fail r e).
Proof.
  unfold fail. pres_step; [|pres_step; [apply tracking_Client_Update|pres_step]].
  apply tracking_SetConditions1. now right.
Qed.

(** Closes an invariant step over [_create], [_sync] or [_delete]; [call]
    proves [Q] of a provider call. *)
Ltac track call :=
  repeat first
    [ pres_step
    | apply tracking_fail
    | apply tracking_Client_Update
    | apply tracking_SetConditions1; first [now left|now right]
    | apply tracking_modify; intros ? ?;
      first [ apply (proj1 status_ok);
              [repeat constructor; first [now left|now right]|assumption]
            | apply (proj1 (proj2 status_ok)); [reflexivity|assumption]
            | apply (proj2 (proj2 status_ok)); assumption ]
    | apply tracking_emit; call ].

Lemma tracking_create r client :
  (forall e, isCreateCall e = true -> Q e) ->
  preserves (tracking P Q log0) (_create X r client).
Proof.
  intros Hq. unfold _create. cbv zeta. track ltac:(apply Hq; reflexivity).
Qed.

Lemma tracking_sync r client :
  (forall e, isSyncCall e = true -> Q e) ->
  preserves (tracking P Q log0) (_sync X r client).
Proof.
  intros Hq. unfold _sync. track ltac:(apply Hq; reflexivity).
Qed.

Lemma tracking_delete r client :
  (forall i, P i -> P (RemoveFinalizer finalizer i)) ->
  (forall e, isDeletionCall e = true -> Q e) ->
  preserves (tracking P Q log0) (_delete X r client).
Proof.
  intros Hr Hq. unfold _delete. cbv zeta.
  repeat first
    [ apply tracking_modify; exact Hr
    | progress track ltac:(apply Hq; reflexivity) ].
Qed.

End Tracking.

Lemma sameButStatus_closed i0 : closedUnderStatusWrites (fun i => sameButStatus i i0).
Proof.
  split; [|split].
  - intros cs i _ H. exact H.
  - intros g i _ H. exact H.
  - intros i H. unfold SetBindable. destruct (String.eqb _ _); exact H.
Qed.

Lemma sameButStatusAndFinalizers_closed i0 :
  closedUnderStatusWrites (fun i => sameButStatusAndFinalizers i i0).
Proof.
  split; [|split].
  - intros cs i _ H. exact H.
  - intros g i _ H. exact H.
  - intros i H. unfold SetBindable. destruct (String.eqb _ _); exact H.
Qed.

Lemma True_closed : closedUnderStatusWrites (fun _ => True).
Proof. repeat split. Qed.

Lemma Status_AddFinalizer f i : Status (AddFinalizer f i) = Status i.
Proof. unfold AddFinalizer. destruct (existsb _ _); reflexivity. Qed.


Section Branches.

Variable X : Externals.

(** X1.  [_create], [_sync] and [fail] write to the status only: the
    metadata, the finalizers and the spec of the instance are as before,
    whatever the collaborators answer.  [_delete] may also change the
    finalizers, nothing else. *)
Theorem branches_write_status_only (r : Reconciler) (client : Client) (e : error) (s : St) :
  sameButStatus (instance (snd (_create X r client s))) (instance s) /\
  sameButStatus (instance (snd (_sync X r client s))) (instance s) /\
  sameButStatus (instance (snd (fail r e s))) (instance s) /\
  sameButStatusAndFinalizers (instance (snd (_delete X r client s))) (instance s).
Proof.
  assert (tracking (fun i => sameButStatus i (instance s)) (fun _ => True) (calls s) s) as H0.
  { split; [now repeat split|apply grewBy_refl]. }
  assert (tracking (fun i => sameButStatusAndFinalizers i (instance s)) (fun _ => True)
                   (calls s) s) as H1.
  { split; [now repeat split|apply grewBy_refl]. }
  split; [|split; [|split]].
  - apply (tracking_create X (fun _ _ => I) (sameButStatus_closed (instance s)) r client
                           (fun _ _ => I) H0).
  - apply (tracking_sync X (fun _ _ => I) (sameButStatus_closed (instance s)) r client
                         (fun _ _ => I) H0).
  - apply (tracking_fail (fun _ _ => I) (sameButStatus_closed (instance s)) r e H0).
  - apply (tracking_delete X (fun _ _ => I) (sameButStatusAndFinalizers_closed (instance s))
                           r client (fun i H => H) (fun _ _ => I) H1).
Qed.

(** X2.  Each branch keeps to its own provider calls: [_create] issues
    nothing but the creation, [_sync] nothing but the reads, the worker
    creation, the auth map and the secret, [_delete] nothing but the
    deletions; besides these a branch only writes the object. *)
Theorem branches_issue_their_own_calls (r : Reconciler) (client : Client) (s : St) :
  grewBy (fun e => isCreateCall e = true \/ isWrite e = true)
         (calls s) (calls (snd (_create X r client s))) /\
  grewBy (fun e => isSyncCall e = true \/ isWrite e = true)
         (calls s) (calls (snd (_sync X r client s))) /\
  grewBy (fun e => isDeletionCall e = true \/ isWrite e = true)
         (calls s) (calls (snd (_delete X r client s))).
Proof.
  split; [|split].
  - refine (proj2 (@tracking_create X (fun _ => True)
                     (fun e => isCreateCall e = true \/ isWrite e = true) (calls s)
                     _ True_closed r client _ s _)).
    + intros i _. now right.
    + intros e He. now left.
    + split; [exact I|apply grewBy_refl].
  - refine (proj2 (@tracking_sync X (fun _ => True)
                     (fun e => isSyncCall e = true \/ isWrite e = true) (calls s)
                     _ True_closed r client _ s _)).
    + intros i _. now right.
    + intros e He. now left.
    + split; [exact I|apply grewBy_refl].
  - refine (proj2 (@tracking_delete X (fun _ => True)
                     (fun e => isDeletionCall e = true \/ isWrite e = true) (calls s)
                     _ True_closed r client _ _ s _)).
    + intros i _. now right.
    + intros i H. exact H.
    + intros e He. now left.
    + split; [exact I|apply grewBy_refl].
Qed.

(** X3.  Once a cluster name is recorded, provisioning never asks the
    provider to create the cluster again: with a recorded name the pass
    deletes or syncs, and neither issues a creation. *)
Theorem provision_never_recreates (r : Reconciler) (client : Client) (s : St) :
  ClusterName (Status (instance s)) <> "" ->
  grewBy (fun e => isCreateCall e = false) (calls s) (calls (snd (provision X r client s))).
Proof.
  intros Hn. unfold provision, bind, modify, getInstance; simpl.
  rewrite Status_AddFinalizer. apply String.eqb_neq in Hn. rewrite Hn.
  set (s1 := mkSt (AddFinalizer finalizer (instance s)) (server s) (calls s)).
  assert (tracking (fun _ => True) (fun e => isCreateCall e = false) (calls s) s1) as H0
    by (split; [exact I|apply grewBy_refl]).
  destruct (DeletionTimestamp (AddFinalizer finalizer (instance s))).
  - refine (proj2 (@tracking_delete X (fun _ => True) (fun e => isCreateCall e = false)
                     (calls s) _ True_closed r client _ _ s1 H0)).
    + intros i _. reflexivity.
    + intros i H. exact H.
    + intros e He. destruct e; simpl in *; congruence.
  - refine (proj2 (@tracking_sync X (fun _ => True) (fun e => isCreateCall e = false)
                     (calls s) _ True_closed r client _ s1 H0)).
    + intros i _. reflexivity.
    + intros e He. destruct e; simpl in *; congruence.
Qed.

End Branches.

Lemma provision_never_recreates_witness :
  Forall (fun e => isCreateCall e = false)
    (calls (snd (provision Sample.X (Sample.reconciler Sample.allReady Sample.obliging)
                           Sample.obliging
                           (mkSt (Sample.cluster None [ReferenceResolutionSuccess])
                                 (Some (Sample.cluster None [ReferenceResolutionSuccess]))
                                 [])))).
Proof.
  destruct (@provision_never_recreates Sample.X
              (Sample.reconciler Sample.allReady Sample.obliging) Sample.obliging
              (mkSt (Sample.cluster None [ReferenceResolutionSuccess])
                    (Some (Sample.cluster None [ReferenceResolutionSuccess])) []))
    as (evs & E & H).
  - simpl. discriminate.
  - rewrite E. exact H.
Defined.

(** *** The pass around the branches *)

Lemma benign_closed (P : EKSCluster -> Prop) :
  (forall f i, benign f -> P i -> P (f i)) -> closedUnderStatusWrites P.
Proof.
  intros HP. split; [|split].
  - intros cs i Hcs Hi. revert i Hi.
    induction Hcs as [|c cs Hc _ IH]; intros i Hi.
    + destruct i as [? ? ? ? ? ? []]. exact Hi.
    + assert (Status_SetConditions (c :: cs) i
              = Status_SetConditions cs (Status_SetConditions [c] i)) as ->
        by (destruct i as [? ? ? ? ? ? []]; reflexivity).
      apply IH. apply HP; [|exact Hi].
      apply benign_SetConditions1. destruct Hc as [-> | ->]; types_differ.
  - intros g i Hg Hi. apply HP; [now apply benign_set_Status|exact Hi].
  - intros i Hi. apply HP; [apply benign_SetBindable|exact Hi].
Qed.

Section Pass.

Variable X : Externals.

(** X4.  When the object cannot be fetched, because the read fails or the
    object is gone, the pass stops there: its only call is the read,
    nothing is written, and the result is the zero result.  The error is
    the read's, except that "not found" (and so the missing object) counts
    as success. *)
Theorem reconcile_without_object (r : Reconciler) (s : St) :
  Client_GetErr r <> None \/ server s = None ->
  let o := fst (Reconcile X r s) in
  let s' := snd (Reconcile X r s) in
  calls s' = (calls s ++ [EvKubeGet])%list /\
  server s' = server s /\
  instance s' = EKSCluster_zero /\
  o = Returned (Result_zero,
                match Client_GetErr r with
                | Some e => if kerrors_IsNotFound e then None else Some e
                | None => None
                end).
Proof.
  intros H. destruct (Client_GetErr r) as [e|] eqn:HG.
  - rewrite (Reconcile_get_error X r s HG). now repeat split.
  - destruct H as [H|H]; [now elim H|].
    rewrite (Reconcile_absent X r s HG H). simpl. now rewrite H.
Qed.

(** X5.  When connecting to the provider fails, the pass records the error
    as the ReconcileError condition, writes the object once and requeues
    after the short wait.  It resolves no reference, issues no provider
    call and does not add the finalizer. *)
Theorem reconcile_connect_failure (r : Reconciler) (s : St) (obj : EKSCluster) (e : error) :
  Client_GetErr r = None -> server s = Some obj -> connect r obj = inr e ->
  let o := fst (Reconcile X r s) in
  let s' := snd (Reconcile X r s) in
  instance s' = Status_SetConditions [ReconcileError e] obj /\
  Instance_GetCondition (instance s') TypeSynced = ReconcileError e /\
  Finalizers (instance s') = Finalizers obj /\
  calls s' = (calls s ++ [EvKubeGet; EvConnect; EvKubeUpdate (instance s')])%list /\
  o = Returned (mkResult false aShortWait, Client_UpdateErr r (instance s')).
Proof.
  intros HG Hs Hc. rewrite (Reconcile_connect_error X r s HG Hs Hc), fail_run. simpl.
  split; [reflexivity|].
  split; [apply (Instance_GetCondition_set1 _ (ReconcileError e))|].
  split; [reflexivity|]. split; [|reflexivity].
  now rewrite <- app_assoc.
Qed.

(** X6.  A pass in which reference resolution succeeds records the
    ReferencesResolved success condition on the instance before
    provisioning; the condition and the resolved spec are still there at
    the end of the pass and in every write the pass makes after
    resolution. *)
Theorem first_resolution_records_success
    (r : Reconciler) (s : St) (obj : EKSCluster) (client : Client) (s2 : St) :
  Client_GetErr r = None -> server s = Some obj -> connect r obj = inl client ->
  IsConditionTrue (Instance_GetCondition obj TypeReferencesResolved) = false ->
  ResolveReferences r (fetched s obj) = (Returned None, s2) ->
  let s' := snd (Reconcile X r s) in
  Instance_GetCondition (instance s') TypeReferencesResolved = ReferenceResolutionSuccess /\
  Spec (instance s') = Spec (instance s2) /\
  grewBy (fun e => forall o, e = EvKubeUpdate o ->
                   Instance_GetCondition o TypeReferencesResolved = ReferenceResolutionSuccess /\
                   Spec o = Spec (instance s2))
         (calls s2) (calls s').
Proof.
  intros HG Hs Hc HT HR. simpl.
  rewrite (Reconcile_fetched X r s HG Hs Hc), HT, HR.
  set (P := fun i => Instance_GetCondition i TypeReferencesResolved = ReferenceResolutionSuccess
                     /\ Spec i = Spec (instance s2)).
  set (Q := fun e => forall o, e = EvKubeUpdate o -> P o).
  set (s3 := mkSt (Status_SetConditions [ReferenceResolutionSuccess] (instance s2))
                  (server s2) (calls s2)).
  assert (forall f i, benign f -> P i -> P (f i)) as HP.
  { intros f i Hf [H1 H2]. destruct (Hf i) as [E1 E2]. split; congruence. }
  assert (forall i, P i -> Q (EvKubeUpdate i)) as HW.
  { intros i Hi o Ho. now injection Ho as <-. }
  assert (forall e, isWrite e = false -> Q e) as HQ.
  { intros e He o Ho. subst e. discriminate He. }
  assert (tracking P Q (calls s2) s3) as H0.
  { split; [|apply grewBy_refl]. split; [|reflexivity].
    apply (Instance_GetCondition_set1 _ ReferenceResolutionSuccess). }
  assert (preserves (tracking P Q (calls s2)) (provision X r client)) as Hprov.
  { unfold provision.
    apply preserves_bind; [apply tracking_modify; intros i Hi;
                           apply HP; [apply benign_AddFinalizer|exact Hi]|].
    intros _. apply preserves_bind; [apply preserves_getInstance|]. intros i.
    destruct (DeletionTimestamp i).
    - apply (tracking_delete X HW (benign_closed P HP)).
      + intros j Hj. apply HP; [apply benign_RemoveFinalizer|exact Hj].
      + intros e He. apply HQ. now destruct e.
    - destruct (String.eqb _ _).
      + apply (tracking_create X HW (benign_closed P HP)).
        intros e He. apply HQ. now destruct e.
      + apply (tracking_sync X HW (benign_closed P HP)).
        intros e He. apply HQ. now destruct e. }
  destruct (Hprov s3 H0) as [[H1 H2] H3].
  split; [exact H1|]. split; [exact H2|exact H3].
Qed.


End Pass.

(** *** Creating and syncing *)

Lemma completed_not_failed st : completedCFState st = true -> failedCFState st = false.
Proof.
  unfold completedCFState, failedCFState. simpl.
  destruct (String.eqb_spec st "CREATE_COMPLETE") as [E|_]; [now rewrite E|].
  destruct (String.eqb_spec st "UPDATE_COMPLETE") as [E|_]; [now rewrite E|discriminate].
Qed.

Lemma aShortWait_not_long : aShortWait <> aLongWait.
Proof. discriminate. Qed.

(** Proves that a log, written out, grew by calls that satisfy a
    predicate; [tac] proves the predicate of one call. *)
Ltac grew tac :=
  rewrite <- ?app_assoc; simpl; eexists; split;
  [reflexivity|repeat (constructor; [solve [tac]|]); constructor].

Section Provisioning.

Variable X : Externals.

(** X8.  When the provider accepts the creation, [_create] records the
    cluster under the name "eks-" followed by the instance's UID, which is
    never empty, together with the provider's version and the state
    CREATING; the conditions are Creating and ReconcileSuccess; the one
    provider call is the creation with that name and the instance's spec;
    the object is written and the pass requeues after the short wait. *)
Theorem create_records_cluster
    (r : Reconciler) (client : Client) (s : St) (c : Cluster) :
  Create client (clusterNamePrefix ++ UID (instance s)) (Spec (instance s)) = (Some c, None) ->
  let o := fst (_create X r client s) in
  let s' := snd (_create X r client s) in
  ClusterName (Status (instance s')) = clusterNamePrefix ++ UID (instance s) /\
  ClusterName (Status (instance s')) <> "" /\
  Status_ClusterVersion (Status (instance s')) = Cluster_Version c /\
  State (Status (instance s')) = ClusterStatusCreating /\
  Instance_GetCondition (instance s') TypeReady = Creating /\
  Instance_GetCondition (instance s') TypeSynced = ReconcileSuccess /\
  calls s' = (calls s ++ [EvCreate (clusterNamePrefix ++ UID (instance s)) (Spec (instance s));
                          EvKubeUpdate (instance s')])%list /\
  o = Returned (mkResult false aShortWait, Client_UpdateErr r (instance s')).
Proof.
  intros HC. unfold _create. step_pass. rewrite HC. step_pass.
  split; [reflexivity|].
  split; [unfold clusterNamePrefix; destruct (UID (instance s)); discriminate|].
  split; [reflexivity|]. split; [reflexivity|].
  split.
  { rewrite Instance_GetCondition_set1_other by types_differ.
    apply (Instance_GetCondition_set1 (instance s) Creating). }
  split; [apply (Instance_GetCondition_set1 _ ReconcileSuccess)|].
  split; [now rewrite <- app_assoc|reflexivity].
Qed.

(** X9.  While the provider reports the cluster in a state other than
    ACTIVE, [_sync] only reads the cluster: it sets ReconcileSuccess on the
    instance in memory, asks for a requeue after the short wait and returns
    no error, but writes nothing to the API server and goes no further
    (no worker nodes, no auth map, no secret). *)
Theorem sync_waits_for_active_cluster
    (r : Reconciler) (client : Client) (s : St) (c : Cluster) :
  Get client (ClusterName (Status (instance s))) = (Some c, None) ->
  Cluster_Status c <> ClusterStatusActive ->
  let o := fst (_sync X r client s) in
  let s' := snd (_sync X r client s) in
  o = Returned (mkResult false aShortWait, None) /\
  calls s' = (calls s ++ [EvGet (ClusterName (Status (instance s)))])%list /\
  server s' = server s /\
  instance s' = Status_SetConditions [ReconcileSuccess] (instance s).
Proof.
  intros HG HA. unfold _sync. step_pass. rewrite HG. step_pass.
  apply String.eqb_neq in HA. rewrite HA. simpl. now repeat split.
Qed.

(** X10.  With the cluster ACTIVE and no worker stack recorded, [_sync]
    asks for the worker nodes, with the recorded cluster name and version
    and the instance's spec.  When the provider accepts, the stack id it
    returns is recorded and written with ReconcileSuccess, and the pass
    requeues after the short wait; when it refuses, the error goes to
    [fail] and no stack id is recorded.  The stack is not read in this
    pass. *)
Theorem sync_requests_worker_nodes
    (r : Reconciler) (client : Client) (s : St) (c : Cluster)
    (w : option ClusterWorkers) (err : option error) :
  Get client (ClusterName (Status (instance s))) = (Some c, None) ->
  Cluster_Status c = ClusterStatusActive ->
  CloudFormationStackID (Status (instance s)) = "" ->
  CreateWorkerNodes client (ClusterName (Status (instance s)))
                    (Status_ClusterVersion (Status (instance s))) (Spec (instance s))
    = (w, err) ->
  let o := fst (_sync X r client s) in
  let s' := snd (_sync X r client s) in
  (forall ws, w = Some ws -> err = None ->
     CloudFormationStackID (Status (instance s')) = WorkerStackID ws /\
     Instance_GetCondition (instance s') TypeSynced = ReconcileSuccess /\
     calls s' = (calls s ++ [EvGet (ClusterName (Status (instance s)));
                             EvCreateWorkerNodes (ClusterName (Status (instance s)))
                               (Status_ClusterVersion (Status (instance s)))
                               (Spec (instance s));
                             EvKubeUpdate (instance s')])%list /\
     o = Returned (mkResult false aShortWait, Client_UpdateErr r (instance s'))) /\
  (forall e, err = Some e ->
     CloudFormationStackID (Status (instance s')) = "" /\
     Instance_GetCondition (instance s') TypeSynced = ReconcileError e /\
     o = Returned (mkResult false aShortWait, Client_UpdateErr r (instance s'))) /\
  grewBy (fun ev => forall id, ev <> EvGetWorkerNodes id) (calls s) (calls s').
Proof.
  intros HG HA HS HW. unfold _sync. step_pass. rewrite HG. step_pass.
  rewrite HA, HS. simpl. unfold bind, emit. simpl. rewrite HW.
  destruct err as [e|]; [|destruct w as [ws|]]; step_pass.
  - split; [intros ws _ H; discriminate H|]. split.
    + intros e0 H. injection H as <-. split; [exact HS|].
      split; [apply (Instance_GetCondition_set1 _ (ReconcileError e))|reflexivity].
    + grew ltac:(intros ? H; discriminate H).
  - split.
    + intros ws0 H _. injection H as <-. split; [reflexivity|].
      split; [apply (Instance_GetCondition_set1 _ ReconcileSuccess)|].
      split; [now rewrite <- !app_assoc|reflexivity].
    + split; [intros e H; discriminate H|]. grew ltac:(intros ? H; discriminate H).
  - split; [intros ws H; discriminate H|].
    split; [intros e H; discriminate H|]. grew ltac:(intros ? H; discriminate H).
Qed.

(** X11.  Once a worker stack id is recorded, [_sync] never asks for worker
    nodes again, whatever the provider answers: the pass resumes by reading
    the recorded stack. *)
Theorem sync_never_recreates_workers (r : Reconciler) (client : Client) (s : St) :
  CloudFormationStackID (Status (instance s)) <> "" ->
  grewBy (fun ev => forall n v sp, ev <> EvCreateWorkerNodes n v sp)
         (calls s) (calls (snd (_sync X r client s))).
Proof.
  intros HS. apply String.eqb_neq in HS. unfold _sync. step_pass.
  destruct (Get client (ClusterName (Status (instance s)))) as [[c|] [e|]]; step_pass;
    try (grew ltac:(intros ? ? ? H; discriminate H)).
  destruct (negb (String.eqb (Cluster_Status c) ClusterStatusActive)); step_pass;
    [grew ltac:(intros ? ? ? H; discriminate H)|].
  rewrite HS. simpl. unfold bind, emit. simpl.
  destruct (GetWorkerNodes client (CloudFormationStackID (Status (instance s))))
    as [[w|] [e|]]; step_pass; try (grew ltac:(intros ? ? ? H; discriminate H)).
  destruct (failedCFState (WorkersStatus w)); step_pass;
    [grew ltac:(intros ? ? ? H; discriminate H)|].
  destruct (negb (completedCFState (WorkersStatus w))); step_pass;
    [grew ltac:(intros ? ? ? H; discriminate H)|].
  destruct (awsauth r c (instance s) (WorkerARN w)); step_pass;
    [grew ltac:(intros ? ? ? H; discriminate H)|].
  destruct (secret r c (instance s)); step_pass; grew ltac:(intros ? ? ? H; discriminate H).
Qed.

(** The stage of [_sync] that reads a recorded stack. *)
Lemma _sync_stack_run r client s c w :
  Get client (ClusterName (Status (instance s))) = (Some c, None) ->
  Cluster_Status c = ClusterStatusActive ->
  CloudFormationStackID (Status (instance s)) <> "" ->
  GetWorkerNodes client (CloudFormationStackID (Status (instance s))) = (Some w, None) ->
  _sync X r client s =
  let s1 := mkSt (instance s) (server s)
                 (calls s ++ [EvGet (ClusterName (Status (instance s)));
                              EvGetWorkerNodes (CloudFormationStackID (Status (instance s)))]) in
  if failedCFState (WorkersStatus w) then
    fail r (errorsNew ("clusterworker stack failed with status "
                         ++ fmt_q X (WorkersStatus w) ++ " and reason "
                         ++ fmt_q X (WorkerReason w))) s1
  else if negb (completedCFState (WorkersStatus w)) then
    let i' := Status_SetConditions [ReconcileSuccess] (instance s) in
    (Returned (mkResult false aShortWait, Client_UpdateErr r i'),
     mkSt i' (written r i' (server s)) (calls s1 ++ [EvKubeUpdate i']))
  else
    match awsauth r c (instance s) (WorkerARN w) with
    | Some e =>
        fail r (wrapped e "failed to set auth map on eks")
             (mkSt (instance s) (server s) (calls s1 ++ [EvAwsAuth (WorkerARN w)]))
    | None =>
        match secret r c (instance s) with
        | Some e =>
            fail r e (mkSt (instance s) (server s)
                           (calls s1 ++ [EvAwsAuth (WorkerARN w); EvSecret]))
        | None =>
            let i' := SetBindable
                        (Status_SetConditions [Available; ReconcileSuccess]
                           (set_Status (with_State ClusterStatusActive)
                              (set_Status (with_Endpoint (Cluster_Endpoint c)) (instance s)))) in
            (Returned (mkResult false aLongWait, Client_UpdateErr r i'),
             mkSt i' (written r i' (server s))
                  (calls s1 ++ [EvAwsAuth (WorkerARN w); EvSecret; EvKubeUpdate i']))
        end
    end.
Proof.
  intros HG HA HS HW. apply String.eqb_neq in HS. unfold _sync. step_pass.
  rewrite HG. step_pass. rewrite HA, HS. simpl. unfold bind, emit. simpl. rewrite HW.
  step_pass.
  destruct (failedCFState (WorkersStatus w)); step_pass;
    [now rewrite <- !app_assoc|].
  destruct (negb (completedCFState (WorkersStatus w))); step_pass;
    [now rewrite <- !app_assoc|].
  destruct (awsauth r c (instance s) (WorkerARN w)); step_pass;
    [now rewrite <- !app_assoc|].
  destruct (secret r c (instance s)); step_pass; now rewrite <- !app_assoc.
Qed.

(** X12.  While the recorded worker stack is not in a completed state,
    [_sync] stops after reading it: the auth map and the secret are not
    touched and the Ready condition stays as it was.  A failed stack goes
    to [fail] with an error that quotes the stack's status and reason; a
    stack still in progress is written with ReconcileSuccess.  Either way
    the pass requeues after the short wait. *)
Theorem sync_waits_for_stack
    (r : Reconciler) (client : Client) (s : St) (c : Cluster) (w : ClusterWorkers) :
  Get client (ClusterName (Status (instance s))) = (Some c, None) ->
  Cluster_Status c = ClusterStatusActive ->
  CloudFormationStackID (Status (instance s)) <> "" ->
  GetWorkerNodes client (CloudFormationStackID (Status (instance s))) = (Some w, None) ->
  completedCFState (WorkersStatus w) = false ->
  let o := fst (_sync X r client s) in
  let s' := snd (_sync X r client s) in
  Instance_GetCondition (instance s') TypeSynced
    = (if failedCFState (WorkersStatus w)
       then ReconcileError
              (errorsNew ("clusterworker stack failed with status "
                            ++ fmt_q X (WorkersStatus w) ++ " and reason "
                            ++ fmt_q X (WorkerReason w)))
       else ReconcileSuccess) /\
  Instance_GetCondition (instance s') TypeReady = Instance_GetCondition (instance s) TypeReady /\
  calls s' = (calls s ++ [EvGet (ClusterName (Status (instance s)));
                          EvGetWorkerNodes (CloudFormationStackID (Status (instance s)));
                          EvKubeUpdate (instance s')])%list /\
  o = Returned (mkResult false aShortWait, Client_UpdateErr r (instance s')).
Proof.
  intros HG HA HS HW HC. simpl.
  rewrite (_sync_stack_run r client s HG HA HS HW). simpl. rewrite HC. simpl.
  destruct (failedCFState (WorkersStatus w)); rewrite ?fail_run; simpl.
  - split; [apply (Instance_GetCondition_set1 _ (ReconcileError _))|].
    split; [apply Instance_GetCondition_set1_other; types_differ|].
    split; [now rewrite <- app_assoc|reflexivity].
  - split; [apply (Instance_GetCondition_set1 _ ReconcileSuccess)|].
    split; [apply Instance_GetCondition_set1_other; types_differ|].
    split; [now rewrite <- app_assoc|reflexivity].
Qed.

(** X13.  With the cluster ACTIVE and the recorded stack completed, [_sync]
    sets the auth map, then publishes the secret, and when both succeed
    marks the instance available: Ready is Available, Synced is
    ReconcileSuccess, the state is ACTIVE, the endpoint is the cluster's,
    the binding phase is Unbound unless it was Bound; the object is written
    and the pass requeues after the long wait. *)
Theorem sync_makes_available
    (r : Reconciler) (client : Client) (s : St) (c : Cluster) (w : ClusterWorkers) :
  Get client (ClusterName (Status (instance s))) = (Some c, None) ->
  Cluster_Status c = ClusterStatusActive ->
  CloudFormationStackID (Status (instance s)) <> "" ->
  GetWorkerNodes client (CloudFormationStackID (Status (instance s))) = (Some w, None) ->
  completedCFState (WorkersStatus w) = true ->
  awsauth r c (instance s) (WorkerARN w) = None ->
  secret r c (instance s) = None ->
  let o := fst (_sync X r client s) in
  let s' := snd (_sync X r client s) in
  Instance_GetCondition (instance s') TypeReady = Available /\
  Instance_GetCondition (instance s') TypeSynced = ReconcileSuccess /\
  State (Status (instance s')) = ClusterStatusActive /\
  Endpoint (Status (instance s')) = Cluster_Endpoint c /\
  BindingPhase (Status (instance s'))
    = (if String.eqb (BindingPhase (Status (instance s))) BindingPhaseBound
       then BindingPhaseBound else BindingPhaseUnbound) /\
  calls s' = (calls s ++ [EvGet (ClusterName (Status (instance s)));
                          EvGetWorkerNodes (CloudFormationStackID (Status (instance s)));
                          EvAwsAuth (WorkerARN w); EvSecret;
                          EvKubeUpdate (instance s')])%list /\
  o = Returned (mkResult false aLongWait, Client_UpdateErr r (instance s')).
Proof.
  intros HG HA HS HW HC Hauth Hsec. simpl.
  rewrite (_sync_stack_run r client s HG HA HS HW). simpl.
  rewrite (completed_not_failed _ HC), HC, Hauth, Hsec. simpl.
  set (i1 := Status_SetConditions [Available; ReconcileSuccess]
               (set_Status (with_State ClusterStatusActive)
                  (set_Status (with_Endpoint (Cluster_Endpoint c)) (instance s)))).
  assert (Instance_GetCondition i1 TypeReady = Available) as HR.
  { unfold i1. destruct (instance s) as [? ? ? ? ? ? []].
    unfold Instance_GetCondition, Status_SetConditions. simpl.
    rewrite GetCondition_SetCondition_other by types_differ.
    apply (GetCondition_SetCondition_same _ Available). }
  assert (Instance_GetCondition i1 TypeSynced = ReconcileSuccess) as HY.
  { unfold i1. destruct (instance s) as [? ? ? ? ? ? []].
    unfold Instance_GetCondition, Status_SetConditions. simpl.
    apply (GetCondition_SetCondition_same _ ReconcileSuccess). }
  assert (BindingPhase (Status i1) = BindingPhase (Status (instance s))) as HB by reflexivity.
  unfold SetBindable. rewrite HB.
  destruct (String.eqb (BindingPhase (Status (instance s))) BindingPhaseBound) eqn:EB.
  - split; [exact HR|]. split; [exact HY|]. split; [reflexivity|]. split; [reflexivity|].
    split; [now apply String.eqb_eq in EB|].
    split; [now rewrite <- app_assoc|reflexivity].
  - split; [exact HR|]. split; [exact HY|]. split; [reflexivity|]. split; [reflexivity|].
    split; [reflexivity|].
    split; [now rewrite <- app_assoc|reflexivity].
Qed.

(** What must have happened for [_sync] to ask for the long wait. *)
Lemma _sync_long_wait_inversion
    (r : Reconciler) (client : Client) (s : St) (res : Result) (err : option error) :
  fst (_sync X r client s) = Returned (res, err) ->
  (RequeueAfter res = aLongWait \/ RequeueAfter res = aShortWait) /\
  (RequeueAfter res = aLongWait ->
   exists c w,
     Get client (ClusterName (Status (instance s))) = (Some c, None) /\
     Cluster_Status c = ClusterStatusActive /\
     CloudFormationStackID (Status (instance s)) <> "" /\
     GetWorkerNodes client (CloudFormationStackID (Status (instance s))) = (Some w, None) /\
     completedCFState (WorkersStatus w) = true /\
     awsauth r c (instance s) (WorkerARN w) = None /\
     secret r c (instance s) = None).
Proof.
  assert (forall e', Returned (mkResult false aShortWait, e') = Returned (res, err) ->
            (RequeueAfter res = aLongWait \/ RequeueAfter res = aShortWait) /\
            (RequeueAfter res = aLongWait ->
             exists c w,
               Get client (ClusterName (Status (instance s))) = (Some c, None) /\
               Cluster_Status c = ClusterStatusActive /\
               CloudFormationStackID (Status (instance s)) <> "" /\
               GetWorkerNodes client (CloudFormationStackID (Status (instance s)))
                 = (Some w, None) /\
               completedCFState (WorkersStatus w) = true /\
               awsauth r c (instance s) (WorkerARN w) = None /\
               secret r c (instance s) = None)) as Hshort.
  { intros e' H. injection H as <- _. simpl. split; [now right|].
    intros H. now elim aShortWait_not_long. }
  unfold _sync. step_pass.
  destruct (Get client (ClusterName (Status (instance s)))) as [[c|] [e|]] eqn:HG; step_pass;
    try (apply Hshort); try discriminate.
  destruct (String.eqb (Cluster_Status c) ClusterStatusActive) eqn:HA; step_pass;
    [|apply Hshort].
  destruct (String.eqb (CloudFormationStackID (Status (instance s))) "") eqn:HS; simpl.
  { unfold bind, emit. simpl.
    destruct (CreateWorkerNodes client _ _ _) as [[ws|] [e|]]; step_pass;
      try (apply Hshort); discriminate. }
  unfold bind, emit. simpl.
  destruct (GetWorkerNodes client (CloudFormationStackID (Status (instance s))))
    as [[w|] [e|]] eqn:HW; step_pass; try (apply Hshort); try discriminate.
  destruct (failedCFState (WorkersStatus w)) eqn:HF; step_pass; [apply Hshort|].
  destruct (completedCFState (WorkersStatus w)) eqn:HC; step_pass; [|apply Hshort].
  destruct (awsauth r c (instance s) (WorkerARN w)) eqn:Hauth; step_pass; [apply Hshort|].
  destruct (secret r c (instance s)) eqn:Hsec; step_pass; [apply Hshort|].
  intros H. injection H as <- _. simpl. split; [now left|].
  intros _. exists c, w. apply String.eqb_eq in HA. apply String.eqb_neq in HS.
  now repeat split.
Qed.

Lemma Ready_after_available i :
  Instance_GetCondition (SetBindable (Status_SetConditions [Available; ReconcileSuccess] i))
                        TypeReady = Available.
Proof.
  assert (Instance_GetCondition (Status_SetConditions [Available; ReconcileSuccess] i) TypeReady
          = Available) as H.
  { destruct i as [? ? ? ? ? ? []].
    unfold Instance_GetCondition, Status_SetConditions. simpl.
    rewrite GetCondition_SetCondition_other by types_differ.
    apply (GetCondition_SetCondition_same _ Available). }
  unfold SetBindable. destruct (String.eqb _ _); exact H.
Qed.

(** X14.  [_sync] asks for the short wait or the long wait, and for the
    long wait only when it has marked the instance available: the cluster
    is ACTIVE, the recorded worker stack is completed, the auth map and the
    secret both went through, and the Ready condition is now Available.  In
    every other outcome the requeue is the short wait. *)
Theorem sync_long_wait_only_when_available
    (r : Reconciler) (client : Client) (s : St) (res : Result) (err : option error) :
  fst (_sync X r client s) = Returned (res, err) ->
  (RequeueAfter res = aLongWait \/ RequeueAfter res = aShortWait) /\
  (RequeueAfter res = aLongWait ->
   Instance_GetCondition (instance (snd (_sync X r client s))) TypeReady = Available /\
   exists c w,
     Get client (ClusterName (Status (instance s))) = (Some c, None) /\
     Cluster_Status c = ClusterStatusActive /\
     CloudFormationStackID (Status (instance s)) <> "" /\
     GetWorkerNodes client (CloudFormationStackID (Status (instance s))) = (Some w, None) /\
     completedCFState (WorkersStatus w) = true /\
     awsauth r c (instance s) (WorkerARN w) = None /\
     secret r c (instance s) = None).
Proof.
  intros Hrun. destruct (_sync_long_wait_inversion r client s Hrun) as [Hwait Hinv].
  split; [exact Hwait|]. intros Hlong.
  destruct (Hinv Hlong) as (c & w & HG & HA & HS & HW & HC & Hauth & Hsec).
  split; [|exists c, w; now repeat split].
  rewrite (_sync_stack_run r client s HG HA HS HW). simpl.
  rewrite (completed_not_failed _ HC), HC, Hauth, Hsec. simpl.
  apply Ready_after_available.
Qed.

End Provisioning.

(** *** Deleting *)

Section Deleting.

Variable X : Externals.

(** X15.  Under a reclaim policy other than Delete, [_delete] leaves the
    external resources alone: it issues no provider call at all, removes the
    finalizer, sets Deleting and ReconcileSuccess, writes the object and
    asks for no requeue. *)
Theorem delete_retains_external_resources (r : Reconciler) (client : Client) (s : St) :
  ReclaimPolicy (Spec (instance s)) <> ReclaimDelete ->
  let o := fst (_delete X r client s) in
  let s' := snd (_delete X r client s) in
  calls s' = (calls s ++ [EvKubeUpdate (instance s')])%list /\
  ~ In finalizer (Finalizers (instance s')) /\
  Instance_GetCondition (instance s') TypeReady = Deleting /\
  Instance_GetCondition (instance s') TypeSynced = ReconcileSuccess /\
  o = Returned (mkResult false 0, Client_UpdateErr r (instance s')).
Proof.
  intros HP. apply String.eqb_neq in HP. simpl.
  rewrite (_delete_retain_run X r client s HP). simpl.
  split; [reflexivity|]. split; [apply RemoveFinalizer_removes|].
  split; [|split; [apply (Instance_GetCondition_set1 _ ReconcileSuccess)|reflexivity]].
  rewrite Instance_GetCondition_set1_other by types_differ.
  apply (Instance_GetCondition_set1 (instance s) Deleting).
Qed.

(** X16.  When no worker stack is recorded, [_delete] under the Delete
    policy asks for the master's deletion only; the worker deletion is not
    called, so only the master's answer decides between success and
    [fail]. *)
Theorem delete_without_stack_deletes_master_only
    (r : Reconciler) (client : Client) (s : St) :
  ReclaimPolicy (Spec (instance s)) = ReclaimDelete ->
  CloudFormationStackID (Status (instance s)) = "" ->
  let o := fst (_delete X r client s) in
  let s' := snd (_delete X r client s) in
  calls s' = (calls s ++ [EvDelete (ClusterName (Status (instance s)));
                          EvKubeUpdate (instance s')])%list /\
  (masterFailure X client (instance s) = [] ->
     ~ In finalizer (Finalizers (instance s')) /\
     o = Returned (mkResult false 0, Client_UpdateErr r (instance s'))) /\
  (masterFailure X client (instance s) <> [] ->
     Finalizers (instance s') = Finalizers (instance s) /\
     o = Returned (mkResult false aShortWait, Client_UpdateErr r (instance s'))).
Proof.
  intros HP HS. simpl.
  rewrite _delete_run by (rewrite HP; reflexivity).
  unfold workerFailure, deletionCalls. rewrite HS. simpl. rewrite app_nil_r.
  destruct (masterFailure X client (instance s)) as [|m ms]; simpl.
  - split; [reflexivity|]. split; [|intros H; now elim H].
    intros _. split; [apply RemoveFinalizer_removes|reflexivity].
  - split; [reflexivity|]. split; [intros H; discriminate H|].
    intros _. split; reflexivity.
Qed.

End Deleting.

(** *** Referencers *)

Section Referencers.

Variable r : Reconciler.

(** X17.  [GetStatus] answers with exactly one status, named after the
    reference, or with the reader's error and no status.  The status is
    Ready only when the target was read and its Ready condition is True,
    NotFound only when the reader reported "not found"; any other reader
    error is passed on.  The instance is not touched. *)
Theorem GetStatus_classifies (v : Referencer) (s : St) :
  let target := Reader_Get r (Referencer_Kind v) (Namespace (instance s)) (Referencer_Name v) in
  exists sts err,
    fst (GetStatus r v s) = Returned (sts, err) /\
    instance (snd (GetStatus r v s)) = instance s /\
    match err with
    | Some e => sts = [] /\ target = inr e /\ kerrors_IsNotFound e = false
    | None =>
        exists st, sts = [mkReferenceStatus (Referencer_Name v) st] /\
          (st = ReferenceReady <->
             exists t, target = inl t /\
                       IsConditionTrue (GetCondition (Target_Conditions t) TypeReady) = true) /\
          (st = ReferenceNotFound <->
             exists e, target = inr e /\ kerrors_IsNotFound e = true)
    end.
Proof.
  unfold GetStatus, bind, getInstance, emit, ret; simpl.
  destruct (Reader_Get r (Referencer_Kind v) (Namespace (instance s)) (Referencer_Name v))
    as [t|e] eqn:E.
  - destruct (IsConditionTrue (GetCondition (Target_Conditions t) TypeReady)) eqn:HR; simpl.
    + eexists _, None. split; [reflexivity|]. split; [reflexivity|].
      exists ReferenceReady. split; [reflexivity|]. split.
      * split; [intros _; now exists t|reflexivity].
      * split; [discriminate|]. intros (e & He & _). discriminate He.
    + eexists _, None. split; [reflexivity|]. split; [reflexivity|].
      exists ReferenceNotReady. split; [reflexivity|]. split.
      * split; [discriminate|]. intros (t' & Ht & Ht'). injection Ht as <-. congruence.
      * split; [discriminate|]. intros (e & He & _). discriminate He.
  - destruct (kerrors_IsNotFound e) eqn:HN.
    + eexists _, None. split; [reflexivity|]. split; [reflexivity|].
      exists ReferenceNotFound. split; [reflexivity|]. split.
      * split; [discriminate|]. intros (t & Ht & _). discriminate Ht.
      * split; [intros _; now exists e|reflexivity].
    + exists [], (Some e). split; [reflexivity|]. split; [reflexivity|]. now repeat split.
Qed.

(** X18.  A reference that [GetStatus] reports Ready can be built: with the
    same reader and namespace, [Build] returns the target's attribute and no
    error.  When the reader fails, "not found" included, [Build] returns the
    empty string and the reader's error. *)
Theorem ready_reference_builds (v : Referencer) (s s2 : St) :
  Namespace (instance s2) = Namespace (instance s) ->
  (fst (GetStatus r v s)
     = Returned ([mkReferenceStatus (Referencer_Name v) ReferenceReady], None) ->
   exists t,
     Reader_Get r (Referencer_Kind v) (Namespace (instance s)) (Referencer_Name v) = inl t /\
     fst (Build r v s2) = Returned (Target_Attribute t, None)) /\
  (forall e,
     Reader_Get r (Referencer_Kind v) (Namespace (instance s)) (Referencer_Name v) = inr e ->
     fst (Build r v s2) = Returned ("", Some e)).
Proof.
  intros HN. unfold GetStatus, Build, bind, getInstance, emit, ret; simpl. rewrite HN.
  destruct (Reader_Get r (Referencer_Kind v) (Namespace (instance s)) (Referencer_Name v))
    as [t|e] eqn:E.
  - split; [|intros e He; discriminate He].
    intros _. exists t. split; reflexivity.
  - split; [|intros e' He; injection He as <-; reflexivity].
    destruct (kerrors_IsNotFound e); simpl; intros H; discriminate H.
Qed.

End Referencers.

(** X19.  The Assign methods of the list-valued fields append: assigning the
    values of a run of subnet referencers adds them, in order, after the
    subnet ids already in the spec, and the same holds for the cluster's
    security groups.  Nothing else of the instance changes. *)
Theorem list_assigns_append_in_order (vs : list (string * string)) (i : EKSCluster) :
  assignAll (map (fun p => (SubnetIDReferencerForEKSCluster (fst p), snd p)) vs) i
  = set_Parameters (fun p => with_SubnetIDs (SubnetIDs p ++ map snd vs) p) i /\
  assignAll (map (fun p => (SecurityGroupIDReferencerForEKSCluster (fst p), snd p)) vs) i
  = set_Parameters (fun p => with_SecurityGroupIDs (SecurityGroupIDs p ++ map snd vs) p) i.
Proof.
  split; revert i; induction vs as [|[n v] rest IH]; intros i; simpl.
  - destruct i as [? ? ? ? ? [? ? []] ?]. unfold set_Parameters. simpl.
    now rewrite app_nil_r.
  - unfold assignAll in *. simpl. rewrite IH.
    destruct i as [? ? ? ? ? [? ? []] ?]. unfold set_Parameters. simpl.
    now rewrite <- app_assoc.
  - destruct i as [? ? ? ? ? [? ? []] ?]. unfold set_Parameters. simpl.
    now rewrite app_nil_r.
  - unfold assignAll in *. simpl. rewrite IH.
    destruct i as [? ? ? ? ? [? ? []] ?]. unfold set_Parameters. simpl.
    now rewrite <- app_assoc.
Qed.

(** X20.  Each Assign method writes one field of the spec's parameters:
    assignments through referencers of different fields commute, and the
    status, the finalizers and the rest of the instance are untouched. *)
Theorem assigns_to_different_fields_commute
    (v1 v2 : Referencer) (a b : string) (i : EKSCluster) :
  sameField v1 v2 = false ->
  assignTo v1 a (assignTo v2 b i) = assignTo v2 b (assignTo v1 a i) /\
  sameButParameters (assignTo v1 a i) i.
Proof.
  intros H. split.
  - destruct v1, v2; simpl in H; try discriminate H; reflexivity.
  - destruct v1; now repeat split.
Qed.

(** *** The auth map and the connection secret *)

Lemma mapGet_mapSet_same m k v : mapGet (mapSet m k v) k = Some v.
Proof. unfold mapSet. simpl. now rewrite String.eqb_refl. Qed.

Lemma mapGet_mapSet_other m k k' v : k <> k' -> mapGet (mapSet m k v) k' = mapGet m k'.
Proof.
  intros H. unfold mapSet. simpl. apply String.eqb_neq in H. rewrite H.
  induction m as [|[k0 v0] rest IH]; simpl; [reflexivity|].
  destruct (String.eqb k0 k) eqn:E0; simpl.
  - apply String.eqb_eq in E0. subst k0. now rewrite H.
  - destruct (String.eqb k0 k'); [reflexivity|exact IH].
Qed.

Section AuthAndSecret.

Variable R : Remote.

(** X21.  The aws-auth config map that [generateAWSAuthConfigMap] builds is
    named aws-auth in kube-system.  Its mapRoles entry encodes the spec's
    roles, in order, followed by the node role of the worker ARN; its
    mapUsers entry is there exactly when the spec lists users; it has no
    other entry.  The function fails only with the encoder's error, and
    the users are encoded only when there are some. *)
Theorem auth_config_map_contents (inst : EKSCluster) (workerARN : string) :
  let roles := (MapRoles (Parameters (Spec inst)) ++ [defaultRole workerARN])%list in
  let users := MapUsers (Parameters (Spec inst)) in
  match generateAWSAuthConfigMap R inst workerARN with
  | inl cm =>
      CM_Name cm = "aws-auth" /\ CM_Namespace cm = "kube-system" /\
      yaml_Marshal_roles R roles = (fst (yaml_Marshal_roles R roles), None) /\
      mapGet (CM_Data cm) "mapRoles" = Some (fst (yaml_Marshal_roles R roles)) /\
      mapGet (CM_Data cm) "mapUsers"
        = (match users with
           | [] => None
           | _ => Some (fst (yaml_Marshal_users R users))
           end) /\
      (forall k, k <> "mapRoles" -> k <> "mapUsers" -> mapGet (CM_Data cm) k = None)
  | inr e =>
      snd (yaml_Marshal_roles R roles) = Some e \/
      (users <> [] /\ snd (yaml_Marshal_users R users) = Some e)
  end.
Proof.
  unfold generateAWSAuthConfigMap. cbv zeta.
  destruct (yaml_Marshal_roles R _) as [rolesMarshalled [e|]] eqn:ER; [now left|].
  assert (eksAuthMapRolesKey <> eksAuthMapUsersKey) as Hne by discriminate.
  destruct (MapUsers (Parameters (Spec inst))) as [|u us] eqn:EU.
  - cbn [length Z.of_nat Z.ltb Z.compare CM_Name CM_Namespace CM_Data fst].
    split; [reflexivity|]. split; [reflexivity|]. split; [reflexivity|].
    split; [apply mapGet_mapSet_same|].
    split; [now rewrite mapGet_mapSet_other by exact Hne|].
    intros k Hk _. rewrite mapGet_mapSet_other; [reflexivity|].
    intros E. apply Hk. now rewrite <- E.
  - assert ((0 <? Z.of_nat (length (u :: us))) = true) as -> by (apply Z.ltb_lt; simpl; lia).
    destruct (yaml_Marshal_users R (u :: us)) as [usersMarshalled [e|]] eqn:EM.
    + right. split; [discriminate|reflexivity].
    + cbn [CM_Name CM_Namespace CM_Data fst].
      split; [reflexivity|]. split; [reflexivity|]. split; [reflexivity|].
      split; [rewrite mapGet_mapSet_other by (apply not_eq_sym; exact Hne);
              apply mapGet_mapSet_same|].
      split; [apply mapGet_mapSet_same|].
      intros k Hr Hu. rewrite !mapGet_mapSet_other; [reflexivity| |].
      * intros E. apply Hr. now rewrite <- E.
      * intros E. apply Hu. now rewrite <- E.
Qed.

(** A successful [_awsauth] has created or updated the generated map. *)
Lemma awsauth_creates_or_updates_aux cluster inst workerARN :
  snd (_awsauth R cluster inst workerARN) = None ->
  exists cfg cm,
    generateAWSAuthConfigMap R inst workerARN = inl cm /\
    Host cfg = Cluster_Endpoint cluster /\
    (ConfigMaps_Create R cfg cm = None \/ ConfigMaps_Update R cfg cm = None).
Proof.
  unfold _awsauth.
  destruct (generateAWSAuthConfigMap R inst workerARN) as [cm|e]; simpl; [|discriminate].
  destruct (ConnectionToken R (ClusterName (Status inst))) as [token [e|]]; simpl;
    [discriminate|].
  destruct (base64_DecodeString R (Cluster_CA cluster)) as [caData [e|]]; simpl;
    [discriminate|].
  destruct (kubernetes_NewForConfig R _) as [e|]; simpl; [discriminate|].
  destruct (ConfigMaps_Create R _ cm) as [e|] eqn:EC; simpl.
  - destruct (apierrors_IsAlreadyExists e); simpl; [|discriminate].
    intros HU. eexists _, cm. split; [reflexivity|]. split; [|right; exact HU]. reflexivity.
  - intros _. eexists _, cm. split; [reflexivity|]. split; [|left; exact EC]. reflexivity.
Qed.

(** A successful [_secret] has published the cluster's endpoint. *)
Lemma secret_publishes_aux cluster inst :
  snd (_secret R cluster inst) = None ->
  exists details,
    PublishConnection R inst details = None /\
    mapGet details ResourceCredentialsSecretEndpointKey = Some (Cluster_Endpoint cluster).
Proof.
  unfold _secret.
  destruct (ConnectionToken R (ClusterName (Status inst))) as [token [e|]]; simpl;
    [discriminate|].
  destruct (base64_DecodeString R (Cluster_CA cluster)) as [caData [e|]]; simpl;
    [discriminate|].
  intros H. eexists. split; [exact H|reflexivity].
Qed.

(** X22.  [_awsauth] talks to the remote cluster only with a generated
    config map and a configuration made of the cluster's endpoint, the
    decoded CA and the connection token.  It updates the config map only
    when creating it was refused as "already exists", and then returns the
    update's result; when it returns no error the map has been created or
    updated. *)
Theorem awsauth_creates_or_updates
    (cluster : Cluster) (inst : EKSCluster) (workerARN : string) :
  let issued := fst (_awsauth R cluster inst workerARN) in
  let err := snd (_awsauth R cluster inst workerARN) in
  let token := ConnectionToken R (ClusterName (Status inst)) in
  let ca := base64_DecodeString R (Cluster_CA cluster) in
  (forall c cm, In (RcCreateConfigMap c cm) issued ->
     generateAWSAuthConfigMap R inst workerARN = inl cm /\
     token = (BearerToken c, None) /\ ca = (CAData c, None) /\
     Host c = Cluster_Endpoint cluster /\ kubernetes_NewForConfig R c = None) /\
  (forall c cm, In (RcUpdateConfigMap c cm) issued ->
     In (RcCreateConfigMap c cm) issued /\
     (exists e, ConfigMaps_Create R c cm = Some e /\ apierrors_IsAlreadyExists e = true) /\
     err = ConfigMaps_Update R c cm) /\
  (err = None ->
     exists c cm, In (RcCreateConfigMap c cm) issued /\
       (ConfigMaps_Create R c cm = None \/
        (In (RcUpdateConfigMap c cm) issued /\ ConfigMaps_Update R c cm = None))).
Proof.
  unfold _awsauth.
  destruct (generateAWSAuthConfigMap R inst workerARN) as [cm|e]; simpl.
  2:{ split; [intros ? ? []|]. split; [intros ? ? []|]. discriminate. }
  destruct (ConnectionToken R (ClusterName (Status inst))) as [token [e|]]; simpl.
  { split; [intros c cm' [H|[]]; discriminate H|].
    split; [intros c cm' [H|[]]; discriminate H|]. discriminate. }
  destruct (base64_DecodeString R (Cluster_CA cluster)) as [caData [e|]]; simpl.
  { split; [intros c cm' [H|[]]; discriminate H|].
    split; [intros c cm' [H|[]]; discriminate H|]. discriminate. }
  destruct (kubernetes_NewForConfig R _) as [e|] eqn:EN; simpl.
  { split; [intros c cm' [H|[]]; discriminate H|].
    split; [intros c cm' [H|[]]; discriminate H|]. discriminate. }
  set (c0 := mkRestConfig (Cluster_Endpoint cluster) caData token) in *.
  destruct (ConfigMaps_Create R c0 cm) as [e|] eqn:EC; simpl.
  - destruct (apierrors_IsAlreadyExists e) eqn:EA; simpl.
    + split.
      { intros c cm' [H|[H|[H|[]]]]; try discriminate H.
        injection H as <- <-. now repeat split. }
      split.
      { intros c cm' [H|[H|[H|[]]]]; try discriminate H.
        injection H as <- <-. split; [right; now left|].
        split; [now exists e|reflexivity]. }
      intros HU. exists c0, cm. split; [right; now left|].
      right. split; [right; right; now left|exact HU].
    + split.
      { intros c cm' [H|[H|[]]]; try discriminate H.
        injection H as <- <-. now repeat split. }
      split; [intros c cm' [H|[H|[]]]; discriminate H|]. discriminate.
  - split.
    { intros c cm' [H|[H|[]]]; try discriminate H.
      injection H as <- <-. now repeat split. }
    split; [intros c cm' [H|[H|[]]]; discriminate H|].
    intros _. exists c0, cm. split; [right; now left|now left].
Qed.

(** X23.  [_secret] publishes at most once, and only after the token was
    obtained and the CA decoded: the details hold exactly the cluster's
    endpoint, the decoded CA (not the base64 text) and the token, and the
    result is the publisher's.  A failing token or decoding is returned
    and nothing is published. *)
Theorem secret_publishes_decoded_ca (cluster : Cluster) (inst : EKSCluster) :
  let issued := fst (_secret R cluster inst) in
  let err := snd (_secret R cluster inst) in
  let token := ConnectionToken R (ClusterName (Status inst)) in
  let ca := base64_DecodeString R (Cluster_CA cluster) in
  (forall details, In (RcPublishConnection details) issued ->
     snd token = None /\ snd ca = None /\
     details = [(ResourceCredentialsSecretEndpointKey, Cluster_Endpoint cluster);
                (ResourceCredentialsSecretCAKey, fst ca);
                (ResourceCredentialsTokenKey, fst token)] /\
     err = PublishConnection R inst details) /\
  (forall e, snd token = Some e \/ (snd token = None /\ snd ca = Some e) ->
     err = Some e /\ forall details, ~ In (RcPublishConnection details) issued) /\
  (snd token = None -> snd ca = None ->
     exists details, issued = [RcConnectionToken (ClusterName (Status inst));
                               RcPublishConnection details]).
Proof.
  unfold _secret.
  destruct (ConnectionToken R (ClusterName (Status inst))) as [token [e|]]; simpl.
  { split; [intros d [H|[]]; discriminate H|]. split; [|discriminate].
    intros e' [H|[H _]]; [|discriminate H]. injection H as <-.
    split; [reflexivity|]. intros d [H|[]]; discriminate H. }
  destruct (base64_DecodeString R (Cluster_CA cluster)) as [caData [e|]]; simpl.
  { split; [intros d [H|[]]; discriminate H|]. split; [|discriminate].
    intros e' [H|[_ H]]; [discriminate H|]. injection H as <-.
    split; [reflexivity|]. intros d [H|[]]; discriminate H. }
  split.
  { intros d [H|[H|[]]]; [discriminate H|]. injection H as <-. now repeat split. }
  split; [intros e [H|[_ H]]; discriminate H|].
  intros _ _. eexists. reflexivity.
Qed.

(** X24.  With [secret] and [awsauth] wired to [_secret] and [_awsauth], a
    [_sync] that asks for the long wait, the mark of an available cluster,
    has had the aws-auth config map created or updated on the remote
    cluster and the connection details, with the cluster's endpoint,
    published. *)
Theorem available_means_published
    (X : Externals) (getErr : option error) (updateErr : EKSCluster -> option error)
    (reader : Kind -> string -> string -> Target + error)
    (conn : EKSCluster -> Client + error)
    (client : Client) (s : St) (res : Result) (err : option error) :
  fst (_sync X (production R getErr updateErr reader conn) client s) = Returned (res, err) ->
  RequeueAfter res = aLongWait ->
  exists c w details cfg cm,
    Get client (ClusterName (Status (instance s))) = (Some c, None) /\
    GetWorkerNodes client (CloudFormationStackID (Status (instance s))) = (Some w, None) /\
    generateAWSAuthConfigMap R (instance s) (WorkerARN w) = inl cm /\
    (ConfigMaps_Create R cfg cm = None \/ ConfigMaps_Update R cfg cm = None) /\
    Host cfg = Cluster_Endpoint c /\
    PublishConnection R (instance s) details = None /\
    mapGet details ResourceCredentialsSecretEndpointKey = Some (Cluster_Endpoint c).
Proof.
  intros Hrun Hlong.
  destruct (_sync_long_wait_inversion X _ client s Hrun) as [_ H].
  destruct (H Hlong) as (c & w & HG & _ & _ & HW & _ & Hauth & Hsec). clear H.
  simpl in Hauth, Hsec.
  destruct (awsauth_creates_or_updates_aux c (instance s) (WorkerARN w) Hauth)
    as (cfg & cm & Hgen & Hhost & Hdone).
  destruct (secret_publishes_aux c (instance s) Hsec) as (details & Hpub & Hend).
  exists c, w, details, cfg, cm. now repeat split.
Qed.

End AuthAndSecret.

(** *** The properties above at sample inputs *)

Lemma reconcile_without_object_witness :
  fst (Reconcile Sample.X (Sample.reconciler Sample.allReady Sample.obliging)
                 (mkSt EKSCluster_zero None []))
  = Returned (Result_zero, None).
Proof.
  destruct (@reconcile_without_object Sample.X
              (Sample.reconciler Sample.allReady Sample.obliging)
              (mkSt EKSCluster_zero None []) (or_intror eq_refl)) as (_ & _ & _ & H).
  exact H.
Defined.

Lemma reconcile_connect_failure_witness :
  let p := Reconcile Sample.X Sample.unreachable (Sample.start (Sample.fresh [])) in
  Finalizers (instance (snd p)) = [] /\
  fst p = Returned (mkResult false aShortWait, None).
Proof.
  cbv zeta.
  destruct (@reconcile_connect_failure Sample.X Sample.unreachable
              (Sample.start (Sample.fresh [])) (Sample.fresh [])
              (errorsNew "no credentials") eq_refl eq_refl eq_refl) as (_ & _ & Hf & _ & Ho).
  split; [exact Hf|exact Ho].
Defined.

Lemma first_resolution_records_success_witness :
  Instance_GetCondition
    (instance (snd (Reconcile Sample.X (Sample.reconciler Sample.allReady Sample.obliging)
                              (Sample.start (Sample.fresh [])))))
    TypeReferencesResolved = ReferenceResolutionSuccess.
Proof.
  exact (proj1 (@first_resolution_records_success Sample.X
                  (Sample.reconciler Sample.allReady Sample.obliging)
                  (Sample.start (Sample.fresh [])) (Sample.fresh []) Sample.obliging
                  (snd (ResolveReferences (Sample.reconciler Sample.allReady Sample.obliging)
                          (fetched (Sample.start (Sample.fresh [])) (Sample.fresh []))))
                  eq_refl eq_refl eq_refl eq_refl eq_refl)).
Defined.


Lemma create_records_cluster_witness :
  ClusterName (Status (instance (snd (_create Sample.X
                                        (Sample.reconciler Sample.allReady Sample.obliging)
                                        Sample.obliging
                                        (Sample.within (Sample.fresh []))))))
  = "eks-uid".
Proof.
  exact (proj1 (@create_records_cluster Sample.X
                  (Sample.reconciler Sample.allReady Sample.obliging) Sample.obliging
                  (Sample.within (Sample.fresh [])) Sample.activeCluster eq_refl)).
Defined.

Lemma sync_waits_for_active_cluster_witness :
  let c := Sample.provider (Some Sample.creatingCluster, None)
                           (Some Sample.workers, None) (Some Sample.workers, None) in
  let p := _sync Sample.X (Sample.reconciler Sample.allReady c) c
                 (Sample.within Sample.unstacked) in
  fst p = Returned (mkResult false aShortWait, None) /\
  server (snd p) = Some Sample.unstacked.
Proof.
  cbv zeta.
  destruct (@sync_waits_for_active_cluster Sample.X
              (Sample.reconciler Sample.allReady
                 (Sample.provider (Some Sample.creatingCluster, None)
                                  (Some Sample.workers, None) (Some Sample.workers, None)))
              (Sample.provider (Some Sample.creatingCluster, None)
                               (Some Sample.workers, None) (Some Sample.workers, None))
              (Sample.within Sample.unstacked) Sample.creatingCluster eq_refl)
    as (Ho & _ & Hs & _).
  - simpl. discriminate.
  - split; [exact Ho|exact Hs].
Defined.

Lemma sync_requests_worker_nodes_witness :
  let c := Sample.provider (Some Sample.activeCluster, None)
                           (Some Sample.workers, None) (Some Sample.workers, None) in
  CloudFormationStackID
    (Status (instance (snd (_sync Sample.X (Sample.reconciler Sample.allReady c) c
                                  (Sample.within Sample.unstacked)))))
  = "stack-1".
Proof.
  cbv zeta.
  destruct (@sync_requests_worker_nodes Sample.X
              (Sample.reconciler Sample.allReady
                 (Sample.provider (Some Sample.activeCluster, None)
                                  (Some Sample.workers, None) (Some Sample.workers, None)))
              (Sample.provider (Some Sample.activeCluster, None)
                               (Some Sample.workers, None) (Some Sample.workers, None))
              (Sample.within Sample.unstacked) Sample.activeCluster
              (Some Sample.workers) None eq_refl eq_refl eq_refl eq_refl) as (H & _ & _).
  exact (proj1 (H Sample.workers eq_refl eq_refl)).
Defined.

Lemma sync_never_recreates_workers_witness :
  Forall (fun ev => forall n v sp, ev <> EvCreateWorkerNodes n v sp)
    (calls (snd (_sync Sample.X (Sample.reconciler Sample.allReady Sample.obliging)
                       Sample.obliging
                       (Sample.within (Sample.cluster None [ReferenceResolutionSuccess]))))).
Proof.
  destruct (@sync_never_recreates_workers Sample.X
              (Sample.reconciler Sample.allReady Sample.obliging) Sample.obliging
              (Sample.within (Sample.cluster None [ReferenceResolutionSuccess])))
    as (evs & E & H).
  - simpl. discriminate.
  - rewrite E. exact H.
Defined.

Lemma sync_waits_for_stack_witness :
  let c := Sample.provider (Some Sample.activeCluster, None)
                           (Some Sample.workers, None) (Some Sample.pendingWorkers, None) in
  let p := _sync Sample.X (Sample.reconciler Sample.allReady c) c
                 (Sample.within (Sample.cluster None [ReferenceResolutionSuccess])) in
  fst p = Returned (mkResult false aShortWait, None) /\
  Instance_GetCondition (instance (snd p)) TypeSynced = ReconcileSuccess.
Proof.
  cbv zeta.
  destruct (@sync_waits_for_stack Sample.X
              (Sample.reconciler Sample.allReady
                 (Sample.provider (Some Sample.activeCluster, None)
                                  (Some Sample.workers, None)
                                  (Some Sample.pendingWorkers, None)))
              (Sample.provider (Some Sample.activeCluster, None)
                               (Some Sample.workers, None) (Some Sample.pendingWorkers, None))
              (Sample.within (Sample.cluster None [ReferenceResolutionSuccess]))
              Sample.activeCluster Sample.pendingWorkers eq_refl eq_refl)
    as (Hy & _ & _ & Ho); [simpl; discriminate|reflexivity|reflexivity|].
  split; [exact Ho|exact Hy].
Defined.

Lemma sync_makes_available_witness :
  let p := _sync Sample.X (Sample.reconciler Sample.allReady Sample.obliging) Sample.obliging
                 (Sample.within (Sample.cluster None [ReferenceResolutionSuccess])) in
  Instance_GetCondition (instance (snd p)) TypeReady = Available /\
  fst p = Returned (mkResult false aLongWait, None).
Proof.
  cbv zeta.
  destruct (@sync_makes_available Sample.X
              (Sample.reconciler Sample.allReady Sample.obliging) Sample.obliging
              (Sample.within (Sample.cluster None [ReferenceResolutionSuccess]))
              Sample.activeCluster Sample.workers eq_refl eq_refl)
    as (Hr & _ & _ & _ & _ & _ & Ho);
    [simpl; discriminate|reflexivity|reflexivity|reflexivity|reflexivity|].
  split; [exact Hr|exact Ho].
Defined.

Lemma sync_long_wait_only_when_available_witness :
  exists c w,
    Get Sample.obliging "eks-uid" = (Some c, None) /\
    completedCFState (WorkersStatus w) = true.
Proof.
  destruct (@sync_long_wait_only_when_available Sample.X
              (Sample.reconciler Sample.allReady Sample.obliging) Sample.obliging
              (Sample.within (Sample.cluster None [ReferenceResolutionSuccess]))
              (mkResult false aLongWait) None eq_refl) as [_ H].
  destruct (H eq_refl) as (_ & c & w & HG & _ & _ & _ & HC & _).
  exists c, w. split; [exact HG|exact HC].
Defined.

Lemma delete_retains_external_resources_witness :
  let s' := snd (_delete Sample.X (Sample.reconciler Sample.allReady Sample.failing)
                         Sample.failing (Sample.within Sample.retained)) in
  calls s' = [EvKubeUpdate (instance s')] /\ ~ In finalizer (Finalizers (instance s')).
Proof.
  cbv zeta.
  destruct (@delete_retains_external_resources Sample.X
              (Sample.reconciler Sample.allReady Sample.failing) Sample.failing
              (Sample.within Sample.retained)) as (Hc & Hf & _).
  - simpl. discriminate.
  - split; [exact Hc|exact Hf].
Defined.

Lemma delete_without_stack_deletes_master_only_witness :
  let s' := snd (_delete Sample.X (Sample.reconciler Sample.allReady Sample.obliging)
                         Sample.obliging (Sample.within Sample.unstacked)) in
  calls s' = [EvDelete "eks-uid"; EvKubeUpdate (instance s')].
Proof.
  cbv zeta.
  exact (proj1 (@delete_without_stack_deletes_master_only Sample.X
                  (Sample.reconciler Sample.allReady Sample.obliging) Sample.obliging
                  (Sample.within Sample.unstacked) eq_refl eq_refl)).
Defined.

Lemma ready_reference_builds_witness :
  fst (Build (Sample.reconciler Sample.allReady Sample.obliging)
             (VPCIDReferencerForEKSCluster "vpc") (Sample.within (Sample.fresh [])))
  = Returned ("vpc-123", None).
Proof.
  destruct (@ready_reference_builds (Sample.reconciler Sample.allReady Sample.obliging)
              (VPCIDReferencerForEKSCluster "vpc")
              (Sample.within (Sample.fresh [])) (Sample.within (Sample.fresh [])) eq_refl)
    as [H _].
  destruct (H eq_refl) as (t & Ht & Hb).
  injection Ht as <-. exact Hb.
Defined.

Lemma assigns_to_different_fields_commute_witness :
  assignTo (VPCIDReferencerForEKSCluster "vpc") "vpc-1"
           (assignTo (SubnetIDReferencerForEKSCluster "a") "subnet-9" (Sample.fresh []))
  = assignTo (SubnetIDReferencerForEKSCluster "a") "subnet-9"
             (assignTo (VPCIDReferencerForEKSCluster "vpc") "vpc-1" (Sample.fresh [])).
Proof.
  exact (proj1 (@assigns_to_different_fields_commute
                  (VPCIDReferencerForEKSCluster "vpc") (SubnetIDReferencerForEKSCluster "a")
                  "vpc-1" "subnet-9" (Sample.fresh []) eq_refl)).
Defined.

Lemma available_means_published_witness :
  exists details,
    PublishConnection Sample.remote (Sample.cluster None [ReferenceResolutionSuccess]) details
      = None /\
    mapGet details ResourceCredentialsSecretEndpointKey = Some "https://eks".
Proof.
  destruct (@available_means_published Sample.remote Sample.X None (fun _ => None)
              Sample.allReady (fun _ => inl Sample.obliging) Sample.obliging
              (Sample.within (Sample.cluster None [ReferenceResolutionSuccess]))
              (mkResult false aLongWait) None eq_refl eq_refl)
    as (c & w & details & cfg & cm & HG & _ & _ & _ & _ & Hp & He).
  injection HG as <-. exists details. split; [exact Hp|exact He].
Defined.

(** *** Order and persistence within a pass *)

Section PassOrder.

Variable X : Externals.

(** Provisioning with an invariant on the log only. *)
Lemma tracking_provision (Q : Event -> Prop) (log0 : list Event) r client :
  (forall e, isResolutionCall e = false -> Q e) ->
  preserves (tracking (fun _ => True) Q log0) (provision X r client).
Proof.
  intros HQ. unfold provision.
  apply preserves_bind; [apply tracking_modify; intros; exact I|]. intros _.
  apply preserves_bind; [apply preserves_getInstance|]. intros i.
  destruct (DeletionTimestamp i).
  - apply (tracking_delete X); [intros; now apply HQ|apply True_closed|intros; exact I|].
    intros e He. apply HQ. now destruct e.
  - destruct (String.eqb _ _).
    + apply (tracking_create X); [intros; now apply HQ|apply True_closed|].
      intros e He. apply HQ. now destruct e.
    + apply (tracking_sync X); [intros; now apply HQ|apply True_closed|].
      intros e He. apply HQ. now destruct e.
Qed.

(** X25.  Within a pass, reference resolution strictly precedes
    provisioning: the calls of a pass split into a first part without any
    provider call and a second part without any resolution call. *)
Theorem resolution_precedes_provisioning (r : Reconciler) (s : St) :
  exists l1 l2,
    calls (snd (Reconcile X r s)) = (calls s ++ l1 ++ l2)%list /\
    Forall (fun e => isProviderCall e = false) l1 /\
    Forall (fun e => isResolutionCall e = false) l2.
Proof.
  destruct (Client_GetErr r) as [e|] eqn:HG.
  { rewrite (Reconcile_get_error X r s HG). exists [EvKubeGet], []. simpl.
    repeat split; repeat constructor. }
  destruct (server s) as [obj|] eqn:Hs.
  2:{ rewrite (Reconcile_absent X r s HG Hs). exists [EvKubeGet], []. simpl.
      repeat split; repeat constructor. }
  destruct (connect r obj) as [client|e] eqn:Hc.
  2:{ rewrite (Reconcile_connect_error X r s HG Hs Hc), fail_run. simpl.
      eexists [EvKubeGet; EvConnect; EvKubeUpdate _], []. simpl.
      rewrite <- app_assoc. repeat split; repeat constructor. }
  rewrite (Reconcile_fetched X r s HG Hs Hc).
  assert (forall s1 l1,
            calls s1 = (calls s ++ l1)%list ->
            Forall (fun e => isProviderCall e = false) l1 ->
            exists l1' l2,
              calls (snd (provision X r client s1)) = (calls s ++ l1' ++ l2)%list /\
              Forall (fun e => isProviderCall e = false) l1' /\
              Forall (fun e => isResolutionCall e = false) l2) as Hprov.
  { intros s1 l1 E1 H1.
    destruct (@tracking_provision (fun e => isResolutionCall e = false) (calls s1) r client
                (fun e H => H) s1 (conj I (grewBy_refl _ _))) as [_ (l2 & E2 & H2)].
    exists l1, l2. rewrite E2, E1, <- app_assoc. now repeat split. }
  destruct (IsConditionTrue (Instance_GetCondition obj TypeReferencesResolved)).
  { apply (Hprov (fetched s obj) [EvKubeGet; EvConnect]); [reflexivity|repeat constructor]. }
  pose proof (@resolving_ResolveReferences r obj (calls (fetched s obj)) (fetched s obj))
    as Hres.
  destruct (ResolveReferences r (fetched s obj)) as [[[e|]|] s2] eqn:HR; simpl in Hres.
  - destruct Hres as [_ (evs & E & Hev)]; [split; [now repeat split|apply grewBy_refl]|].
    simpl. eexists ([EvKubeGet; EvConnect] ++ evs ++ [EvKubeUpdate _])%list, [].
    rewrite E. unfold fetched. simpl. rewrite app_nil_r, <- !app_assoc. simpl.
    split; [reflexivity|]. split; [|constructor].
    repeat constructor. apply Forall_app. split; [exact Hev|repeat constructor].
  - destruct Hres as [_ (evs & E & Hev)]; [split; [now repeat split|apply grewBy_refl]|].
    apply (Hprov _ ([EvKubeGet; EvConnect] ++ evs)%list).
    + simpl. rewrite E. unfold fetched. simpl. now rewrite <- app_assoc.
    + repeat constructor. exact Hev.
  - destruct Hres as [_ (evs & E & Hev)]; [split; [now repeat split|apply grewBy_refl]|].
    simpl. exists ([EvKubeGet; EvConnect] ++ evs)%list, [].
    rewrite E. unfold fetched. simpl. rewrite app_nil_r, <- !app_assoc. simpl.
    split; [reflexivity|]. split; [|constructor]. repeat constructor. exact Hev.
Qed.

End PassOrder.

Section WriteErrors.

Variable X : Externals.

(** Closes a leaf of a branch: the result and the log are written out. *)
Ltac last_write :=
  let H1 := fresh "H" in
  let H2 := fresh "H" in
  intros H1 H2; try discriminate H1; injection H1 as <- <-;
  apply app_inj_tail in H2 as [_ H2];
  first [discriminate H2|injection H2 as <-; reflexivity].

Lemma create_returns_write_error r client s res err l o :
  fst (_create X r client s) = Returned (res, err) ->
  calls (snd (_create X r client s)) = (l ++ [EvKubeUpdate o])%list ->
  err = Client_UpdateErr r o.
Proof.
  unfold _create. step_pass.
  destruct (Create client _ _) as [[c|] [e|]]; simpl;
    try (destruct (eks_IsErrorAlreadyExists X e); simpl;
         try destruct (eks_IsErrorBadRequest X e)); step_pass; last_write.
Qed.

Lemma sync_returns_write_error r client s res err l o :
  fst (_sync X r client s) = Returned (res, err) ->
  calls (snd (_sync X r client s)) = (l ++ [EvKubeUpdate o])%list ->
  err = Client_UpdateErr r o.
Proof.
  unfold _sync. step_pass.
  destruct (Get client (ClusterName (Status (instance s)))) as [[c|] [e|]]; step_pass;
    try last_write.
  destruct (String.eqb (Cluster_Status c) ClusterStatusActive); step_pass; [|last_write].
  destruct (String.eqb (CloudFormationStackID (Status (instance s))) ""); simpl;
    unfold bind, emit; simpl.
  { destruct (CreateWorkerNodes client _ _ _) as [[ws|] [e|]]; step_pass; last_write. }
  destruct (GetWorkerNodes client (CloudFormationStackID (Status (instance s))))
    as [[w|] [e|]]; step_pass; try last_write.
  destruct (failedCFState (WorkersStatus w)); step_pass; [last_write|].
  destruct (completedCFState (WorkersStatus w)); step_pass; [|last_write].
  destruct (awsauth r c (instance s) (WorkerARN w)); step_pass; [last_write|].
  destruct (secret r c (instance s)); step_pass; last_write.
Qed.

Lemma delete_returns_write_error r client s res err l o :
  fst (_delete X r client s) = Returned (res, err) ->
  calls (snd (_delete X r client s)) = (l ++ [EvKubeUpdate o])%list ->
  err = Client_UpdateErr r o.
Proof.
  destruct (String.eqb (ReclaimPolicy (Spec (instance s))) ReclaimDelete) eqn:HP.
  - rewrite (_delete_run X r client s HP).
    destruct (masterFailure X client (instance s) ++ workerFailure X client (instance s))%list;
      cbv zeta; cbn [fst snd calls]; rewrite app_assoc; last_write.
  - rewrite (_delete_retain_run X r client s HP). cbv zeta. cbn [fst snd calls]. last_write.
Qed.

(** X26.  A failed status write is never swallowed: when the last call of a
    pass is a write of the object, the pass returns an error exactly when
    the API server refused that write. *)
Theorem reconcile_returns_write_error
    (r : Reconciler) (s : St) (res : Result) (err : option error)
    (l : list Event) (o : EKSCluster) :
  fst (Reconcile X r s) = Returned (res, err) ->
  calls (snd (Reconcile X r s)) = (l ++ [EvKubeUpdate o])%list ->
  (err = None <-> Client_UpdateErr r o = None).
Proof.
  destruct (Client_GetErr r) as [e|] eqn:HG.
  { rewrite (Reconcile_get_error X r s HG). simpl. intros _ H.
    apply app_inj_tail in H as [_ H]. discriminate H. }
  destruct (server s) as [obj|] eqn:Hs.
  2:{ rewrite (Reconcile_absent X r s HG Hs). simpl. intros _ H.
      apply app_inj_tail in H as [_ H]. discriminate H. }
  destruct (connect r obj) as [client|e] eqn:Hc.
  2:{ rewrite (Reconcile_connect_error X r s HG Hs Hc), fail_run. simpl.
      intros H1 H2. injection H1 as <- <-. apply app_inj_tail in H2 as [_ H2].
      injection H2 as <-. reflexivity. }
  rewrite (Reconcile_fetched X r s HG Hs Hc).
  assert (forall s1, fst (provision X r client s1) = Returned (res, err) ->
                     calls (snd (provision X r client s1)) = (l ++ [EvKubeUpdate o])%list ->
                     err = None <-> Client_UpdateErr r o = None) as Hprov.
  { intros s1. unfold provision, bind, modify, getInstance; simpl.
    destruct (DeletionTimestamp (AddFinalizer finalizer (instance s1))).
    - intros H1 H2. now rewrite (@delete_returns_write_error _ _ _ _ _ _ _ H1 H2).
    - destruct (String.eqb _ _); intros H1 H2.
      + now rewrite (@create_returns_write_error _ _ _ _ _ _ _ H1 H2).
      + now rewrite (@sync_returns_write_error _ _ _ _ _ _ _ H1 H2). }
  destruct (IsConditionTrue (Instance_GetCondition obj TypeReferencesResolved));
    [apply Hprov|].
  destruct (ResolveReferences r (fetched s obj)) as [[[e|]|] s2]; simpl.
  - intros H1 H2. injection H1 as <- <-. apply app_inj_tail in H2 as [_ H2].
    injection H2 as <-. unfold Wrap.
    destruct (Client_UpdateErr r _); split; intros H; congruence.
  - apply Hprov.
  - discriminate.
Qed.

End WriteErrors.

Lemma reconcile_returns_write_error_witness :
  Client_UpdateErr Sample.refusing
    (instance (snd (Reconcile Sample.X Sample.refusing
                              (Sample.start (Sample.fresh [ReferenceResolutionSuccess])))))
  <> None.
Proof.
  intros H.
  pose proof (@reconcile_returns_write_error Sample.X Sample.refusing
                (Sample.start (Sample.fresh [ReferenceResolutionSuccess]))
                (mkResult false aShortWait)
                (Some (errorsNew "the object has been modified"))
                (removelast (calls (snd (Reconcile Sample.X Sample.refusing
                   (Sample.start (Sample.fresh [ReferenceResolutionSuccess]))))))
                (instance (snd (Reconcile Sample.X Sample.refusing
                   (Sample.start (Sample.fresh [ReferenceResolutionSuccess])))))
                eq_refl eq_refl) as [_ Hback].
  discriminate (Hback H).
Defined.
